(** * Judgement card game: rules engine and room registry

    A shallow embedding of [src/judgement/models.py],
    [src/judgement/game_logic.py], [src/judgement/room_manager.py] and the
    bid / play handlers of [src/judgement/websocket_handler.py].

    Python [int] is [Z]; [str] is [string]; a [list] is a [list]; the
    dictionaries keyed by strings ([RoundState.bids], [RoomManager.rooms],
    [RoomManager.player_rooms]) are [gmap string _] (their iteration order
    is not modelled: the code only sums values and looks keys up).
    A call either returns a value or raises: [result]. *)

From Stdlib Require Import ZArith.
From stdpp Require Import base option list sorting gmap strings pretty.

Local Open Scope Z_scope.

(** ** Python semantics used by the code *)

Module Py.

Inductive exn : Type :=
| ZeroDivisionError
| IndexError
| ValueError
| TypeError
| AssertionError
| AttributeError.

(** The outcome of a call. [Raise e] aborts the call; what Python leaves
    in the mutated objects at that point is not described by the model. *)
Inductive result (A : Type) : Type :=
| Ok (a : A)
| Raise (e : exn).
Arguments Ok {A} a.
Arguments Raise {A} e.

Definition bind {A B} (m : result A) (k : A → result B) : result B :=
  match m with
  | Ok a => k a
  | Raise e => Raise e
  end.

(** [len(l)] *)
Definition len {A} (l : list A) : Z := Z.of_nat (length l).

(** [l[i]] for a list: negative indices count from the end. *)
Definition index {A} (l : list A) (i : Z) : result A :=
  let j := if decide (i < 0) then len l + i else i in
  if decide (j < 0) then Raise IndexError
  else match l !! Z.to_nat j with
       | Some x => Ok x
       | None => Raise IndexError
       end.

(** [a // b] and [a % b] on integers: Python floors, as [Z.div] and
    [Z.modulo] do; a zero divisor raises. *)
Definition floordiv (a b : Z) : result Z :=
  if decide (b = 0) then Raise ZeroDivisionError else Ok (a / b).

Definition modulo (a b : Z) : result Z :=
  if decide (b = 0) then Raise ZeroDivisionError else Ok (a mod b).

(** [list(range(a, b))]: a, a+1, ..., b-1. *)
Fixpoint range_from (a : Z) (n : nat) : list Z :=
  match n with
  | O => []
  | S n' => a :: range_from (a + 1) n'
  end.

Definition range (a b : Z) : list Z := range_from a (Z.to_nat (b - a)).

(** [list(range(a, b, -1))]: a, a-1, ..., b+1. *)
Fixpoint range_down_from (a : Z) (n : nat) : list Z :=
  match n with
  | O => []
  | S n' => a :: range_down_from (a - 1) n'
  end.

Definition range_down (a b : Z) : list Z :=
  range_down_from a (Z.to_nat (a - b)).

(** [sum(l)] *)
Definition sum (l : list Z) : Z := foldr Z.add 0 l.

(** [sum(d.values())] *)
Definition sum_values (d : gmap string Z) : Z :=
  map_fold (λ _ v acc, v + acc) 0 d.

(** Truth value of an [Optional[str]]: [None] and the empty string are
    false. *)
Definition truthy_str (s : option string) : bool :=
  match s with
  | None => false
  | Some s => negb (String.eqb s "")
  end.

(** [l.remove(x)]: drops the first occurrence, raises when there is
    none. *)
Fixpoint remove `{EqDecision A} (x : A) (l : list A) : result (list A) :=
  match l with
  | [] => Raise ValueError
  | y :: l' =>
      if decide (y = x) then Ok l'
      else match remove x l' with
           | Ok r => Ok (y :: r)
           | Raise e => Raise e
           end
  end.

(** [s.upper()] on the ASCII letters. Bytes outside a-z are kept: the
    Unicode case mappings of [str.upper] are not modelled. *)
Definition upper_ascii (c : Ascii.ascii) : Ascii.ascii :=
  let n := Ascii.nat_of_ascii c in
  if (Nat.leb 97 n && Nat.leb n 122)%bool
  then Ascii.ascii_of_nat (n - 32) else c.

Fixpoint upper (s : string) : string :=
  match s with
  | EmptyString => EmptyString
  | String c s' => String (upper_ascii c) (upper s')
  end.

(** [l[:n]] and [l[n:]]: a negative bound counts from the end, and a
    bound past either end is clipped. *)
Definition slice_bound {A} (l : list A) (n : Z) : nat :=
  Z.to_nat (if decide (n < 0) then Z.max 0 (len l + n) else n).

Definition slice_to {A} (l : list A) (n : Z) : list A :=
  take (slice_bound l n) l.

Definition slice_from {A} (l : list A) (n : Z) : list A :=
  drop (slice_bound l n) l.

(** [sorted(l, key=k)] and [l.sort(key=k)]. Python's sort is stable, and
    the stable sort of a list by a key is unique, so the model sorts by
    insertion: [le x y] says that the key of [x] is at most the key of [y]
    (for [reverse=True]: at least), and an element is put before the
    elements of equal key that came after it. *)
Fixpoint insert_sorted {A} (le : A → A → bool) (x : A) (l : list A)
  : list A :=
  match l with
  | [] => [x]
  | y :: l' => if le x y then x :: y :: l' else y :: insert_sorted le x l'
  end.

Definition sort_by {A} (le : A → A → bool) (l : list A) : list A :=
  foldr (insert_sorted le) [] l.

End Py.

Import Py(Ok, Raise).

(** [x ← m; k] sequences two calls and propagates an exception. *)
#[export] Instance result_bind : MBind Py.result :=
  λ A B k m, Py.bind m k.
#[export] Instance result_ret : MRet Py.result := @Py.Ok.

(** ** models.py *)

Inductive Suit : Type := SPADES | DIAMONDS | CLUBS | HEARTS.

#[export] Instance Suit_eq_dec : EqDecision Suit.
Proof. solve_decision. Defined.

Inductive Rank : Type :=
| TWO | THREE | FOUR | FIVE | SIX | SEVEN | EIGHT | NINE | TEN
| JACK | QUEEN | KING | ACE.

#[export] Instance Rank_eq_dec : EqDecision Rank.
Proof. solve_decision. Defined.

(** The integer value of the [IntEnum] member; ranks compare by it. *)
Definition rank_value (r : Rank) : Z :=
  match r with
  | TWO => 2 | THREE => 3 | FOUR => 4 | FIVE => 5 | SIX => 6 | SEVEN => 7
  | EIGHT => 8 | NINE => 9 | TEN => 10 | JACK => 11 | QUEEN => 12
  | KING => 13 | ACE => 14
  end.

Inductive GamePhase : Type :=
| WAITING | DEALING | BIDDING | PLAYING | ROUND_RESULT | GAME_OVER.

#[export] Instance GamePhase_eq_dec : EqDecision GamePhase.
Proof. solve_decision. Defined.

Module Card.
Record t : Type := mk { suit : Suit; rank : Rank }.
End Card.

(** [Card.__eq__]: same suit and same rank. *)
#[export] Instance Card_eq_dec : EqDecision Card.t.
Proof. solve_decision. Defined.

(** The members of [Suit] and [Rank] in iteration order. *)
Definition all_suits : list Suit := [SPADES; DIAMONDS; CLUBS; HEARTS].

Definition all_ranks : list Rank :=
  [TWO; THREE; FOUR; FIVE; SIX; SEVEN; EIGHT; NINE; TEN; JACK; QUEEN; KING;
   ACE].

(** [list(Suit).index(suit)] *)
Definition suit_index (suit : Suit) : Z :=
  match suit with
  | SPADES => 0 | DIAMONDS => 1 | CLUBS => 2 | HEARTS => 3
  end.

(** Trump rotation order *)
Definition TRUMP_ORDER : list Suit := [SPADES; DIAMONDS; CLUBS; HEARTS].

(** Standard 52-card deck; the state of a [Deck] is its list [cards].
    [shuffle] is a random permutation in place: the functions that shuffle
    take the shuffled list as an argument. *)
Module Deck.
Definition reset : list Card.t :=
  suit ← all_suits; rank ← all_ranks; [Card.mk suit rank].

(** [deal]: the cards dealt and the cards left in the deck. *)
Definition deal (num_cards : Z) (cards : list Card.t)
  : list Card.t * list Card.t :=
  (Py.slice_to cards num_cards, Py.slice_from cards num_cards).
End Deck.

Module Player.
Record t : Type := mk {
  id : string;
  name : string;
  hand : list Card.t;
  bid : option Z;
  tricks_won : Z;
  total_score : Z;
}.

Definition set_id (v : string) (p : t) : t :=
  mk v (name p) (hand p) (bid p) (tricks_won p) (total_score p).
Definition set_hand (v : list Card.t) (p : t) : t :=
  mk (id p) (name p) v (bid p) (tricks_won p) (total_score p).
Definition set_bid (v : option Z) (p : t) : t :=
  mk (id p) (name p) (hand p) v (tricks_won p) (total_score p).
Definition set_tricks_won (v : Z) (p : t) : t :=
  mk (id p) (name p) (hand p) (bid p) v (total_score p).
Definition set_total_score (v : Z) (p : t) : t :=
  mk (id p) (name p) (hand p) (bid p) (tricks_won p) v.

Definition reset_for_round (p : t) : t :=
  mk (id p) (name p) [] None 0 (total_score p).
End Player.

Module Trick.
Record t : Type := mk {
  lead_player_id : string;
  cards_played : list (string * Card.t);
  winner_id : option string;
}.

(** [Trick(lead_player_id=pid)] *)
Definition new (pid : string) : t := mk pid [] None.

Definition set_lead_player_id (v : string) (k : t) : t :=
  mk v (cards_played k) (winner_id k).
Definition set_cards_played (v : list (string * Card.t)) (k : t) : t :=
  mk (lead_player_id k) v (winner_id k).
Definition set_winner_id (v : option string) (k : t) : t :=
  mk (lead_player_id k) (cards_played k) v.
End Trick.

(** A [Trick] is a mutable object that the round can hold twice: as
    [current_trick] and as an element of [tricks_completed]
    ([resolve_trick] appends the current trick and, when the round ends,
    leaves [current_trick] pointing at it). The round therefore carries the
    store of its [Trick] objects, [trick_heap], and refers to them by
    address; two equal addresses are one Python object. *)
Definition trick_ref : Type := nat.

Module RoundState.
Record t : Type := mk {
  round_index : Z;
  num_cards : Z;
  trump_suit : Suit;
  dealer_index : Z;
  current_bidder_index : Z;
  bids : gmap string Z;
  current_trick : option trick_ref;
  tricks_completed : list trick_ref;
  trick_number : Z;
  trick_heap : list Trick.t;
}.

Definition set_current_bidder_index (v : Z) (r : t) : t :=
  mk (round_index r) (num_cards r) (trump_suit r) (dealer_index r) v
     (bids r) (current_trick r) (tricks_completed r) (trick_number r)
     (trick_heap r).
Definition set_bids (v : gmap string Z) (r : t) : t :=
  mk (round_index r) (num_cards r) (trump_suit r) (dealer_index r)
     (current_bidder_index r) v (current_trick r) (tricks_completed r)
     (trick_number r) (trick_heap r).
Definition set_current_trick (v : option trick_ref) (r : t) : t :=
  mk (round_index r) (num_cards r) (trump_suit r) (dealer_index r)
     (current_bidder_index r) (bids r) v (tricks_completed r)
     (trick_number r) (trick_heap r).
Definition set_tricks_completed (v : list trick_ref) (r : t) : t :=
  mk (round_index r) (num_cards r) (trump_suit r) (dealer_index r)
     (current_bidder_index r) (bids r) (current_trick r) v
     (trick_number r) (trick_heap r).
Definition set_trick_number (v : Z) (r : t) : t :=
  mk (round_index r) (num_cards r) (trump_suit r) (dealer_index r)
     (current_bidder_index r) (bids r) (current_trick r)
     (tricks_completed r) v (trick_heap r).
Definition set_trick_heap (v : list Trick.t) (r : t) : t :=
  mk (round_index r) (num_cards r) (trump_suit r) (dealer_index r)
     (current_bidder_index r) (bids r) (current_trick r)
     (tricks_completed r) (trick_number r) v.

(** The object behind an address. *)
Definition deref (r : t) (a : trick_ref) : option Trick.t :=
  trick_heap r !! a.

(** Assignment to attributes of the object at address [a]. *)
Definition store (a : trick_ref) (k : Trick.t) (r : t) : t :=
  set_trick_heap (<[a := k]> (trick_heap r)) r.

(** A fresh object. *)
Definition alloc (k : Trick.t) (r : t) : trick_ref * t :=
  (length (trick_heap r), set_trick_heap (trick_heap r ++ [k]) r).

(** [self.current_trick]: its address and the object there. Addresses
    held by a round always denote an object ([wf]); where the lookup would
    fail the model reads it as no trick. *)
Definition trick (r : t) : option (trick_ref * Trick.t) :=
  a ← current_trick r; k ← deref r a; Some (a, k).

(** Every address held by the round denotes an object of its store. *)
Definition wf (r : t) : Prop :=
  (∀ a, current_trick r = Some a → is_Some (deref r a)) ∧
  (∀ a, a ∈ tricks_completed r → is_Some (deref r a)).
End RoundState.

(** One element of the list [score_round] returns (a dict in the code). *)
Module ScoreEntry.
Record t : Type := mk {
  player_id : string;
  player_name : string;
  bid : Z;
  tricks_won : Z;
  met_bid : bool;
  points_earned : Z;
  total_score : Z;
}.
End ScoreEntry.

(** One element of [Game.scores_history] (a dict in the code). *)
Module ScoreSnapshot.
Record t : Type := mk {
  round_index : Z;
  num_cards : Z;
  results : list ScoreEntry.t;
}.
End ScoreSnapshot.

Module Game.
Record t : Type := mk {
  room_code : string;
  host_id : string;
  players : list Player.t;
  phase : GamePhase;
  round_sequence : list Z;
  current_round_index : Z;
  current_round : option RoundState.t;
  dealer_index : Z;
  current_turn_index : Z;
  scores_history : list ScoreSnapshot.t;
}.

Definition set_host_id (v : string) (g : t) : t :=
  mk (room_code g) v (players g) (phase g) (round_sequence g)
     (current_round_index g) (current_round g) (dealer_index g)
     (current_turn_index g) (scores_history g).
Definition set_players (v : list Player.t) (g : t) : t :=
  mk (room_code g) (host_id g) v (phase g) (round_sequence g)
     (current_round_index g) (current_round g) (dealer_index g)
     (current_turn_index g) (scores_history g).
Definition set_phase (v : GamePhase) (g : t) : t :=
  mk (room_code g) (host_id g) (players g) v (round_sequence g)
     (current_round_index g) (current_round g) (dealer_index g)
     (current_turn_index g) (scores_history g).
Definition set_round_sequence (v : list Z) (g : t) : t :=
  mk (room_code g) (host_id g) (players g) (phase g) v
     (current_round_index g) (current_round g) (dealer_index g)
     (current_turn_index g) (scores_history g).
Definition set_current_round (v : option RoundState.t) (g : t) : t :=
  mk (room_code g) (host_id g) (players g) (phase g) (round_sequence g)
     (current_round_index g) v (dealer_index g)
     (current_turn_index g) (scores_history g).
Definition set_current_turn_index (v : Z) (g : t) : t :=
  mk (room_code g) (host_id g) (players g) (phase g) (round_sequence g)
     (current_round_index g) (current_round g) (dealer_index g)
     v (scores_history g).
Definition set_scores_history (v : list ScoreSnapshot.t) (g : t) : t :=
  mk (room_code g) (host_id g) (players g) (phase g) (round_sequence g)
     (current_round_index g) (current_round g) (dealer_index g)
     (current_turn_index g) v.

Definition set_current_round_index (v : Z) (g : t) : t :=
  mk (room_code g) (host_id g) (players g) (phase g) (round_sequence g)
     v (current_round g) (dealer_index g)
     (current_turn_index g) (scores_history g).
Definition set_dealer_index (v : Z) (g : t) : t :=
  mk (room_code g) (host_id g) (players g) (phase g) (round_sequence g)
     (current_round_index g) (current_round g) v
     (current_turn_index g) (scores_history g).

(** [Game(room_code=code, host_id=player_id)] *)
Definition new (code host : string) : t :=
  mk code host [] WAITING [] 0 None 0 0 [].

(** Build pyramid round sequence: 1 -> max -> 1, capped by deck size. *)
Definition build_round_sequence (g : t) : Py.result t :=
  max_cards ← Py.floordiv 52 (Py.len (players g));
  let peak := Z.min 10 max_cards in
  let ascending := Py.range 1 (peak + 1) in
  let descending := Py.range_down (peak - 1) 0 in
  Ok (set_round_sequence (ascending ++ descending) g).

(** The seat and the object of the first player whose id is [player_id]. *)
Definition find_player (g : t) (player_id : string)
  : option (nat * Player.t) :=
  list_find (λ p, Player.id p = player_id) (players g).

Definition get_player_by_id (g : t) (player_id : string)
  : option Player.t :=
  snd <$> find_player g player_id.

Definition get_player_index (g : t) (player_id : string) : Z :=
  match find_player g player_id with
  | Some (i, _) => Z.of_nat i
  | None => -1
  end.

(** Assignment to attributes of the [Player] object at seat [i]. *)
Definition set_player (i : nat) (p : Player.t) (g : t) : t :=
  set_players (<[i := p]> (players g)) g.
End Game.

(** ** game_logic.py *)

(** Return player indices in bidding order (left of dealer first, dealer
    last). The comprehension evaluates [% n] only for a non-empty
    [range(n)], so the division never raises. *)
Definition get_bidding_order (game : Game.t) : list Z :=
  let n := Py.len (Game.players game) in
  (λ i, (Game.dealer_index game + 1 + i) mod n) <$> Py.range 0 n.

(** For the dealer (last bidder), calculate the forbidden bid value. *)
Definition get_forbidden_bid (game : Game.t) : option Z :=
  match Game.current_round game with
  | None => None
  | Some round =>
      let dealer_position := Py.len (Game.players game) - 1 in
      if decide (RoundState.current_bidder_index round ≠ dealer_position)
      then None
      else
        let total_bids_so_far := Py.sum_values (RoundState.bids round) in
        let forbidden := RoundState.num_cards round - total_bids_so_far in
        if decide (0 ≤ forbidden ∧ forbidden ≤ RoundState.num_cards round)
        then Some forbidden
        else None
  end.

(** Validate a bid. Returns error message or None if valid. *)
Definition validate_bid (game : Game.t) (player_id : string) (bid : Z)
  : Py.result (option string) :=
  if decide (Game.phase game ≠ BIDDING) then Ok (Some "Not in bidding phase")
  else match Game.current_round game with
  | None => Ok (Some "No active round")
  | Some round =>
      let bidding_order := get_bidding_order game in
      expected_player_index ←
        Py.index bidding_order (RoundState.current_bidder_index round);
      expected ← Py.index (Game.players game) expected_player_index;
      if decide (Player.id expected ≠ player_id)
      then Ok (Some "Not your turn to bid")
      else if decide (bid < 0 ∨ bid > RoundState.num_cards round)
      then Ok (Some ("Bid must be between 0 and "
                     +:+ pretty (RoundState.num_cards round)))
      else match get_forbidden_bid game with
      | Some forbidden =>
          if decide (bid = forbidden)
          then Ok (Some ("Dealer cannot bid " +:+ pretty forbidden
                         +:+ " (total bids cannot equal "
                         +:+ pretty (RoundState.num_cards round) +:+ ")"))
          else Ok None
      | None => Ok None
      end
  end.

(** [assert x is not None] *)
Definition assert_some {A} (x : option A) : Py.result A :=
  match x with
  | Some a => Ok a
  | None => Raise Py.AssertionError
  end.

(** Start the first trick of the round. Lead is left of dealer. *)
Definition start_first_trick (game : Game.t) : Py.result Game.t :=
  round ← assert_some (Game.current_round game);
  lead_index ←
    Py.modulo (Game.dealer_index game + 1) (Py.len (Game.players game));
  let game := Game.set_current_turn_index lead_index game in
  let game := Game.set_phase PLAYING game in
  lead_player ← Py.index (Game.players game) lead_index;
  let '(a, round) := RoundState.alloc (Trick.new (Player.id lead_player)) round in
  let round := RoundState.set_current_trick (Some a) round in
  let round := RoundState.set_trick_number 0 round in
  Ok (Game.set_current_round (Some round) game).

(** Place a bid for the current player. *)
Definition place_bid (game : Game.t) (player_id : string) (bid : Z)
  : Py.result Game.t :=
  round ← assert_some (Game.current_round game);
  let round :=
    RoundState.set_bids (<[player_id := bid]> (RoundState.bids round)) round in
  let game :=
    match Game.find_player game player_id with
    | Some (i, player) => Game.set_player i (Player.set_bid (Some bid) player) game
    | None => game
    end in
  let round :=
    RoundState.set_current_bidder_index
      (RoundState.current_bidder_index round + 1) round in
  let game := Game.set_current_round (Some round) game in
  if decide (RoundState.current_bidder_index round >= Py.len (Game.players game))
  then start_first_trick game
  else Ok game.

(** Get the list of valid cards a player can play. *)
Definition get_valid_cards (game : Game.t) (player_id : string)
  : list Card.t :=
  match Game.current_round game with
  | None => []
  | Some round =>
  match RoundState.trick round with
  | None => []
  | Some (_, trick) =>
  match Game.get_player_by_id game player_id with
  | None => []
  | Some player =>
  match Trick.cards_played trick with
  | [] => Player.hand player
  | (_, first) :: _ =>
      let led_suit := Card.suit first in
      let suited_cards :=
        filter (λ c, Card.suit c = led_suit) (Player.hand player) in
      match suited_cards with
      | _ :: _ => suited_cards
      | [] => Player.hand player
      end
  end end end end.

(** Validate a card play. Returns error message or None if valid. *)
Definition validate_play (game : Game.t) (player_id : string) (card : Card.t)
  : Py.result (option string) :=
  if decide (Game.phase game ≠ PLAYING) then Ok (Some "Not in playing phase")
  else match Game.current_round game ≫= RoundState.trick with
  | None => Ok (Some "No active trick")
  | Some _ =>
      current_player ←
        Py.index (Game.players game) (Game.current_turn_index game);
      if decide (Player.id current_player ≠ player_id)
      then Ok (Some "Not your turn")
      else match Game.get_player_by_id game player_id with
      | None => Ok (Some "Player not found")
      | Some player =>
          if decide (card ∉ Player.hand player)
          then Ok (Some "You don't have that card")
          else
            let valid_cards := get_valid_cards game player_id in
            if decide (card ∉ valid_cards)
            then Ok (Some "You must follow suit")
            else Ok None
      end
  end.

(** Determine if challenger card beats the current best card. *)
Definition _beats (challenger current_best : Card.t)
    (led_suit trump_suit : Suit) : bool :=
  let challenger_is_trump := bool_decide (Card.suit challenger = trump_suit) in
  let best_is_trump := bool_decide (Card.suit current_best = trump_suit) in
  if challenger_is_trump && negb best_is_trump then true
  else if negb challenger_is_trump && best_is_trump then false
  else if challenger_is_trump && best_is_trump then
    bool_decide (rank_value (Card.rank challenger)
                 > rank_value (Card.rank current_best))
  else
    let challenger_follows := bool_decide (Card.suit challenger = led_suit) in
    let best_follows := bool_decide (Card.suit current_best = led_suit) in
    if challenger_follows && best_follows then
      bool_decide (rank_value (Card.rank challenger)
                   > rank_value (Card.rank current_best))
    else if challenger_follows && negb best_follows then true
    else false.

(** The dict [resolve_trick] returns; [trick] is the [to_dict] snapshot of
    the resolved trick. *)
Module TrickResult.
Record t : Type := mk {
  winner_id : string;
  winner_name : string;
  winning_card : Card.t;
  trick : Trick.t;
  round_over : bool;
}.
End TrickResult.

(** The loop of [resolve_trick] over [cards_played[1:]], from the first
    card as the best so far. *)
Definition find_winner (led_suit trump_suit : Suit)
    (first : string * Card.t) (rest : list (string * Card.t))
  : string * Card.t :=
  foldl (λ '(best_player_id, best_card) '(pid, card),
           if _beats card best_card led_suit trump_suit
           then (pid, card)
           else (best_player_id, best_card))
        first rest.

(** Determine the winner of the current trick. *)
Definition resolve_trick (game : Game.t)
  : Py.result (Game.t * TrickResult.t) :=
  round ← assert_some (Game.current_round game);
  '(a, trick) ← assert_some (RoundState.trick round);
  let trump_suit := RoundState.trump_suit round in
  first ← Py.index (Trick.cards_played trick) 0;
  let led_suit := Card.suit (first.2) in
  let '(best_player_id, best_card) :=
    find_winner led_suit trump_suit first (drop 1 (Trick.cards_played trick)) in
  let trick := Trick.set_winner_id (Some best_player_id) trick in
  let round := RoundState.store a trick round in
  '(i, winner) ← assert_some (Game.find_player game best_player_id);
  let winner := Player.set_tricks_won (Player.tricks_won winner + 1) winner in
  let game := Game.set_player i winner game in
  let round :=
    RoundState.set_tricks_completed
      (RoundState.tricks_completed round ++ [a]) round in
  let result :=
    TrickResult.mk best_player_id (Player.name winner) best_card trick in
  let round :=
    RoundState.set_trick_number (RoundState.trick_number round + 1) round in
  if decide (RoundState.trick_number round >= RoundState.num_cards round)
  then Ok (Game.set_current_round (Some round) game, result true)
  else
    let winner_index := Game.get_player_index game best_player_id in
    let game := Game.set_current_turn_index winner_index game in
    let '(b, round) := RoundState.alloc (Trick.new best_player_id) round in
    let round := RoundState.set_current_trick (Some b) round in
    Ok (Game.set_current_round (Some round) game, result false).

(** Play a card in the current trick. Returns a result if the trick is
    complete, None otherwise. *)
Definition play_card (game : Game.t) (player_id : string) (card : Card.t)
  : Py.result (Game.t * option TrickResult.t) :=
  round ← assert_some (Game.current_round game);
  '(a, trick) ← assert_some (RoundState.trick round);
  '(i, player) ← assert_some (Game.find_player game player_id);
  hand ← Py.remove card (Player.hand player);
  let game := Game.set_player i (Player.set_hand hand player) game in
  let trick :=
    Trick.set_cards_played
      (Trick.cards_played trick ++ [(player_id, card)]) trick in
  let round := RoundState.store a trick round in
  let game := Game.set_current_round (Some round) game in
  turn ←
    Py.modulo (Game.current_turn_index game + 1) (Py.len (Game.players game));
  let game := Game.set_current_turn_index turn game in
  if decide (Py.len (Trick.cards_played trick) = Py.len (Game.players game))
  then '(game, result) ← resolve_trick game; Ok (game, Some result)
  else Ok (game, None).

(** The body of the loop of [score_round] for one player: the player
    after [total_score += points] and the entry appended to [results]. *)
Definition score_player (player : Player.t) : Player.t * ScoreEntry.t :=
  let bid := match Player.bid player with Some b => b | None => 0 end in
  let won := Player.tricks_won player in
  let met_bid := bool_decide (won = bid) in
  let points :=
    if met_bid then
      if decide (bid = 0) then 10
      else if decide (bid = 1) then 11
      else bid * 10
    else 0 in
  let player := Player.set_total_score (Player.total_score player + points) player in
  (player,
   ScoreEntry.mk (Player.id player) (Player.name player) bid won met_bid
                 points (Player.total_score player)).

(** Score the current round and return per-player results. *)
Definition score_round (game : Game.t) : Game.t * list ScoreEntry.t :=
  let scored := score_player <$> Game.players game in
  let results := snd <$> scored in
  let game := Game.set_players (fst <$> scored) game in
  let snapshot :=
    ScoreSnapshot.mk
      (Game.current_round_index game)
      (match Game.current_round game with
       | Some round => RoundState.num_cards round
       | None => 0
       end)
      results in
  (Game.set_scores_history (Game.scores_history game ++ [snapshot]) game,
   results).

(** The sort key of a hand, [(list(Suit).index(c.suit), c.rank)], compared
    as Python compares tuples. *)
Definition hand_le (c1 c2 : Card.t) : bool :=
  bool_decide
    (suit_index (Card.suit c1) < suit_index (Card.suit c2) ∨
     (suit_index (Card.suit c1) = suit_index (Card.suit c2) ∧
      rank_value (Card.rank c1) ≤ rank_value (Card.rank c2))).

(** The second loop of [start_new_round]: each player in turn is dealt
    [num_cards] cards from the deck, sorted for display. *)
Fixpoint deal_hands (num_cards : Z) (deck : list Card.t)
    (players : list Player.t) : list Player.t :=
  match players with
  | [] => []
  | player :: rest =>
      let '(dealt, deck) := Deck.deal num_cards deck in
      Player.set_hand (Py.sort_by hand_le dealt) player
      :: deal_hands num_cards deck rest
  end.

(** Initialize a new round: reset players, deal cards, set trump.
    [shuffled] is the deck after [deck.shuffle()]. *)
Definition start_new_round (shuffled : list Card.t) (game : Game.t)
  : Py.result Game.t :=
  num_cards ←
    Py.index (Game.round_sequence game) (Game.current_round_index game);
  trump_suit ← Py.index TRUMP_ORDER (Game.current_round_index game mod 4);
  let players := Player.reset_for_round <$> Game.players game in
  let players := deal_hands num_cards shuffled players in
  let game := Game.set_players players game in
  first_bidder_index ←
    Py.modulo (Game.dealer_index game + 1) (Py.len (Game.players game));
  let round :=
    RoundState.mk (Game.current_round_index game) num_cards trump_suit
      (Game.dealer_index game) 0 ∅ None [] 0 [] in
  let game := Game.set_current_round (Some round) game in
  let game := Game.set_current_turn_index first_bidder_index game in
  Ok (Game.set_phase BIDDING game).

(** Advance to the next round. Returns False if game is over. *)
Definition advance_to_next_round (game : Game.t) : Py.result (Game.t * bool) :=
  let game :=
    Game.set_current_round_index (Game.current_round_index game + 1) game in
  dealer ←
    Py.modulo (Game.dealer_index game + 1) (Py.len (Game.players game));
  let game := Game.set_dealer_index dealer game in
  if decide (Game.current_round_index game
             >= Py.len (Game.round_sequence game))
  then Ok (Game.set_phase GAME_OVER game, false)
  else Ok (game, true).

(** One element of the rankings of [get_game_results] (a dict in the
    code). *)
Module Ranking.
Record t : Type := mk {
  rank : Z;
  player_id : string;
  player_name : string;
  total_score : Z;
}.
End Ranking.

(** The dict [get_game_results] returns. *)
Module GameResults.
Record t : Type := mk {
  rankings : list Ranking.t;
  winner : option Ranking.t;
  scores_history : list ScoreSnapshot.t;
}.
End GameResults.

(** Get final game results with rankings:
    [sorted(players, key=total_score, reverse=True)], numbered from 1. *)
Definition get_game_results (game : Game.t) : GameResults.t :=
  let sorted_players :=
    Py.sort_by
      (λ p q, bool_decide (Player.total_score q ≤ Player.total_score p))
      (Game.players game) in
  let rankings :=
    imap (λ i player,
            Ranking.mk (Z.of_nat i + 1) (Player.id player)
              (Player.name player) (Player.total_score player))
         sorted_players in
  GameResults.mk rankings (head rankings) (Game.scores_history game).

(** ** room_manager.py *)

Module RoomManager.
Record t : Type := mk {
  rooms : gmap string Game.t;
  player_rooms : gmap string string;
}.

(** The bids entry of [old_id] moves to [player_id]:
    [bids[player_id] = bids.pop(old_id)], when [old_id in bids]. *)
Definition rebind_bids (old_id player_id : string) (round : RoundState.t)
  : RoundState.t :=
  match RoundState.bids round !! old_id with
  | Some v =>
      RoundState.set_bids
        (<[player_id := v]> (delete old_id (RoundState.bids round))) round
  | None => round
  end.

(** The references of the current trick to [old_id] become [player_id];
    the assignments go to the attributes of the existing [Trick] object. *)
Definition rebind_trick (old_id player_id : string) (round : RoundState.t)
  : RoundState.t :=
  match RoundState.trick round with
  | Some (a, trick) =>
      let trick :=
        if decide (Trick.lead_player_id trick = old_id)
        then Trick.set_lead_player_id player_id trick
        else trick in
      let trick :=
        Trick.set_cards_played
          ((λ '(pid, card), (if decide (pid = old_id) then player_id else pid,
                             card))
             <$> Trick.cards_played trick)
          trick in
      RoundState.store a trick round
  | None => round
  end.

(** Join an existing room. Returns (game, error_message, old_player_id);
    the registry after the call comes first. *)
Definition join_room (self : t) (room_code player_id player_name : string)
  : t * (option Game.t * string * option string) :=
  let room_code := Py.upper room_code in
  match rooms self !! room_code with
  | None => (self, (None, "Room not found", None))
  | Some game =>
  if decide (Exists (λ p, Player.id p = player_id) (Game.players game))
  then (self, (Some game, "", None))
  else if decide (Game.phase game ≠ WAITING) then
    match list_find (λ p, Player.name p = player_name) (Game.players game) with
    | Some (i, existing) =>
        let old_id := Player.id existing in
        let game := Game.set_player i (Player.set_id player_id existing) game in
        let game :=
          if decide (Game.host_id game = old_id)
          then Game.set_host_id player_id game
          else game in
        let game :=
          Game.set_current_round
            (rebind_bids old_id player_id <$> Game.current_round game) game in
        let game :=
          Game.set_current_round
            (rebind_trick old_id player_id <$> Game.current_round game) game in
        let player_rooms :=
          <[player_id := room_code]> (delete old_id (player_rooms self)) in
        (mk (<[room_code := game]> (rooms self)) player_rooms,
         (Some game, "", Some old_id))
    | None => (self, (None, "Game already in progress", None))
    end
  else if decide (Py.len (Game.players game) >= 6)
  then (self, (None, "Room is full (max 6 players)", None))
  else if decide (Exists (λ p, Player.name p = player_name) (Game.players game))
  then (self,
        (None, "Name '" +:+ player_name +:+ "' is already taken in this room",
         None))
  else
    let player := Player.mk player_id player_name [] None 0 0 in
    let game := Game.set_players (Game.players game ++ [player]) game in
    (mk (<[room_code := game]> (rooms self))
        (<[player_id := room_code]> (player_rooms self)),
     (Some game, "", None))
  end.

(** Get a room by its code. *)
Definition get_room (self : t) (room_code : string) : option Game.t :=
  rooms self !! Py.upper room_code.

(** The room a player is in, with the key it is stored under. An empty
    code counts as no code ([if code:]). *)
Definition player_room_entry (self : t) (player_id : string)
  : option (string * Game.t) :=
  match player_rooms self !! player_id with
  | Some code =>
      if String.eqb code "" then None
      else game ← rooms self !! code; Some (code, game)
  | None => None
  end.

(** Get the room a player is in. *)
Definition get_player_room (self : t) (player_id : string)
  : option Game.t :=
  snd <$> player_room_entry self player_id.

(** The [Game] object stored under [code] after it was mutated. *)
Definition put_room (code : string) (game : Game.t) (self : t) : t :=
  mk (<[code := game]> (rooms self)) (player_rooms self).

(** Generate a unique room code. The loop draws random six-character
    codes until one is not a key of [rooms]; [draws] are the successive
    draws, and the result is [None] when all of them are taken (the loop
    would go on). *)
Definition _generate_code (self : t) (draws : list string) : option string :=
  snd <$> list_find (λ code, rooms self !! code = None) draws.

(** Create a new room and add the host player. *)
Definition create_room (self : t) (draws : list string)
    (player_id player_name : string) : option (t * Game.t) :=
  code ← _generate_code self draws;
  let game := Game.new code player_id in
  let player := Player.mk player_id player_name [] None 0 0 in
  let game := Game.set_players (Game.players game ++ [player]) game in
  Some (mk (<[code := game]> (rooms self))
           (<[player_id := code]> (player_rooms self)),
        game).

(** Remove a player from their room. Returns the game if it still has
    players, None if room was deleted; the registry after the call comes
    first. *)
Definition remove_player (self : t) (player_id : string)
  : t * option Game.t :=
  match player_rooms self !! player_id with
  | None => (self, None)
  | Some code =>
      let self := mk (rooms self) (delete player_id (player_rooms self)) in
      match rooms self !! code with
      | None => (self, None)
      | Some game =>
          let game :=
            Game.set_players
              (filter (λ p, Player.id p ≠ player_id) (Game.players game))
              game in
          match Game.players game with
          | [] => (mk (delete code (rooms self)) (player_rooms self), None)
          | first :: _ =>
              let game :=
                if decide (Game.host_id game = player_id)
                then Game.set_host_id (Player.id first) game
                else game in
              (mk (<[code := game]> (rooms self)) (player_rooms self),
               Some game)
          end
      end
  end.
End RoomManager.

(** ** websocket_handler.py: the bid and play handlers

    A handler is modelled as one uninterrupted run: it maps the connection
    manager to the connection manager after the call and lists the frames
    it sends, in order. The points where the coroutine awaits (sends and
    the pauses between broadcasts) and the interleaving of other handlers
    there are not modelled. *)

(** Outbound messages. [game] stands for the [game.to_dict()] snapshot and
    [trick] for [trick.to_dict()], taken when the message is built. The
    rankings [get_game_results] adds to the game_over message are not
    modelled. *)
Inductive Message : Type :=
| MsgError (message : string)
| MsgBidTurn (current_bidder_id current_bidder_name : string)
    (bids_so_far : gmap string Z) (forbidden_bid : option Z) (num_cards : Z)
| MsgBidPlaced (player_id player_name : string) (bid : Z)
    (bids : gmap string Z)
| MsgPlayTurn (current_player_id current_player_name : string)
    (trick : option Trick.t) (game : Game.t)
| MsgPlayRequest (valid_cards hand : list Card.t)
| MsgCardPlayed (player_id player_name : string) (card : Card.t)
    (trick : option Trick.t) (game : Game.t)
| MsgTrickResult (result : TrickResult.t) (game : Game.t)
| MsgRoundResult (results : list ScoreEntry.t)
    (scores_history : list ScoreSnapshot.t) (game : Game.t)
| MsgGameOver (scores_history : list ScoreSnapshot.t) (game : Game.t).

(** What a handler reads from the decoded request. JSON decoding and the
    conversions [int(...)], [Suit(...)], [Rank(...)] are outside the model:
    the request carries their outcome.
    - [bid]: [None] when [data.get("bid")] is [None]; otherwise what
      [int(bid)] returns or raises;
    - [card]: what [Card(Suit(suit_str), Rank(int(rank_val)))] returns or
      raises. *)
Module Request.
Record t : Type := mk {
  bid : option (Py.result Z);
  card : Py.result Card.t;
}.
End Request.

(** A decoded inbound message: [type] is [data.get("type", "")],
    [player_name] and [room_code] are the fields of that name after
    [.strip()] (the empty string when the field is missing), [request]
    holds the bid and card fields. *)
Module Data.
Record t : Type := mk {
  type : string;
  player_name : string;
  room_code : string;
  request : Request.t;
}.
End Data.

(** Outbound messages of the connection and game-flow handlers; the
    messages of the bid and play handlers come wrapped in [MsgGame].
    [players] stands for the list of [p.to_dict(hide_hand=True)]. *)
Inductive LobbyMessage : Type :=
| MsgRoomCreated (room_code : string) (game : Game.t)
    (players : list Player.t)
| MsgRoomJoined (room_code : string) (game : Game.t)
    (players : list Player.t) (reconnected : bool)
| MsgPlayerJoined (players : list Player.t) (host_id : string)
| MsgPlayerLeft (player_id : string) (players : list Player.t)
    (host_id new_host_id : string)
| MsgGameStarted (room_code : string)
| MsgRoundStart (game : Game.t) (players : list Player.t)
    (hand : list Card.t) (round_number total_rounds num_cards : Z)
    (trump_suit : Suit)
| MsgGame (message : Message).

Module ConnectionManager.
Record t : Type := mk {
  room_manager : RoomManager.t;
  (** the player ids that have a WebSocket *)
  connections : gset string;
}.

(** A frame handed to the socket of a player. *)
Definition Sent : Type := string * Message.

(** Send a message to a specific player. A failing send is swallowed. *)
Definition send_to_player (self : t) (player_id : string) (message : Message)
  : list Sent :=
  if decide (player_id ∈ connections self) then [(player_id, message)] else [].

(** Send a message to all players in a room. *)
Definition broadcast_to_room (self : t) (game : Game.t) (message : Message)
  : list Sent :=
  p ← Game.players game; send_to_player self (Player.id p) message.

(** Notify the current bidder that it's their turn. *)
Definition _send_bid_request (self : t) (game : Game.t)
  : Py.result (list Sent) :=
  round ← assert_some (Game.current_round game);
  let bidding_order := get_bidding_order game in
  let current_bidder_pos := RoundState.current_bidder_index round in
  if decide (current_bidder_pos >= Py.len (Game.players game)) then Ok []
  else
    current_bidder_index ← Py.index bidding_order current_bidder_pos;
    current_bidder ← Py.index (Game.players game) current_bidder_index;
    let forbidden := get_forbidden_bid game in
    Ok (broadcast_to_room self game
          (MsgBidTurn (Player.id current_bidder) (Player.name current_bidder)
             (RoundState.bids round) forbidden (RoundState.num_cards round))).

(** Notify the current player to play a card. *)
Definition _send_play_request (self : t) (game : Game.t)
  : Py.result (list Sent) :=
  current_player ← Py.index (Game.players game) (Game.current_turn_index game);
  let valid_cards := get_valid_cards game (Player.id current_player) in
  Ok (broadcast_to_room self game
        (MsgPlayTurn (Player.id current_player) (Player.name current_player)
           (snd <$> (Game.current_round game ≫= RoundState.trick)) game)
      ++ send_to_player self (Player.id current_player)
           (MsgPlayRequest valid_cards (Player.hand current_player))).

(** The registry after the [Game] object of room [code] was mutated. *)
Definition put_game (code : string) (game : Game.t) (self : t) : t :=
  mk (RoomManager.put_room code game (room_manager self)) (connections self).

Definition _handle_place_bid (self : t) (player_id : string)
    (data : Request.t) : Py.result (t * list Sent) :=
  match RoomManager.player_room_entry (room_manager self) player_id with
  | None => Ok (self, send_to_player self player_id (MsgError "Not in a room"))
  | Some (code, game) =>
  match Request.bid data with
  | None =>
      Ok (self, send_to_player self player_id (MsgError "Bid value required"))
  | Some converted =>
      bid ← converted;
      error ← validate_bid game player_id bid;
      if Py.truthy_str error then
        Ok (self, send_to_player self player_id (MsgError (default "" error)))
      else
        game ← place_bid game player_id bid;
        let self := put_game code game self in
        let player_name :=
          match Game.get_player_by_id game player_id with
          | Some player => Player.name player
          | None => "Unknown"
          end in
        let out :=
          broadcast_to_room self game
            (MsgBidPlaced player_id player_name bid
               (match Game.current_round game with
                | Some round => RoundState.bids round
                | None => ∅
                end)) in
        if decide (Game.phase game = BIDDING) then
          more ← _send_bid_request self game; Ok (self, out ++ more)
        else if decide (Game.phase game = PLAYING) then
          more ← _send_play_request self game; Ok (self, out ++ more)
        else Ok (self, out)
  end end.

(** The tail of [_handle_play_card] once a trick is complete and the round
    is over: score, set the phase, announce. The pauses
    ([asyncio.sleep]) are not modelled. *)
Definition finish_round (self : t) (code : string) (game : Game.t)
  : t * list Sent :=
  let '(game, round_results) := score_round game in
  let is_last_round :=
    bool_decide (Game.current_round_index game + 1
                 >= Py.len (Game.round_sequence game)) in
  if is_last_round then
    let game := Game.set_phase GAME_OVER game in
    let self := put_game code game self in
    (self,
     broadcast_to_room self game
       (MsgRoundResult round_results (Game.scores_history game) game)
     ++ broadcast_to_room self game
          (MsgGameOver (Game.scores_history game) game))
  else
    let game := Game.set_phase ROUND_RESULT game in
    let self := put_game code game self in
    (self,
     broadcast_to_room self game
       (MsgRoundResult round_results (Game.scores_history game) game)).

Definition _handle_play_card (self : t) (player_id : string)
    (data : Request.t) : Py.result (t * list Sent) :=
  match RoomManager.player_room_entry (room_manager self) player_id with
  | None => Ok (self, send_to_player self player_id (MsgError "Not in a room"))
  | Some (code, game) =>
  match Request.card data with
  | Raise Py.ValueError | Raise Py.TypeError =>
      Ok (self, send_to_player self player_id (MsgError "Invalid card"))
  | Raise e => Raise e
  | Ok card =>
      error ← validate_play game player_id card;
      if Py.truthy_str error then
        Ok (self, send_to_player self player_id (MsgError (default "" error)))
      else
        let player_name :=
          match Game.get_player_by_id game player_id with
          | Some player => Player.name player
          | None => "Unknown"
          end in
        (* the Trick object that is current before the play *)
        let current_trick :=
          Game.current_round game ≫= RoundState.current_trick in
        '(game, result) ← play_card game player_id card;
        let self := put_game code game self in
        let out :=
          broadcast_to_room self game
            (MsgCardPlayed player_id player_name card
               (a ← current_trick;
                round ← Game.current_round game;
                RoundState.deref round a)
               game) in
        match result with
        | Some result =>
            let out :=
              out ++ broadcast_to_room self game (MsgTrickResult result game) in
            if TrickResult.round_over result then
              let '(self, more) := finish_round self code game in
              Ok (self, out ++ more)
            else
              more ← _send_play_request self game; Ok (self, out ++ more)
        | None =>
            more ← _send_play_request self game; Ok (self, out ++ more)
        end
  end end.

(** A frame of the connection and game-flow handlers. *)
Definition LobbySent : Type := string * LobbyMessage.

Definition lobby_send (self : t) (player_id : string) (message : LobbyMessage)
  : list LobbySent :=
  if decide (player_id ∈ connections self) then [(player_id, message)] else [].

Definition lobby_broadcast (self : t) (game : Game.t) (message : LobbyMessage)
  : list LobbySent :=
  p ← Game.players game; lobby_send self (Player.id p) message.

(** The frames of a bid or play helper, as frames of these handlers. *)
Definition lobby_frames (out : list Sent) : list LobbySent :=
  (λ '(player_id, message), (player_id, MsgGame message)) <$> out.

(** Handle player disconnection. *)
Definition handle_disconnect (self : t) (player_id : string)
  : t * list LobbySent :=
  let self := mk (room_manager self) (connections self ∖ {[player_id]}) in
  match RoomManager.get_player_room (room_manager self) player_id with
  | Some game =>
      if decide (Game.phase game = WAITING) then
        let '(registry, game) :=
          RoomManager.remove_player (room_manager self) player_id in
        let self := mk registry (connections self) in
        match game with
        | Some game =>
            (self,
             lobby_broadcast self game
               (MsgPlayerLeft player_id (Game.players game)
                  (Game.host_id game) (Game.host_id game)))
        | None => (self, [])
        end
      else (self, [])
  | None => (self, [])
  end.

(** Send round start info to all players. *)
Definition _send_round_start (self : t) (game : Game.t)
  : Py.result (list LobbySent) :=
  round ← assert_some (Game.current_round game);
  let out :=
    player ← Game.players game;
    lobby_send self (Player.id player)
      (MsgRoundStart game (Game.players game) (Player.hand player)
         (Game.current_round_index game + 1)
         (Py.len (Game.round_sequence game))
         (RoundState.num_cards round) (RoundState.trump_suit round)) in
  more ← _send_bid_request self game;
  Ok (out ++ lobby_frames more).

(** [shuffled] is the deck the new round deals from, after its
    [shuffle()]. *)
Definition _handle_start_game (self : t) (player_id : string)
    (shuffled : list Card.t) : Py.result (t * list LobbySent) :=
  match RoomManager.player_room_entry (room_manager self) player_id with
  | None =>
      Ok (self, lobby_send self player_id (MsgGame (MsgError "Not in a room")))
  | Some (code, game) =>
      if decide (Game.host_id game ≠ player_id) then
        Ok (self, lobby_send self player_id
                    (MsgGame (MsgError "Only the host can start the game")))
      else if decide (Py.len (Game.players game) < 4) then
        Ok (self, lobby_send self player_id
                    (MsgGame (MsgError "Need at least 4 players to start")))
      else
        game ← Game.build_round_sequence game;
        game ← start_new_round shuffled game;
        let self := put_game code game self in
        let out :=
          lobby_broadcast self game (MsgGameStarted (Game.room_code game)) in
        more ← _send_round_start self game;
        Ok (self, out ++ more)
  end.

(** Host triggers the next round after reviewing results. *)
Definition _handle_next_round (self : t) (player_id : string)
    (shuffled : list Card.t) : Py.result (t * list LobbySent) :=
  match RoomManager.player_room_entry (room_manager self) player_id with
  | None =>
      Ok (self, lobby_send self player_id (MsgGame (MsgError "Not in a room")))
  | Some (code, game) =>
      if decide (Game.phase game = GAME_OVER) then
        Ok (self, lobby_send self player_id
                    (MsgGame (MsgError "Game is already over")))
      else if decide (Game.phase game ≠ ROUND_RESULT) then
        Ok (self, lobby_send self player_id
                    (MsgGame (MsgError "Not ready for next round")))
      else if decide (Game.host_id game ≠ player_id) then
        Ok (self, lobby_send self player_id
                    (MsgGame (MsgError "Only the host can start the next round")))
      else
        '(game, has_next) ← advance_to_next_round game;
        let self := put_game code game self in
        if negb has_next then
          Ok (self, lobby_send self player_id
                      (MsgGame (MsgError "No more rounds available")))
        else
          game ← start_new_round shuffled game;
          let self := put_game code game self in
          more ← _send_round_start self game;
          Ok (self, more)
  end.

(** Send a message to all players in a room but [exclude]. *)
Definition lobby_broadcast_except (self : t) (game : Game.t)
    (message : LobbyMessage) (exclude : string) : list LobbySent :=
  p ← Game.players game;
  if decide (Player.id p ≠ exclude) then lobby_send self (Player.id p) message
  else [].

(** [draws] are the codes [_generate_code] draws; the result is [None]
    when its loop would not end. *)
Definition _handle_create_room (self : t) (player_id player_name : string)
    (draws : list string) : option (t * list LobbySent) :=
  if decide (player_name = "") then
    Some (self, lobby_send self player_id
                  (MsgGame (MsgError "Player name is required")))
  else
    '(registry, game) ←
      RoomManager.create_room (room_manager self) draws player_id player_name;
    let self := mk registry (connections self) in
    Some (self, lobby_send self player_id
                  (MsgRoomCreated (Game.room_code game) game
                     (Game.players game))).

(** The loop that replays the cards of the current trick for a player who
    reconnects. *)
Fixpoint replay_cards (self : t) (game : Game.t) (player_id : string)
    (current_trick : Trick.t) (cards : list (string * Card.t))
  : Py.result (list LobbySent) :=
  match cards with
  | [] => Ok []
  | (pid, card) :: rest =>
      match Game.get_player_by_id game pid with
      | None => Raise Py.AttributeError
      | Some p =>
          more ← replay_cards self game player_id current_trick rest;
          Ok (lobby_send self player_id
                (MsgGame (MsgCardPlayed pid (Player.name p) card
                            (Some current_trick) game))
              ++ more)
      end
  end.

Definition _handle_join_room (self : t) (player_id player_name
    room_code : string) : Py.result (t * list LobbySent) :=
  if decide (player_name = "" ∨ room_code = "") then
    Ok (self, lobby_send self player_id
                (MsgGame (MsgError "Player name and room code are required")))
  else
    let '(registry, (game, error, old_player_id)) :=
      RoomManager.join_room (room_manager self) room_code player_id
        player_name in
    let self := mk registry (connections self) in
    match game with
    | None => Ok (self, lobby_send self player_id (MsgGame (MsgError error)))
    | Some game =>
        (* If reconnecting, remove old connection mapping *)
        let self :=
          if Py.truthy_str old_player_id then
            mk (room_manager self)
               (connections self ∖ {[default "" old_player_id]})
          else self in
        let out :=
          lobby_send self player_id
            (MsgRoomJoined (Game.room_code game) game (Game.players game)
               (bool_decide (old_player_id ≠ None)))
          ++ lobby_broadcast_except self game
               (MsgPlayerJoined (Game.players game) (Game.host_id game))
               player_id in
        if decide (Game.phase game ≠ WAITING) then
          let player := Game.get_player_by_id game player_id in
          match (if decide (Game.phase game = ROUND_RESULT)
                 then last (Game.scores_history game) else None) with
          | Some last_round =>
              Ok (self,
                  out ++ lobby_send self player_id
                           (MsgGame (MsgRoundResult
                                       (ScoreSnapshot.results last_round)
                                       (Game.scores_history game) game)))
          | None =>
              match Game.current_round game, player with
              | Some round, Some player =>
                  let out :=
                    out ++ lobby_send self player_id
                             (MsgRoundStart game (Game.players game)
                                (Player.hand player)
                                (Game.current_round_index game + 1)
                                (Py.len (Game.round_sequence game))
                                (RoundState.num_cards round)
                                (RoundState.trump_suit round)) in
                  if decide (Game.phase game = BIDDING) then
                    more ← _send_bid_request self game;
                    Ok (self, out ++ lobby_frames more)
                  else if decide (Game.phase game = PLAYING) then
                    replay ←
                      match RoundState.trick round with
                      | Some (_, current_trick) =>
                          replay_cards self game player_id current_trick
                            (Trick.cards_played current_trick)
                      | None => Ok []
                      end;
                    more ← _send_play_request self game;
                    Ok (self, out ++ replay ++ lobby_frames more)
                  else Ok (self, out)
              | _, _ => Ok (self, out)
              end
          end
        else Ok (self, out)
    end.

(** Route incoming messages to appropriate handlers. [draws] and
    [shuffled] are the random codes and the shuffled deck the handler
    draws, if it does; the result is [None] when the handler would not
    return. *)
Definition handle_message (self : t) (player_id : string) (data : Data.t)
    (draws : list string) (shuffled : list Card.t)
  : option (Py.result (t * list LobbySent)) :=
  let msg_type := Data.type data in
  if decide (msg_type = "create_room") then
    Ok <$> _handle_create_room self player_id (Data.player_name data) draws
  else if decide (msg_type = "join_room") then
    Some (_handle_join_room self player_id (Data.player_name data)
            (Data.room_code data))
  else if decide (msg_type = "start_game") then
    Some (_handle_start_game self player_id shuffled)
  else if decide (msg_type = "place_bid") then
    Some ('(self, out) ← _handle_place_bid self player_id (Data.request data);
          Ok (self, lobby_frames out))
  else if decide (msg_type = "play_card") then
    Some ('(self, out) ← _handle_play_card self player_id (Data.request data);
          Ok (self, lobby_frames out))
  else if decide (msg_type = "next_round") then
    Some (_handle_next_round self player_id shuffled)
  else
    Some (Ok (self,
              lobby_send self player_id
                (MsgGame (MsgError ("Unknown message type: " +:+ msg_type))))).
End ConnectionManager.

(** * Scenarios

    Concrete tables, used to run the model. *)

(** A table of four, as the backend tests build it. *)
Definition seat (id name : string) : Player.t :=
  Player.mk id name [] None 0 0.

Definition four_players : list Player.t :=
  [seat "p0" "Player 0"; seat "p1" "Player 1";
   seat "p2" "Player 2"; seat "p3" "Player 3"].

Definition four_player_game : Game.t :=
  Game.set_players four_players (Game.new "ROOM1" "p0").

(** The dealer's turn of a four-card round: the three other players have
    bid one trick each (the situation of the backend test of
    [get_forbidden_bid]). *)
Definition dealer_turn_round : RoundState.t :=
  RoundState.mk 3 4 HEARTS 0 3
    (<["p3" := 1]> (<["p2" := 1]> (<["p1" := 1]> ∅))) None [] 0 [].

Definition dealer_turn_game : Game.t :=
  Game.mk "ROOM1" "p0" four_players BIDDING
    [1; 2; 3; 4; 5; 6; 7; 8; 9; 10; 9; 8; 7; 6; 5; 4; 3; 2; 1]
    3 (Some dealer_turn_round) 0 1 [].

(** A round that ended: bids 0, 1, 3 met, and a bid of 2 missed. *)
Definition scored_players : list Player.t :=
  [Player.mk "p0" "Player 0" [] (Some 0) 0 5;
   Player.mk "p1" "Player 1" [] (Some 1) 1 0;
   Player.mk "p2" "Player 2" [] (Some 3) 3 21;
   Player.mk "p3" "Player 3" [] (Some 2) 1 10;
   Player.mk "p4" "Player 4" [] None 0 7].

Definition scored_game : Game.t :=
  Game.mk "ROOM1" "p0" scored_players PLAYING
    [1; 2; 3; 4; 5; 6; 7; 8; 9; 10; 9; 8; 7; 6; 5; 4; 3; 2; 1]
    4 None 0 0 [].

(** A table as [play_card] hands it to [resolve_trick]: spades are trump,
    hearts were led, the host has just played the fourth card. *)
Definition table_trick : Trick.t :=
  Trick.mk "p1"
    [("p1", Card.mk HEARTS KING); ("p2", Card.mk SPADES TWO);
     ("p3", Card.mk HEARTS ACE); ("p0", Card.mk CLUBS ACE)]
    None.

Definition table_round : RoundState.t :=
  RoundState.mk 0 1 SPADES 0 4
    (<["p0" := 0]> (<["p3" := 0]> (<["p2" := 1]> (<["p1" := 1]> ∅))))
    (Some 0%nat) [] 0 [table_trick].

Definition table_game : Game.t :=
  Game.mk "ROOM1" "p0" four_players PLAYING
    [1; 2; 3; 4; 5; 6; 7; 8; 9; 10; 9; 8; 7; 6; 5; 4; 3; 2; 1]
    0 (Some table_round) 0 1 [].

(** The backend test of [get_valid_cards]: the ace of spades was led; the
    follower holds a spade and a club. *)
Definition follow_trick : Trick.t :=
  Trick.mk "p0" [("p0", Card.mk SPADES ACE)] None.

Definition follow_round : RoundState.t :=
  RoundState.mk 0 1 HEARTS 0 0 ∅ (Some 0%nat) [] 0 [follow_trick].

Definition follow_game : Game.t :=
  Game.mk "ROOM1" "p0"
    [Player.mk "p0" "Player 0" [Card.mk SPADES ACE] None 0 0;
     Player.mk "p1" "Player 1" [Card.mk SPADES TWO; Card.mk CLUBS TWO] None 0 0;
     seat "p2" "Player 2"; seat "p3" "Player 3"]
    PLAYING
    [1; 2; 3; 4; 5; 6; 7; 8; 9; 10; 9; 8; 7; 6; 5; 4; 3; 2; 1]
    0 (Some follow_round) 0 1 [].

(** A registry holding [game] as room ROOM1 for the four seated players,
    all of them connected. *)
Definition serving (game : Game.t) : ConnectionManager.t :=
  ConnectionManager.mk
    (RoomManager.mk
       (<["ROOM1" := game]> ∅)
       (<["p3" := "ROOM1"]> (<["p2" := "ROOM1"]>
          (<["p1" := "ROOM1"]> (<["p0" := "ROOM1"]> ∅)))))
    ({["p0"]} ∪ {["p1"]} ∪ {["p2"]} ∪ {["p3"]}).

(** A one-card round (spades are trump) in which three cards are on the
    table and the host, p0, is to play the last one. *)
Definition last_play_trick : Trick.t :=
  Trick.mk "p1"
    [("p1", Card.mk HEARTS KING); ("p2", Card.mk SPADES TWO);
     ("p3", Card.mk HEARTS ACE)]
    None.

Definition last_play_round : RoundState.t :=
  RoundState.mk 0 1 SPADES 0 4
    (<["p0" := 0]> (<["p3" := 0]> (<["p2" := 1]> (<["p1" := 1]> ∅))))
    (Some 0%nat) [] 0 [last_play_trick].

Definition last_play_game : Game.t :=
  Game.mk "ROOM1" "p0"
    [Player.mk "p0" "Player 0" [Card.mk CLUBS ACE] (Some 0) 0 0;
     Player.mk "p1" "Player 1" [] (Some 1) 0 0;
     Player.mk "p2" "Player 2" [] (Some 1) 0 0;
     Player.mk "p3" "Player 3" [] (Some 0) 0 0]
    PLAYING
    [1; 2; 3; 4; 5; 6; 7; 8; 9; 10; 9; 8; 7; 6; 5; 4; 3; 2; 1]
    0 (Some last_play_round) 0 0 [].

(** The registry once the host has played the last card of the round. *)
Definition finished_round_manager : RoomManager.t :=
  match ConnectionManager._handle_play_card (serving last_play_game) "p0"
          (Request.mk None (Ok (Card.mk CLUBS ACE))) with
  | Ok (cm, _) => ConnectionManager.room_manager cm
  | Raise _ => ConnectionManager.room_manager (serving last_play_game)
  end.

Definition finished_round_game : Game.t :=
  Eval vm_compute in
    default last_play_game
      (RoomManager.rooms finished_round_manager !! "ROOM1").

Definition finished_round_round : RoundState.t :=
  Eval vm_compute in
    default last_play_round (Game.current_round finished_round_game).

(** * Definitions used in the statements and proofs *)

(** The pyramid with peak [k]: 1, ..., k, k-1, ..., 1. *)
Definition pyramid (k : Z) : list Z :=
  Py.range 1 (k + 1) ++ Py.range_down (k - 1) 0.

(** A measure of the order [_beats] decides: trumps above cards of the led
    suit above the rest, by rank inside the first two classes. It is used
    in the proofs only. *)
Definition strength (led_suit trump_suit : Suit) (c : Card.t) : Z :=
  if decide (Card.suit c = trump_suit) then 200 + rank_value (Card.rank c)
  else if decide (Card.suit c = led_suit) then 100 + rank_value (Card.rank c)
  else 0.

(** A trick after the rebind of [old_id] to [player_id]. *)
Definition rebound_trick (old_id player_id : string) (k : Trick.t)
  : Trick.t :=
  Trick.mk
    (if decide (Trick.lead_player_id k = old_id) then player_id
     else Trick.lead_player_id k)
    ((λ '(pid, card), (if decide (pid = old_id) then player_id else pid,
                       card))
       <$> Trick.cards_played k)
    (Trick.winner_id k).

(** One step of a sequence of calls. *)
Ltac py_step := cbn [mbind result_bind Py.bind assert_some].

(** * Properties *)

(** ** The round sequence (C1) *)

Section ranges.
Implicit Types (a : Z) (n i : nat).

Lemma length_range_from a n : length (Py.range_from a n) = n.
Proof. revert a; induction n as [|n IH]; intros a; simpl; [done|by rewrite IH]. Qed.

Lemma length_range_down_from a n : length (Py.range_down_from a n) = n.
Proof. revert a; induction n as [|n IH]; intros a; simpl; [done|by rewrite IH]. Qed.

Lemma lookup_range_from a n i :
  (i < n)%nat → Py.range_from a n !! i = Some (a + Z.of_nat i).
Proof.
  revert a i; induction n as [|n IH]; intros a [|i] Hi; simpl; try lia.
  - f_equal; lia.
  - rewrite IH by lia. f_equal; lia.
Qed.

Lemma lookup_range_down_from a n i :
  (i < n)%nat → Py.range_down_from a n !! i = Some (a - Z.of_nat i).
Proof.
  revert a i; induction n as [|n IH]; intros a [|i] Hi; simpl; try lia.
  - f_equal; lia.
  - rewrite IH by lia. f_equal; lia.
Qed.

Lemma range_from_snoc a n :
  Py.range_from a (S n) = Py.range_from a n ++ [a + Z.of_nat n].
Proof.
  revert a; induction n as [|n IH]; intros a.
  - simpl. do 2 f_equal; lia.
  - change (Py.range_from a (S (S n)))
      with (a :: Py.range_from (a + 1) (S n)).
    rewrite IH. simpl. do 3 f_equal; lia.
Qed.

Lemma reverse_range_down_from a n :
  reverse (Py.range_down_from a n) = Py.range_from (a - Z.of_nat n + 1) n.
Proof.
  revert a; induction n as [|n IH]; intros a; [done|].
  simpl Py.range_down_from. rewrite reverse_cons, IH, range_from_snoc.
  f_equal; [f_equal; lia | do 2 f_equal; lia].
Qed.

Lemma reverse_range_from a n :
  reverse (Py.range_from a n) = Py.range_down_from (a + Z.of_nat n - 1) n.
Proof.
  rewrite <-(reverse_involutive (Py.range_down_from _ _)).
  rewrite reverse_range_down_from. do 2 f_equal; lia.
Qed.

Lemma sum_range_from a n :
  2 * Py.sum (Py.range_from a n)
  = 2 * Z.of_nat n * a + Z.of_nat n * (Z.of_nat n - 1).
Proof.
  revert a; induction n as [|n IH]; intros a; [done|].
  simpl Py.range_from. unfold Py.sum in *. simpl foldr.
  specialize (IH (a + 1)). nia.
Qed.

Lemma sum_app l1 l2 : Py.sum (l1 ++ l2) = Py.sum l1 + Py.sum l2.
Proof. unfold Py.sum. induction l1 as [|x l1 IH]; simpl; lia. Qed.

Lemma sum_reverse l : Py.sum (reverse l) = Py.sum l.
Proof.
  induction l as [|x l IH]; [done|].
  rewrite reverse_cons, sum_app, IH. unfold Py.sum; simpl; lia.
Qed.

Lemma pyramid_length k : 1 ≤ k → Py.len (pyramid k) = 2 * k - 1.
Proof.
  intros Hk. unfold pyramid, Py.len, Py.range, Py.range_down.
  rewrite length_app, length_range_from, length_range_down_from. lia.
Qed.

Lemma pyramid_ascending k j :
  0 ≤ j < k → pyramid k !! Z.to_nat j = Some (j + 1).
Proof.
  intros Hj. unfold pyramid, Py.range.
  rewrite lookup_app_l by (rewrite length_range_from; lia).
  rewrite lookup_range_from by lia. f_equal; lia.
Qed.

Lemma pyramid_descending k j :
  k ≤ j < 2 * k - 1 → pyramid k !! Z.to_nat j = Some (2 * k - 1 - j).
Proof.
  intros Hj. unfold pyramid, Py.range, Py.range_down.
  rewrite lookup_app_r by (rewrite length_range_from; lia).
  rewrite length_range_from, lookup_range_down_from by lia. f_equal; lia.
Qed.

Lemma pyramid_palindrome k : 1 ≤ k → reverse (pyramid k) = pyramid k.
Proof.
  intros Hk. unfold pyramid, Py.range, Py.range_down.
  rewrite reverse_app, reverse_range_from, reverse_range_down_from.
  replace (Z.to_nat (k + 1 - 1)) with (S (Z.to_nat (k - 1 - 0))) by lia.
  rewrite range_from_snoc. simpl Py.range_down_from.
  rewrite <-app_assoc. simpl.
  f_equal; [f_equal; lia|]. f_equal; [lia|]. f_equal; lia.
Qed.

Lemma pyramid_bounds k c : c ∈ pyramid k → 1 ≤ c ≤ k.
Proof.
  unfold pyramid, Py.range, Py.range_down. intros Hc.
  apply elem_of_app in Hc as [Hc|Hc];
    apply list_elem_of_lookup in Hc as [i Hi];
    pose proof (lookup_lt_Some _ _ _ Hi) as Hlt.
  - rewrite length_range_from in Hlt.
    rewrite lookup_range_from in Hi by done. simplify_eq. lia.
  - rewrite length_range_down_from in Hlt.
    rewrite lookup_range_down_from in Hi by done. simplify_eq. lia.
Qed.

Lemma pyramid_sum k : 1 ≤ k → Py.sum (pyramid k) = k * k.
Proof.
  intros Hk. unfold pyramid, Py.range, Py.range_down.
  rewrite sum_app, <-(sum_reverse (Py.range_down_from _ _)).
  rewrite reverse_range_down_from.
  pose proof (sum_range_from 1 (Z.to_nat (k + 1 - 1))).
  pose proof (sum_range_from (k - 1 - Z.of_nat (Z.to_nat (k - 1 - 0)) + 1)
                (Z.to_nat (k - 1 - 0))).
  nia.
Qed.
End ranges.

Lemma build_round_sequence_eq (g : Game.t) :
  Py.len (Game.players g) ≠ 0 →
  Game.build_round_sequence g
  = Ok (Game.set_round_sequence
          (pyramid (Z.min 10 (52 / Py.len (Game.players g)))) g).
Proof.
  intros Hp. unfold Game.build_round_sequence, Py.floordiv.
  destruct (decide _) as [|_]; [done|]. reflexivity.
Qed.

(** C1, as stated, fails: with four players the sequence is
    1..10..1, nineteen rounds whose hand sizes add up to 100, not to at
    most 52. *)
Lemma round_sequence_sum_exceeds_deck :
  4 ≤ Py.len (Game.players four_player_game) ≤ 6 ∧
  ∃ g', Game.build_round_sequence four_player_game = Ok g' ∧
        Game.round_sequence g'
        = [1; 2; 3; 4; 5; 6; 7; 8; 9; 10; 9; 8; 7; 6; 5; 4; 3; 2; 1] ∧
        Py.sum (Game.round_sequence g') = 100 ∧
        ¬ Py.sum (Game.round_sequence g') ≤ 52.
Proof.
  split; [by vm_compute|]. eexists. split; [reflexivity|].
  split; [reflexivity|]. split; [reflexivity|]. by vm_compute.
Qed.

(** C1 (amended): for 4 to 6 players [build_round_sequence] succeeds and
    only writes [round_sequence]; the sequence is the symmetric pyramid
    1, 2, ..., peak, peak-1, ..., 1 with peak = min(10, 52 // p); every
    hand size c in it satisfies 1 <= c <= peak and c * p <= 52 (one round's
    deal fits the deck); the hand sizes add up to peak * peak, which is
    more than 52. *)
Theorem round_sequence_pyramid (g : Game.t) :
  4 ≤ Py.len (Game.players g) ≤ 6 →
  let p := Py.len (Game.players g) in
  let peak := Z.min 10 (52 / p) in
  ∃ g', Game.build_round_sequence g = Ok g' ∧
    g' = Game.set_round_sequence (Game.round_sequence g') g ∧
    let s := Game.round_sequence g' in
    Py.len s = 2 * peak - 1 ∧
    (∀ j, 0 ≤ j < peak → s !! Z.to_nat j = Some (j + 1)) ∧
    (∀ j, peak ≤ j < 2 * peak - 1 →
          s !! Z.to_nat j = Some (2 * peak - 1 - j)) ∧
    reverse s = s ∧
    (∀ c, c ∈ s → 1 ≤ c ≤ peak ∧ c * p ≤ 52) ∧
    Py.sum s = peak * peak ∧
    52 < Py.sum s.
Proof.
  intros Hp p peak.
  assert (Hdiv : 8 ≤ 52 / p ≤ 13).
  { split; [apply Z.div_le_lower_bound|apply Z.div_le_upper_bound]; lia. }
  assert (Hmul : p * (52 / p) ≤ 52) by (apply Z.mul_div_le; lia).
  assert (Hpeak : 8 ≤ peak ≤ 10) by (subst peak; lia).
  exists (Game.set_round_sequence (pyramid peak) g).
  split; [apply build_round_sequence_eq; lia|]. split; [done|].
  cbn [Game.round_sequence Game.set_round_sequence].
  split; [apply pyramid_length; lia|].
  split; [apply pyramid_ascending|]. split; [apply pyramid_descending|].
  split; [apply pyramid_palindrome; lia|].
  split.
  - intros c Hc%pyramid_bounds. split; [done|]. subst peak. nia.
  - rewrite pyramid_sum by lia. nia.
Qed.

Lemma round_sequence_pyramid_witness :
  4 ≤ Py.len (Game.players four_player_game) ≤ 6 ∧
  ∃ g', Game.build_round_sequence four_player_game = Ok g' ∧
    g' = Game.set_round_sequence (Game.round_sequence g') four_player_game ∧
    Py.len (Game.round_sequence g') = 2 * 10 - 1 ∧
    reverse (Game.round_sequence g') = Game.round_sequence g' ∧
    (∀ c, c ∈ Game.round_sequence g' → 1 ≤ c ≤ 10 ∧ c * 4 ≤ 52) ∧
    Py.sum (Game.round_sequence g') = 10 * 10.
Proof.
  assert (H : 4 ≤ Py.len (Game.players four_player_game) ≤ 6)
    by (vm_compute; split; discriminate).
  split; [exact H|].
  destruct (round_sequence_pyramid four_player_game H)
    as (g' & Hb & Hg & Hl & _ & _ & Hr & Hc & Hs & _).
  exists g'. repeat split; try done; apply Hc; done.
Defined.

(** ** Bidding (C2, C3) *)

Lemma index_lookup {A} (l : list A) (i : Z) (x : A) :
  0 ≤ i → l !! Z.to_nat i = Some x → Py.index l i = Ok x.
Proof.
  intros Hi Hx. unfold Py.index.
  destruct (decide (i < 0)) as [|_]; [lia|].
  destruct (decide (i < 0)) as [|_]; [lia|]. by rewrite Hx.
Qed.

(** Position [i] of the bidding rotation is seat
    [(dealer_index + 1 + i) % n]. *)
Lemma index_bidding_order (g : Game.t) (i : Z) :
  0 ≤ i < Py.len (Game.players g) →
  Py.index (get_bidding_order g) i
  = Ok ((Game.dealer_index g + 1 + i) mod Py.len (Game.players g)).
Proof.
  intros Hi. apply index_lookup; [lia|].
  unfold get_bidding_order, Py.range.
  rewrite list_lookup_fmap, lookup_range_from by lia.
  simpl. do 2 f_equal. lia.
Qed.

(** The last position of the rotation is the dealer's seat. *)
Lemma index_bidding_order_last (g : Game.t) :
  1 ≤ Py.len (Game.players g) →
  Py.index (get_bidding_order g) (Py.len (Game.players g) - 1)
  = Ok (Game.dealer_index g mod Py.len (Game.players g)).
Proof.
  intros Hn. rewrite index_bidding_order by lia.
  f_equal. replace (Game.dealer_index g + 1 + (Py.len (Game.players g) - 1))
    with (Game.dealer_index g + 1 * Py.len (Game.players g)) by lia.
  apply Z.mod_add. lia.
Qed.

Lemma lookup_some_len {A} (l : list A) (i : nat) (x : A) :
  l !! i = Some x → 1 ≤ Py.len l.
Proof. intros H%lookup_lt_Some. unfold Py.len. lia. Qed.

(** [sum_values] adds the value of each key once. *)
Lemma sum_values_insert (d : gmap string Z) (k : string) (v : Z) :
  d !! k = None → Py.sum_values (<[k := v]> d) = v + Py.sum_values d.
Proof.
  intros Hk. unfold Py.sum_values.
  apply (map_fold_insert_L (λ _ v acc, v + acc)); [intros; lia|done].
Qed.

Lemma sum_values_empty : Py.sum_values ∅ = 0.
Proof. reflexivity. Qed.

(** [validate_bid] at the dealer's turn, for the dealer's id: the range
    check, then the dealer restriction. *)
Lemma validate_bid_dealer (g : Game.t) (r : RoundState.t)
    (dealer : Player.t) (bid : Z) :
  let n := Py.len (Game.players g) in
  Game.phase g = BIDDING →
  Game.current_round g = Some r →
  RoundState.current_bidder_index r = n - 1 →
  Game.players g !! Z.to_nat (Game.dealer_index g mod n) = Some dealer →
  validate_bid g (Player.id dealer) bid
  = Ok (if decide (bid < 0 ∨ bid > RoundState.num_cards r)
        then Some ("Bid must be between 0 and "
                   +:+ pretty (RoundState.num_cards r))
        else if decide (get_forbidden_bid g = Some bid)
        then Some ("Dealer cannot bid " +:+ pretty bid
                   +:+ " (total bids cannot equal "
                   +:+ pretty (RoundState.num_cards r) +:+ ")")
        else None).
Proof.
  intros n Hphase Hr Hpos Hdealer. subst n.
  pose proof (lookup_some_len _ _ _ Hdealer) as Hn.
  unfold validate_bid. rewrite Hphase, Hr.
  destruct (decide (BIDDING ≠ BIDDING)) as [|_]; [done|].
  rewrite Hpos, (index_bidding_order_last g Hn).
  cbn [mbind result_bind Py.bind].
  rewrite (index_lookup _ _ dealer)
    by (first [apply Z.mod_pos_bound; lia | done]).
  cbn [mbind result_bind Py.bind].
  destruct (decide (Player.id dealer ≠ Player.id dealer)) as [|_]; [done|].
  destruct (decide (bid < 0 ∨ _)) as [|_]; [done|].
  destruct (get_forbidden_bid g) as [f|]; [|by rewrite decide_False].
  destruct (decide (bid = f)) as [->|Hne].
  - by rewrite decide_True.
  - rewrite decide_False; [done|congruence].
Qed.

(** C2: with an active round, [get_forbidden_bid] returns a value only at
    the last position of the bidding rotation (and only values in
    0..num_cards); there it returns
    forbidden = num_cards - sum(bids) when 0 <= forbidden <= num_cards and
    None otherwise; and at the dealer's turn [validate_bid] rejects the
    dealer's bid under the dealer rule exactly when the bid equals the
    value [get_forbidden_bid] returned: any other bid only meets the range
    check. *)
Theorem dealer_forbidden_bid (g : Game.t) (r : RoundState.t) :
  Game.current_round g = Some r →
  let n := Py.len (Game.players g) in
  let forbidden := RoundState.num_cards r - Py.sum_values (RoundState.bids r) in
  (∀ f, get_forbidden_bid g = Some f →
        RoundState.current_bidder_index r = n - 1 ∧
        0 ≤ f ≤ RoundState.num_cards r) ∧
  (RoundState.current_bidder_index r = n - 1 →
   get_forbidden_bid g
   = if decide (0 ≤ forbidden ∧ forbidden ≤ RoundState.num_cards r)
     then Some forbidden else None) ∧
  (∀ (dealer : Player.t) (bid : Z),
     Game.phase g = BIDDING →
     RoundState.current_bidder_index r = n - 1 →
     Game.players g !! Z.to_nat (Game.dealer_index g mod n) = Some dealer →
     (get_forbidden_bid g = Some bid →
      validate_bid g (Player.id dealer) bid
      = Ok (Some ("Dealer cannot bid " +:+ pretty bid
                  +:+ " (total bids cannot equal "
                  +:+ pretty (RoundState.num_cards r) +:+ ")"))) ∧
     (get_forbidden_bid g ≠ Some bid →
      validate_bid g (Player.id dealer) bid
      = Ok (if decide (bid < 0 ∨ bid > RoundState.num_cards r)
            then Some ("Bid must be between 0 and "
                       +:+ pretty (RoundState.num_cards r))
            else None))).
Proof.
  intros Hr n forbidden.
  assert (Hrange : ∀ f, get_forbidden_bid g = Some f →
            RoundState.current_bidder_index r = n - 1 ∧
            0 ≤ f ≤ RoundState.num_cards r).
  { intros f. unfold get_forbidden_bid. rewrite Hr.
    destruct (decide (_ ≠ _)) as [|Heq]; [done|].
    case_decide; [|done]. intros [= <-].
    split; [by apply dec_stable|done]. }
  split; [exact Hrange|]. split.
  - intros Hpos. unfold get_forbidden_bid. rewrite Hr.
    by rewrite decide_False by (intros ?; done).
  - intros dealer bid Hphase Hpos Hdealer.
    rewrite (validate_bid_dealer g r dealer bid Hphase Hr Hpos Hdealer).
    split; intros Hf.
    + destruct (Hrange bid Hf) as [_ ?].
      rewrite decide_False by lia. by rewrite decide_True.
    + case_decide; [done|]. by rewrite decide_False.
Qed.

(** C3: at the dealer's turn of a round with at least one card the dealer
    has a legal bid: some b in 0..num_cards that [validate_bid] accepts. *)
Theorem dealer_has_legal_bid (g : Game.t) (r : RoundState.t)
    (dealer : Player.t) :
  let n := Py.len (Game.players g) in
  Game.phase g = BIDDING →
  Game.current_round g = Some r →
  1 ≤ RoundState.num_cards r →
  RoundState.current_bidder_index r = n - 1 →
  Game.players g !! Z.to_nat (Game.dealer_index g mod n) = Some dealer →
  ∃ b, 0 ≤ b ≤ RoundState.num_cards r ∧
       validate_bid g (Player.id dealer) b = Ok None.
Proof.
  intros n Hphase Hr Hcards Hpos Hdealer.
  destruct (decide (get_forbidden_bid g = Some 0)) as [Hf|Hf].
  - exists 1. split; [lia|].
    rewrite (validate_bid_dealer g r dealer 1 Hphase Hr Hpos Hdealer).
    rewrite decide_False by lia. rewrite decide_False; [done|congruence].
  - exists 0. split; [lia|].
    rewrite (validate_bid_dealer g r dealer 0 Hphase Hr Hpos Hdealer).
    rewrite decide_False by lia. by rewrite decide_False.
Qed.

Lemma dealer_forbidden_bid_witness :
  Game.current_round dealer_turn_game = Some dealer_turn_round ∧
  get_forbidden_bid dealer_turn_game = Some 1 ∧
  validate_bid dealer_turn_game "p0" 1
  = Ok (Some "Dealer cannot bid 1 (total bids cannot equal 4)") ∧
  validate_bid dealer_turn_game "p0" 2 = Ok None.
Proof.
  split; [reflexivity|].
  destruct (dealer_forbidden_bid dealer_turn_game dealer_turn_round eq_refl)
    as (_ & Hf & Hv).
  assert (Hf1 : get_forbidden_bid dealer_turn_game = Some 1)
    by (rewrite Hf; [by vm_compute|reflexivity]).
  split; [exact Hf1|].
  split.
  - apply (Hv (seat "p0" "Player 0") 1); [reflexivity..|exact Hf1].
  - destruct (Hv (seat "p0" "Player 0") 2) as [_ H2]; [reflexivity..|].
    apply H2. rewrite Hf1. discriminate.
Defined.

Lemma dealer_has_legal_bid_witness :
  Game.phase dealer_turn_game = BIDDING ∧
  Game.current_round dealer_turn_game = Some dealer_turn_round ∧
  1 ≤ RoundState.num_cards dealer_turn_round ∧
  RoundState.current_bidder_index dealer_turn_round
  = Py.len (Game.players dealer_turn_game) - 1 ∧
  ∃ b, 0 ≤ b ≤ RoundState.num_cards dealer_turn_round ∧
       validate_bid dealer_turn_game "p0" b = Ok None.
Proof.
  repeat (split; [by vm_compute|]).
  apply (dealer_has_legal_bid dealer_turn_game dealer_turn_round
           (seat "p0" "Player 0")); by vm_compute.
Defined.

(** ** Scoring (C4, C9) *)

(** [score_round] treats the player at seat [i] by the loop body, and no
    other seat changes place. *)
Lemma score_round_lookup (g : Game.t) (i : nat) (p : Player.t) :
  Game.players g !! i = Some p →
  (score_round g).2 !! i = Some (score_player p).2 ∧
  Game.players (score_round g).1 !! i = Some (score_player p).1.
Proof.
  intros Hp. unfold score_round. cbn.
  rewrite !list_lookup_fmap, Hp. done.
Qed.

Lemma score_round_history (g : Game.t) :
  Game.scores_history (score_round g).1
  = Game.scores_history g
    ++ [ScoreSnapshot.mk (Game.current_round_index g)
          (match Game.current_round g with
           | Some round => RoundState.num_cards round
           | None => 0
           end)
          (score_round g).2].
Proof. reflexivity. Qed.

(** C4: [score_round] gives the player at every seat 10 points for a met
    bid of 0, 11 for a met bid of 1, bid * 10 for any other met bid and 0
    for a missed bid (an unset bid counting as 0); the points are added to
    [total_score] and nothing else of the player changes; the result
    entries and one snapshot, appended to [scores_history], record it.
    With [tricks_won >= 0], as the data model has it, the points are
    positive exactly when the bid was met. *)
Theorem score_round_points (g : Game.t) (i : nat) (p : Player.t) :
  Game.players g !! i = Some p →
  0 ≤ Player.tricks_won p →
  let bid := default 0 (Player.bid p) in
  let won := Player.tricks_won p in
  let points :=
    if decide (won = bid)
    then if decide (bid = 0) then 10
         else if decide (bid = 1) then 11
         else bid * 10
    else 0 in
  (score_round g).2 !! i
  = Some (ScoreEntry.mk (Player.id p) (Player.name p) bid won
            (bool_decide (won = bid)) points (Player.total_score p + points)) ∧
  (points > 0 ↔ won = bid) ∧
  Game.players (score_round g).1 !! i
  = Some (Player.set_total_score (Player.total_score p + points) p) ∧
  Game.scores_history (score_round g).1
  = Game.scores_history g
    ++ [ScoreSnapshot.mk (Game.current_round_index g)
          (match Game.current_round g with
           | Some round => RoundState.num_cards round
           | None => 0
           end)
          (score_round g).2].
Proof.
  intros Hp Hwon. cbv zeta.
  destruct (score_round_lookup g i p Hp) as [He Hp'].
  rewrite He, Hp'. unfold score_player.
  destruct (Player.bid p) as [b|]; cbn;
    (split; [|split; [|split; [|apply score_round_history]]]);
    repeat case_bool_decide; repeat case_decide;
    try done; try lia; split; intros; lia.
Qed.

Lemma score_round_points_witness :
  Game.players scored_game !! 2%nat
  = Some (Player.mk "p2" "Player 2" [] (Some 3) 3 21) ∧
  0 ≤ 3 ∧
  (score_round scored_game).2 !! 2%nat
  = Some (ScoreEntry.mk "p2" "Player 2" 3 3 true 30 51) ∧
  (30 > 0 ↔ 3 = 3) ∧
  Game.players (score_round scored_game).1 !! 2%nat
  = Some (Player.mk "p2" "Player 2" [] (Some 3) 3 51).
Proof.
  split; [reflexivity|]. split; [lia|].
  destruct (score_round_points scored_game 2
              (Player.mk "p2" "Player 2" [] (Some 3) 3 21) eq_refl)
    as (He & Hiff & Hp & _); [cbn; lia|].
  split; [exact He|]. split; [exact Hiff|exact Hp].
Defined.

(** C9: a player whose bid is unset at scoring time is scored with bid 0:
    with no trick won the entry says bid 0, bid met, 10 points, and the
    player's total grows by 10. *)
Theorem score_round_unset_bid (g : Game.t) (i : nat) (p : Player.t) :
  Game.players g !! i = Some p →
  Player.bid p = None →
  Player.tricks_won p = 0 →
  (score_round g).2 !! i
  = Some (ScoreEntry.mk (Player.id p) (Player.name p) 0 0 true 10
            (Player.total_score p + 10)) ∧
  Game.players (score_round g).1 !! i
  = Some (Player.set_total_score (Player.total_score p + 10) p).
Proof.
  intros Hp Hbid Hwon.
  destruct (score_round_lookup g i p Hp) as [-> ->].
  unfold score_player. rewrite Hbid, Hwon. done.
Qed.

Lemma score_round_unset_bid_witness :
  Game.players scored_game !! 4%nat
  = Some (Player.mk "p4" "Player 4" [] None 0 7) ∧
  (score_round scored_game).2 !! 4%nat
  = Some (ScoreEntry.mk "p4" "Player 4" 0 0 true 10 17) ∧
  Game.players (score_round scored_game).1 !! 4%nat
  = Some (Player.mk "p4" "Player 4" [] None 0 17).
Proof.
  split; [reflexivity|].
  exact (score_round_unset_bid scored_game 4
           (Player.mk "p4" "Player 4" [] None 0 7) eq_refl eq_refl eq_refl).
Defined.

(** ** Trick resolution (C5) *)

Lemma index_0 {A} (x : A) (l : list A) : Py.index (x :: l) 0 = Ok x.
Proof. reflexivity. Qed.

Section beats.
Context (led_suit trump_suit : Suit).

Lemma rank_value_bounds (r : Rank) : 2 ≤ rank_value r ≤ 14.
Proof. destruct r; simpl; lia. Qed.

Lemma rank_value_inj (r1 r2 : Rank) : rank_value r1 = rank_value r2 → r1 = r2.
Proof. destruct r1, r2; simpl; intros; first [done|lia]. Qed.

Lemma beats_strength (c b : Card.t) :
  _beats c b led_suit trump_suit = bool_decide (strength led_suit trump_suit c > strength led_suit trump_suit b).
Proof.
  pose proof (rank_value_bounds (Card.rank c)).
  pose proof (rank_value_bounds (Card.rank b)).
  unfold _beats, strength.
  repeat case_bool_decide; repeat case_decide; simpl; try done; lia.
Qed.

(** Two cards of equal positive strength are the same card. *)
Lemma strength_inj (c b : Card.t) :
  0 < strength led_suit trump_suit c → strength led_suit trump_suit c = strength led_suit trump_suit b → c = b.
Proof.
  pose proof (rank_value_bounds (Card.rank c)).
  pose proof (rank_value_bounds (Card.rank b)).
  destruct c as [sc rc], b as [sb rb]. unfold strength. simpl in *.
  repeat case_decide; intros; subst; try lia;
    f_equal; apply rank_value_inj; lia.
Qed.

Lemma find_winner_spec (best : string * Card.t)
    (rest : list (string * Card.t)) :
  let w := find_winner led_suit trump_suit best rest in
  w ∈ best :: rest ∧
  ∀ x, x ∈ best :: rest → strength led_suit trump_suit x.2 ≤ strength led_suit trump_suit w.2.
Proof.
  revert best. induction rest as [|[pid card] rest IH]; intros [bp bc] w.
  - subst w. simpl. split; [by left|].
    intros x ->%list_elem_of_singleton. done.
  - subst w. unfold find_winner in *. simpl foldl.
    rewrite beats_strength. case_bool_decide as Hb.
    + destruct (IH (pid, card)) as [Hin Hmax]. split.
      * right. done.
      * intros x [->|Hx]%elem_of_cons.
        -- specialize (Hmax (pid, card) ltac:(by left)). simpl in *. lia.
        -- by apply Hmax.
    + destruct (IH (bp, bc)) as [Hin Hmax]. split.
      * apply elem_of_cons in Hin as [->|Hin]; [by left|by do 2 right].
      * intros x [->|[->|Hx]%elem_of_cons]%elem_of_cons.
        -- apply Hmax. by left.
        -- specialize (Hmax (bp, bc) ltac:(by left)). simpl in *. lia.
        -- apply Hmax. by right.
Qed.
End beats.

(** When every card on the table belongs to a seated player,
    [resolve_trick] returns, and names the pair its loop ends with. *)
Lemma resolve_trick_ok (g : Game.t) (r : RoundState.t) (a : trick_ref)
    (k : Trick.t) (first : string * Card.t) (rest : list (string * Card.t)) :
  Game.current_round g = Some r →
  RoundState.trick r = Some (a, k) →
  Trick.cards_played k = first :: rest →
  (∀ x, x ∈ Trick.cards_played k → is_Some (Game.get_player_by_id g x.1)) →
  ∃ g' res,
    resolve_trick g = Ok (g', res) ∧
    (TrickResult.winner_id res, TrickResult.winning_card res)
    = find_winner (Card.suit first.2) (RoundState.trump_suit r) first rest.
Proof.
  intros Hr Hk Hcards Hseated.
  pose proof (find_winner_spec (Card.suit first.2) (RoundState.trump_suit r)
                first rest) as [Hin _].
  unfold resolve_trick. rewrite Hr. py_step. rewrite Hk. py_step.
  rewrite Hcards, index_0. py_step.
  change (drop 1 (first :: rest)) with rest.
  destruct (find_winner _ _ first rest) as [bp bc] eqn:Hw.
  rewrite <-Hcards in Hin. apply Hseated in Hin as [p Hp]. simpl in Hp.
  unfold Game.get_player_by_id in Hp.
  destruct (Game.find_player g bp) as [[i p']|] eqn:Hfind; [|done].
  py_step. case_decide; eexists _, _; (split; [reflexivity|done]).
Qed.

(** Whatever [resolve_trick] returns names the pair its loop ends with. *)
Lemma resolve_trick_inv (g g' : Game.t) (res : TrickResult.t)
    (r : RoundState.t) (a : trick_ref) (k : Trick.t)
    (first : string * Card.t) (rest : list (string * Card.t)) :
  Game.current_round g = Some r →
  RoundState.trick r = Some (a, k) →
  Trick.cards_played k = first :: rest →
  resolve_trick g = Ok (g', res) →
  (TrickResult.winner_id res, TrickResult.winning_card res)
  = find_winner (Card.suit first.2) (RoundState.trump_suit r) first rest.
Proof.
  intros Hr Hk Hcards.
  unfold resolve_trick. rewrite Hr. py_step. rewrite Hk. py_step.
  rewrite Hcards, index_0. py_step.
  change (drop 1 (first :: rest)) with rest.
  destruct (find_winner _ _ first rest) as [bp bc].
  destruct (Game.find_player g bp) as [[i p']|]; [|done].
  py_step. case_decide; intros [= <- <-]; done.
Qed.

(** C5: for a trick with at least one card whose cards all belong to
    seated players, [resolve_trick] returns; [_beats] orders two cards as
    the rules say (trump over non-trump, higher rank between two trumps;
    between two non-trumps the led suit over any other suit, higher rank
    between two cards of the led suit, and a card that is neither trump nor
    of the led suit beats nothing); the winning card was played in the
    trick, no card of the trick beats it and it beats every other card of
    the trick; and any resolution of a trick with the same cards and the
    same trump, in whatever game, names the same winner and card. *)
Theorem resolve_trick_winner (g : Game.t) (r : RoundState.t) (a : trick_ref)
    (k : Trick.t) (first : string * Card.t) (rest : list (string * Card.t)) :
  Game.current_round g = Some r →
  RoundState.trick r = Some (a, k) →
  Trick.cards_played k = first :: rest →
  (∀ x, x ∈ Trick.cards_played k → is_Some (Game.get_player_by_id g x.1)) →
  let led := Card.suit first.2 in
  let trump := RoundState.trump_suit r in
  (∀ c b : Card.t,
     (Card.suit c = trump → Card.suit b ≠ trump →
      _beats c b led trump = true) ∧
     (Card.suit c ≠ trump → Card.suit b = trump →
      _beats c b led trump = false) ∧
     (Card.suit c = trump → Card.suit b = trump →
      _beats c b led trump
      = bool_decide (rank_value (Card.rank c) > rank_value (Card.rank b))) ∧
     (Card.suit c ≠ trump → Card.suit b ≠ trump →
      Card.suit c = led → Card.suit b ≠ led →
      _beats c b led trump = true) ∧
     (Card.suit c ≠ trump → Card.suit b ≠ trump →
      Card.suit c = led → Card.suit b = led →
      _beats c b led trump
      = bool_decide (rank_value (Card.rank c) > rank_value (Card.rank b))) ∧
     (Card.suit c ≠ trump → Card.suit c ≠ led →
      _beats c b led trump = false)) ∧
  ∃ g' res,
    resolve_trick g = Ok (g', res) ∧
    (TrickResult.winner_id res, TrickResult.winning_card res)
      ∈ Trick.cards_played k ∧
    (∀ x, x ∈ Trick.cards_played k →
          _beats x.2 (TrickResult.winning_card res) led trump = false) ∧
    (∀ x, x ∈ Trick.cards_played k →
          x.2 ≠ TrickResult.winning_card res →
          _beats (TrickResult.winning_card res) x.2 led trump = true) ∧
    (∀ g2 r2 a2 k2 g2' res2,
       Game.current_round g2 = Some r2 →
       RoundState.trick r2 = Some (a2, k2) →
       Trick.cards_played k2 = Trick.cards_played k →
       RoundState.trump_suit r2 = trump →
       resolve_trick g2 = Ok (g2', res2) →
       TrickResult.winner_id res2 = TrickResult.winner_id res ∧
       TrickResult.winning_card res2 = TrickResult.winning_card res).
Proof.
  intros Hr Hk Hcards Hseated led trump. split.
  { intros c b. unfold _beats.
    repeat split; intros; repeat case_bool_decide; simpl; done. }
  destruct (resolve_trick_ok g r a k first rest Hr Hk Hcards Hseated)
    as (g' & res & Hres & Hw).
  fold led trump in Hw.
  destruct (find_winner_spec led trump first rest) as [Hin Hmax].
  rewrite <-Hw, <-Hcards in Hin. rewrite <-Hw, <-Hcards in Hmax.
  simpl in Hmax.
  assert (Hpos : 0 < strength led trump (TrickResult.winning_card res)).
  { specialize (Hmax first). rewrite Hcards in Hmax.
    specialize (Hmax ltac:(by left)).
    pose proof (rank_value_bounds (Card.rank first.2)).
    revert Hmax. unfold strength at 1. subst led.
    repeat case_decide; try done; lia. }
  exists g', res. split; [done|]. split; [done|]. split; [|split].
  - intros x Hx. rewrite beats_strength.
    apply bool_decide_eq_false_2. specialize (Hmax x Hx). lia.
  - intros x Hx Hne. rewrite beats_strength.
    apply bool_decide_eq_true_2. specialize (Hmax x Hx).
    destruct (decide (strength led trump x.2
                      = strength led trump (TrickResult.winning_card res)))
      as [Heq|]; [|lia].
    symmetry in Heq. apply strength_inj in Heq; [|done]. congruence.
  - intros g2 r2 a2 k2 g2' res2 Hr2 Hk2 Hcards2 Htrump2 Hres2.
    rewrite Hcards in Hcards2.
    pose proof (resolve_trick_inv g2 g2' res2 r2 a2 k2 first rest
                  Hr2 Hk2 Hcards2 Hres2) as Hw2.
    rewrite Htrump2 in Hw2. fold led in Hw2. rewrite <-Hw in Hw2.
    by injection Hw2.
Qed.

Lemma resolve_trick_winner_witness :
  Game.current_round table_game = Some table_round ∧
  RoundState.trick table_round = Some (0%nat, table_trick) ∧
  ∃ g' res,
    resolve_trick table_game = Ok (g', res) ∧
    (TrickResult.winner_id res, TrickResult.winning_card res)
      ∈ Trick.cards_played table_trick ∧
    ∀ x, x ∈ Trick.cards_played table_trick →
         _beats x.2 (TrickResult.winning_card res) HEARTS SPADES = false.
Proof.
  split; [reflexivity|]. split; [reflexivity|].
  destruct (resolve_trick_winner table_game table_round 0%nat table_trick
              ("p1", Card.mk HEARTS KING)
              [("p2", Card.mk SPADES TWO); ("p3", Card.mk HEARTS ACE);
               ("p0", Card.mk CLUBS ACE)]
              eq_refl eq_refl eq_refl)
    as (_ & g' & res & Hres & Hin & Hmax & _).
  - intros x Hx. repeat (apply elem_of_cons in Hx as [->|Hx]);
      [eexists; by vm_compute..|by apply elem_of_nil in Hx].
  - exists g', res. split; [exact Hres|]. split; [exact Hin|exact Hmax].
Defined.

Example resolve_trick_trump_wins :
  ∃ g' res,
    resolve_trick table_game = Ok (g', res) ∧
    TrickResult.winner_id res = "p2" ∧
    TrickResult.winning_card res = Card.mk SPADES TWO ∧
    TrickResult.round_over res = true.
Proof. eexists _, _. split; [vm_compute; reflexivity|done]. Qed.

(** ** Following suit (C6) *)

(** C6: with an active trick, for the player an id denotes:
    [get_valid_cards] is the whole hand when no card was played yet;
    otherwise, when the hand has a card of the suit of the first card
    played, it is exactly the cards of the hand of that suit (in hand
    order); otherwise it is the whole hand. *)
Theorem get_valid_cards_follow_suit (g : Game.t) (r : RoundState.t)
    (a : trick_ref) (k : Trick.t) (player_id : string) (p : Player.t) :
  Game.current_round g = Some r →
  RoundState.trick r = Some (a, k) →
  Game.get_player_by_id g player_id = Some p →
  (Trick.cards_played k = [] →
   get_valid_cards g player_id = Player.hand p) ∧
  (∀ lead first rest,
     Trick.cards_played k = (lead, first) :: rest →
     ((∃ c, c ∈ Player.hand p ∧ Card.suit c = Card.suit first) →
      get_valid_cards g player_id
      = filter (λ c, Card.suit c = Card.suit first) (Player.hand p) ∧
      ∀ c, c ∈ get_valid_cards g player_id
           ↔ c ∈ Player.hand p ∧ Card.suit c = Card.suit first) ∧
     ((∀ c, c ∈ Player.hand p → Card.suit c ≠ Card.suit first) →
      get_valid_cards g player_id = Player.hand p)).
Proof.
  intros Hr Hk Hp. unfold get_valid_cards. rewrite Hr, Hk, Hp. split.
  - by intros ->.
  - intros lead first rest ->. split.
    + intros (c & Hc & Hsuit).
      assert (Hin : c ∈ filter (λ c, Card.suit c = Card.suit first)
                         (Player.hand p))
        by (by apply list_elem_of_filter).
      destruct (filter _ (Player.hand p)) as [|c' l] eqn:Hf.
      * by apply elem_of_nil in Hin.
      * split; [done|]. intros c0. rewrite <-Hf, list_elem_of_filter.
        tauto.
    + intros Hnone.
      destruct (filter _ (Player.hand p)) as [|c' l] eqn:Hf; [done|].
      assert (Hin : c' ∈ filter (λ c, Card.suit c = Card.suit first)
                         (Player.hand p))
        by (rewrite Hf; by left).
      apply list_elem_of_filter in Hin as [Hsuit Hin].
      by destruct (Hnone c' Hin).
Qed.

Lemma get_valid_cards_follow_suit_witness :
  Game.current_round follow_game = Some follow_round ∧
  RoundState.trick follow_round = Some (0%nat, follow_trick) ∧
  Game.get_player_by_id follow_game "p1"
  = Some (Player.mk "p1" "Player 1"
            [Card.mk SPADES TWO; Card.mk CLUBS TWO] None 0 0) ∧
  get_valid_cards follow_game "p1" = [Card.mk SPADES TWO].
Proof.
  split; [reflexivity|]. split; [reflexivity|]. split; [reflexivity|].
  destruct (get_valid_cards_follow_suit follow_game follow_round 0%nat
              follow_trick "p1"
              (Player.mk "p1" "Player 1"
                 [Card.mk SPADES TWO; Card.mk CLUBS TWO] None 0 0)
              eq_refl eq_refl eq_refl) as [_ H].
  destruct (H "p0" (Card.mk SPADES ACE) [] eq_refl) as [[Hv _] _].
  - exists (Card.mk SPADES TWO). split; [by left|reflexivity].
  - rewrite Hv. reflexivity.
Defined.

(** ** Rejected requests (C7) *)

(** The messages of [validate_bid] and [validate_play] are never empty, so
    [if error:] holds for each of them. *)
Lemma validate_bid_message (g : Game.t) (player_id : string) (bid : Z)
    (error : string) :
  validate_bid g player_id bid = Ok (Some error) →
  Py.truthy_str (Some error) = true.
Proof.
  unfold validate_bid.
  case_decide; [by intros [= <-]|].
  destruct (Game.current_round g) as [r|]; [|by intros [= <-]].
  destruct (Py.index (get_bidding_order g) _) as [i|]; [|done]. py_step.
  destruct (Py.index (Game.players g) i) as [p|]; [|done]. py_step.
  case_decide; [by intros [= <-]|].
  case_decide; [by intros [= <-]|].
  destruct (get_forbidden_bid g) as [f|]; [|done].
  case_decide; [by intros [= <-]|done].
Qed.

Lemma validate_play_message (g : Game.t) (player_id : string) (card : Card.t)
    (error : string) :
  validate_play g player_id card = Ok (Some error) →
  Py.truthy_str (Some error) = true.
Proof.
  unfold validate_play.
  case_decide; [by intros [= <-]|].
  destruct (Game.current_round g ≫= RoundState.trick) as [ak|];
    [|by intros [= <-]].
  destruct (Py.index (Game.players g) _) as [current|]; [|done]. py_step.
  case_decide; [by intros [= <-]|].
  destruct (Game.get_player_by_id g player_id) as [player|];
    [|by intros [= <-]].
  case_decide; [by intros [= <-]|].
  case_decide; [by intros [= <-]|done].
Qed.

(** C7: a place_bid or play_card request that [validate_bid] or
    [validate_play] rejects is answered with that error, to the sender
    alone, and the handler returns the connection manager it was given:
    registry, rooms and every field of every Game are what they were. In
    particular a request in the wrong phase is rejected so. *)
Theorem rejected_request_leaves_state (self : ConnectionManager.t)
    (player_id code : string) (game : Game.t) (data : Request.t) :
  RoomManager.player_room_entry (ConnectionManager.room_manager self) player_id
  = Some (code, game) →
  (∀ bid error,
     Request.bid data = Some (Ok bid) →
     validate_bid game player_id bid = Ok (Some error) →
     ConnectionManager._handle_place_bid self player_id data
     = Ok (self, ConnectionManager.send_to_player self player_id
                   (MsgError error))) ∧
  (∀ card error,
     Request.card data = Ok card →
     validate_play game player_id card = Ok (Some error) →
     ConnectionManager._handle_play_card self player_id data
     = Ok (self, ConnectionManager.send_to_player self player_id
                   (MsgError error))) ∧
  (∀ bid,
     Request.bid data = Some (Ok bid) →
     Game.phase game ≠ BIDDING →
     ConnectionManager._handle_place_bid self player_id data
     = Ok (self, ConnectionManager.send_to_player self player_id
                   (MsgError "Not in bidding phase"))) ∧
  (∀ card,
     Request.card data = Ok card →
     Game.phase game ≠ PLAYING →
     ConnectionManager._handle_play_card self player_id data
     = Ok (self, ConnectionManager.send_to_player self player_id
                   (MsgError "Not in playing phase"))).
Proof.
  intros Hroom.
  assert (Hbid : ∀ bid error,
     Request.bid data = Some (Ok bid) →
     validate_bid game player_id bid = Ok (Some error) →
     ConnectionManager._handle_place_bid self player_id data
     = Ok (self, ConnectionManager.send_to_player self player_id
                   (MsgError error))).
  { intros bid error Hdata Herr.
    unfold ConnectionManager._handle_place_bid.
    rewrite Hroom, Hdata. py_step. rewrite Herr. py_step.
    by rewrite (validate_bid_message _ _ _ _ Herr). }
  assert (Hplay : ∀ card error,
     Request.card data = Ok card →
     validate_play game player_id card = Ok (Some error) →
     ConnectionManager._handle_play_card self player_id data
     = Ok (self, ConnectionManager.send_to_player self player_id
                   (MsgError error))).
  { intros card error Hdata Herr.
    unfold ConnectionManager._handle_play_card.
    rewrite Hroom, Hdata. rewrite Herr. py_step.
    by rewrite (validate_play_message _ _ _ _ Herr). }
  split; [exact Hbid|]. split; [exact Hplay|]. split.
  - intros bid Hdata Hphase. apply (Hbid bid); [done|].
    unfold validate_bid. by rewrite decide_True.
  - intros card Hdata Hphase. apply (Hplay card); [done|].
    unfold validate_play. by rewrite decide_True.
Qed.

(** The dealer asks for the forbidden bid; a player plays out of turn. *)
Lemma rejected_request_leaves_state_witness :
  RoomManager.player_room_entry
    (ConnectionManager.room_manager (serving dealer_turn_game)) "p0"
  = Some ("ROOM1", dealer_turn_game) ∧
  validate_bid dealer_turn_game "p0" 1
  = Ok (Some "Dealer cannot bid 1 (total bids cannot equal 4)") ∧
  ConnectionManager._handle_place_bid (serving dealer_turn_game) "p0"
    (Request.mk (Some (Ok 1)) (Raise Py.TypeError))
  = Ok (serving dealer_turn_game,
        [("p0", MsgError "Dealer cannot bid 1 (total bids cannot equal 4)")]).
Proof.
  split; [by vm_compute|]. split; [by vm_compute|].
  destruct (rejected_request_leaves_state (serving dealer_turn_game)
              "p0" "ROOM1" dealer_turn_game
              (Request.mk (Some (Ok 1)) (Raise Py.TypeError)))
    as (Hbid & _); [by vm_compute|].
  rewrite (Hbid 1 "Dealer cannot bid 1 (total bids cannot equal 4)");
    [|reflexivity|by vm_compute].
  f_equal.
Defined.

(** For contrast, a bid that passes validation is recorded: the dealer
    bids 2, the last bid of the round, and play starts. *)
Example accepted_bid_changes_state :
  ∃ cm out g r,
    ConnectionManager._handle_place_bid (serving dealer_turn_game) "p0"
      (Request.mk (Some (Ok 2)) (Raise Py.TypeError))
    = Ok (cm, out) ∧
    RoomManager.get_player_room (ConnectionManager.room_manager cm) "p0"
    = Some g ∧
    Game.phase g = PLAYING ∧
    Game.current_round g = Some r ∧
    RoundState.bids r !! "p0" = Some 2 ∧
    RoundState.current_bidder_index r = 4 ∧
    RoundState.trick r = Some (0%nat, Trick.new "p1").
Proof.
  eexists _, _, _, _.
  split; [vm_compute; reflexivity|]. split; [vm_compute; reflexivity|].
  split; [reflexivity|]. split; [reflexivity|]. by vm_compute.
Qed.

(** The backend test of [validate_play]: the follower may not discard a
    club while holding a spade. *)
Example validate_play_must_follow_suit :
  validate_play follow_game "p1" (Card.mk CLUBS TWO)
  = Ok (Some "You must follow suit") ∧
  validate_play follow_game "p1" (Card.mk SPADES TWO) = Ok None ∧
  validate_play follow_game "p1" (Card.mk HEARTS TWO)
  = Ok (Some "You don't have that card") ∧
  validate_play follow_game "p2" (Card.mk SPADES TWO)
  = Ok (Some "Not your turn").
Proof. by vm_compute. Qed.

(** ** Reconnection (C8, C10) *)

Section rebind.
Context (old_id player_id : string).

Lemma rebind_trick_some (r : RoundState.t) (a : trick_ref) (k : Trick.t) :
  RoundState.trick r = Some (a, k) →
  RoomManager.rebind_trick old_id player_id r
  = RoundState.store a (rebound_trick old_id player_id k) r.
Proof.
  intros Hk. unfold RoomManager.rebind_trick. rewrite Hk.
  f_equal. unfold rebound_trick. by case_decide.
Qed.

Lemma rebind_trick_none (r : RoundState.t) :
  RoundState.trick r = None →
  RoomManager.rebind_trick old_id player_id r = r.
Proof. intros Hk. unfold RoomManager.rebind_trick. by rewrite Hk. Qed.

Lemma trick_some_inv (r : RoundState.t) (a : trick_ref) (k : Trick.t) :
  RoundState.trick r = Some (a, k) ↔
  RoundState.current_trick r = Some a ∧ RoundState.deref r a = Some k.
Proof.
  unfold RoundState.trick. split.
  - intros H. destruct (RoundState.current_trick r) as [b|]; [|done].
    cbn in H. destruct (RoundState.deref r b) as [k'|] eqn:Hd; [|done].
    cbn in H. by injection H as -> ->.
  - intros [-> Hd]. cbn. by rewrite Hd.
Qed.

(** What the rebind of the current trick leaves alone. *)
Lemma rebind_trick_frame (r : RoundState.t) :
  let r' := RoomManager.rebind_trick old_id player_id r in
  RoundState.bids r' = RoundState.bids r ∧
  RoundState.current_trick r' = RoundState.current_trick r ∧
  RoundState.tricks_completed r' = RoundState.tricks_completed r ∧
  ∀ b, RoundState.current_trick r ≠ Some b →
       RoundState.deref r' b = RoundState.deref r b.
Proof.
  destruct (RoundState.trick r) as [[a k]|] eqn:Hk.
  - rewrite (rebind_trick_some r a k Hk). cbn. repeat split.
    apply trick_some_inv in Hk as [Ha _].
    intros b Hb. unfold RoundState.deref. cbn.
    apply list_lookup_insert_ne. congruence.
  - by rewrite (rebind_trick_none r Hk).
Qed.

Lemma rebind_trick_current (r : RoundState.t) (a : trick_ref) (k : Trick.t) :
  RoundState.trick r = Some (a, k) →
  RoundState.trick (RoomManager.rebind_trick old_id player_id r)
  = Some (a, rebound_trick old_id player_id k).
Proof.
  intros Hk. rewrite (rebind_trick_some r a k Hk).
  apply trick_some_inv in Hk as [Ha Hd]. apply trick_some_inv.
  split; [done|]. unfold RoundState.deref, RoundState.store in *. cbn.
  apply list_lookup_insert_eq. by eapply lookup_lt_Some.
Qed.

Lemma rebind_bids_frame (r : RoundState.t) :
  let r' := RoomManager.rebind_bids old_id player_id r in
  RoundState.current_trick r' = RoundState.current_trick r ∧
  RoundState.tricks_completed r' = RoundState.tricks_completed r ∧
  RoundState.trick_heap r' = RoundState.trick_heap r.
Proof.
  unfold RoomManager.rebind_bids.
  by destruct (RoundState.bids r !! old_id).
Qed.

Lemma rebind_bids_trick (r : RoundState.t) :
  RoundState.trick (RoomManager.rebind_bids old_id player_id r)
  = RoundState.trick r.
Proof.
  unfold RoomManager.rebind_bids.
  by destruct (RoundState.bids r !! old_id).
Qed.

Lemma rebind_bids_lookup (r : RoundState.t) :
  old_id ≠ player_id →
  let bids' := RoundState.bids (RoomManager.rebind_bids old_id player_id r) in
  bids' !! old_id = None ∧
  (∀ v, RoundState.bids r !! old_id = Some v → bids' !! player_id = Some v) ∧
  (∀ other, other ≠ old_id → other ≠ player_id →
            bids' !! other = RoundState.bids r !! other).
Proof.
  intros Hne. unfold RoomManager.rebind_bids.
  destruct (RoundState.bids r !! old_id) as [v|] eqn:Hold; cbn.
  - split; [|split].
    + rewrite lookup_insert_ne by done. apply lookup_delete_eq.
    + intros ? [= <-]. apply lookup_insert_eq.
    + intros other ??. rewrite lookup_insert_ne by done.
      by apply lookup_delete_ne.
  - done.
Qed.

Lemma rebound_trick_no_old (k : Trick.t) :
  old_id ≠ player_id →
  Trick.lead_player_id (rebound_trick old_id player_id k) ≠ old_id ∧
  ∀ x, x ∈ Trick.cards_played (rebound_trick old_id player_id k) → x.1 ≠ old_id.
Proof.
  intros Hne. unfold rebound_trick. cbn. split.
  - case_decide; congruence.
  - intros x ([pid card] & -> & _)%list_elem_of_fmap. cbn.
    case_decide; congruence.
Qed.
End rebind.

(** The reconnection branch of [join_room], written out. *)
Lemma join_room_reconnect (self : RoomManager.t)
    (room_code player_id player_name : string) (game : Game.t) (i : nat)
    (existing : Player.t) :
  RoomManager.rooms self !! Py.upper room_code = Some game →
  ¬ Exists (λ p, Player.id p = player_id) (Game.players game) →
  Game.phase game ≠ WAITING →
  list_find (λ p, Player.name p = player_name) (Game.players game)
  = Some (i, existing) →
  let old_id := Player.id existing in
  let game' :=
    Game.mk (Game.room_code game)
      (if decide (Game.host_id game = old_id) then player_id
       else Game.host_id game)
      (<[i := Player.set_id player_id existing]> (Game.players game))
      (Game.phase game) (Game.round_sequence game)
      (Game.current_round_index game)
      (RoomManager.rebind_trick old_id player_id
         <$> (RoomManager.rebind_bids old_id player_id
                <$> Game.current_round game))
      (Game.dealer_index game) (Game.current_turn_index game)
      (Game.scores_history game) in
  RoomManager.join_room self room_code player_id player_name
  = (RoomManager.mk
       (<[Py.upper room_code := game']> (RoomManager.rooms self))
       (<[player_id := Py.upper room_code]>
          (delete old_id (RoomManager.player_rooms self))),
     (Some game', "", Some old_id)).
Proof.
  intros Hroom Hid Hphase Hname. cbv zeta.
  unfold RoomManager.join_room. rewrite Hroom.
  rewrite decide_False by done. rewrite decide_True by done.
  rewrite Hname. unfold Game.set_player. cbn.
  by case_decide.
Qed.

(** ** The store of tricks *)

(** [wf] only depends on the addresses a round holds and on the size of
    its store. *)
Lemma wf_alt (r : RoundState.t) :
  RoundState.wf r ↔
  (∀ a, RoundState.current_trick r = Some a →
        (a < length (RoundState.trick_heap r))%nat) ∧
  (∀ a, a ∈ RoundState.tricks_completed r →
        (a < length (RoundState.trick_heap r))%nat).
Proof.
  unfold RoundState.wf, RoundState.deref.
  split; intros [Hc Hd]; split; intros a Ha;
    first [apply lookup_lt_is_Some; by auto | apply lookup_lt_is_Some; auto].
Qed.

(** With a well-formed round, a current trick is there to read. *)
Lemma wf_trick (r : RoundState.t) (a : trick_ref) :
  RoundState.wf r →
  RoundState.current_trick r = Some a →
  ∃ k, RoundState.trick r = Some (a, k).
Proof.
  intros [Hc _] Ha. destruct (Hc a Ha) as [k Hk]. exists k.
  unfold RoundState.trick. rewrite Ha. cbn. by rewrite Hk.
Qed.

Lemma start_first_trick_wf (g g' : Game.t) (r : RoundState.t) :
  Game.current_round g = Some r →
  RoundState.wf r →
  start_first_trick g = Ok g' →
  ∃ r', Game.current_round g' = Some r' ∧ RoundState.wf r'.
Proof.
  intros Hr Hwf%wf_alt. unfold start_first_trick. rewrite Hr. py_step.
  destruct (Py.modulo _ _) as [lead|]; [|done]. py_step.
  destruct (Py.index _ lead) as [p|]; [|done]. py_step.
  intros [= <-]. eexists. split; [reflexivity|].
  apply wf_alt. cbn. rewrite length_app. cbn. destruct Hwf as [_ Hd].
  split.
  - intros a [= <-]. lia.
  - intros a Ha%Hd. lia.
Qed.

Lemma resolve_trick_wf (g g' : Game.t) (res : TrickResult.t)
    (r : RoundState.t) :
  Game.current_round g = Some r →
  RoundState.wf r →
  resolve_trick g = Ok (g', res) →
  ∃ r', Game.current_round g' = Some r' ∧ RoundState.wf r'.
Proof.
  intros Hr Hwf%wf_alt. unfold resolve_trick. rewrite Hr. py_step.
  destruct (RoundState.trick r) as [[a k]|] eqn:Hk; [|done]. py_step.
  destruct (Py.index _ 0) as [first|]; [|done]. py_step.
  destruct (find_winner _ _ _ _) as [bp bc].
  destruct (Game.find_player g bp) as [[i p]|]; [|done]. py_step.
  assert (Ha : RoundState.current_trick r = Some a).
  { unfold RoundState.trick in Hk.
    destruct (RoundState.current_trick r) as [b|]; [|done]. cbn in Hk.
    destruct (RoundState.deref r b); [|done]. cbn in Hk. congruence. }
  destruct Hwf as [Hc Hd]. specialize (Hc a Ha).
  case_decide; intros [= <- <-]; (eexists; split; [reflexivity|]);
    apply wf_alt; cbn; rewrite ?length_app, length_insert; cbn.
  - split.
    + intros b. rewrite Ha. intros [= <-]. done.
    + intros b [Hb%Hd| ->%list_elem_of_singleton]%elem_of_app; done.
  - split.
    + intros b [= <-]. lia.
    + intros b [Hb%Hd| ->%list_elem_of_singleton]%elem_of_app; lia.
Qed.

Lemma play_card_wf (g g' : Game.t) (player_id : string) (card : Card.t)
    (res : option TrickResult.t) (r : RoundState.t) :
  Game.current_round g = Some r →
  RoundState.wf r →
  play_card g player_id card = Ok (g', res) →
  ∃ r', Game.current_round g' = Some r' ∧ RoundState.wf r'.
Proof.
  intros Hr Hwf%wf_alt. unfold play_card. rewrite Hr. py_step.
  destruct (RoundState.trick r) as [[a k]|]; [|done]. py_step.
  destruct (Game.find_player g player_id) as [[i p]|]; [|done]. py_step.
  destruct (Py.remove card _) as [hand|]; [|done]. py_step.
  destruct (Py.modulo _ _) as [turn|]; [|done]. py_step.
  set (r1 := RoundState.store a _ r).
  assert (Hwf1 : RoundState.wf r1).
  { apply wf_alt. subst r1. cbn. by rewrite length_insert. }
  case_decide.
  - destruct (resolve_trick _) as [[g2 res2]|] eqn:Hres; [|done]. py_step.
    intros [= <- <-]. by eapply (resolve_trick_wf _ _ _ r1), Hres.
  - intros [= <- <-]. by exists r1.
Qed.

Lemma join_room_rebind_wf (old_id player_id : string) (r : RoundState.t) :
  RoundState.wf r →
  RoundState.wf (RoomManager.rebind_trick old_id player_id
                   (RoomManager.rebind_bids old_id player_id r)).
Proof.
  intros Hwf%wf_alt. apply wf_alt.
  destruct (rebind_bids_frame old_id player_id r) as (Hc1 & Hd1 & Hh1).
  set (r1 := RoomManager.rebind_bids old_id player_id r) in *.
  assert (Hlen : length (RoundState.trick_heap
                           (RoomManager.rebind_trick old_id player_id r1))
                 = length (RoundState.trick_heap r)).
  { unfold RoomManager.rebind_trick.
    destruct (RoundState.trick r1) as [[a k]|]; cbn;
      by rewrite ?length_insert, Hh1. }
  destruct (rebind_trick_frame old_id player_id r1) as (_ & Hc2 & Hd2 & _).
  rewrite Hc2, Hd2, Hc1, Hd1, Hlen. done.
Qed.

(** C8: when a room's game is in progress, holds no player with the
    joiner's id and holds a player with the joiner's name, [join_room]
    succeeds and reports the old id; the (first) player of that name gets
    the new id and keeps name, hand, bid, tricks and score, and no other
    seat changes; [host_id] follows if it was the old id; in the current
    round the bid recorded under the old id is recorded under the new id
    and the old key is gone; the current trick's [lead_player_id] and
    [cards_played] name the new id wherever they named the old one; the
    registry maps the new id to the room and the old id to nothing. *)
Theorem join_room_rebinds_identity (self : RoomManager.t)
    (room_code player_id player_name : string) (game : Game.t) (i : nat)
    (existing : Player.t) :
  RoomManager.rooms self !! Py.upper room_code = Some game →
  Game.phase game ≠ WAITING →
  ¬ Exists (λ p, Player.id p = player_id) (Game.players game) →
  list_find (λ p, Player.name p = player_name) (Game.players game)
  = Some (i, existing) →
  let old_id := Player.id existing in
  let code := Py.upper room_code in
  ∃ self' game',
    RoomManager.join_room self room_code player_id player_name
    = (self', (Some game', "", Some old_id)) ∧
    RoomManager.rooms self' !! code = Some game' ∧
    Game.players game' !! i
    = Some (Player.mk player_id (Player.name existing) (Player.hand existing)
              (Player.bid existing) (Player.tricks_won existing)
              (Player.total_score existing)) ∧
    (∀ j, j ≠ i → Game.players game' !! j = Game.players game !! j) ∧
    Game.host_id game'
    = (if decide (Game.host_id game = old_id) then player_id
       else Game.host_id game) ∧
    (∀ r, Game.current_round game = Some r →
       ∃ r', Game.current_round game' = Some r' ∧
         RoundState.bids r' !! old_id = None ∧
         (∀ v, RoundState.bids r !! old_id = Some v →
               RoundState.bids r' !! player_id = Some v) ∧
         (∀ other, other ≠ old_id → other ≠ player_id →
               RoundState.bids r' !! other = RoundState.bids r !! other) ∧
         ∀ a k, RoundState.trick r = Some (a, k) →
           ∃ k', RoundState.trick r' = Some (a, k') ∧
             Trick.lead_player_id k'
             = (if decide (Trick.lead_player_id k = old_id) then player_id
                else Trick.lead_player_id k) ∧
             Trick.cards_played k'
             = (λ '(pid, card),
                  (if decide (pid = old_id) then player_id else pid, card))
                 <$> Trick.cards_played k ∧
             Trick.lead_player_id k' ≠ old_id ∧
             ∀ x, x ∈ Trick.cards_played k' → x.1 ≠ old_id) ∧
    RoomManager.player_rooms self' !! player_id = Some code ∧
    RoomManager.player_rooms self' !! old_id = None ∧
    RoomManager.get_player_room self' old_id = None.
Proof.
  intros Hroom Hphase Hid Hname old_id code.
  pose proof (join_room_reconnect self room_code player_id player_name game
                i existing Hroom Hid Hphase Hname) as Hjoin.
  cbv zeta in Hjoin. fold old_id code in Hjoin.
  apply list_find_Some in Hname as (Hi & _ & _).
  assert (Hne : old_id ≠ player_id).
  { intros Heq. apply Hid, Exists_exists. exists existing.
    split; [by eapply list_elem_of_lookup_2|done]. }
  eexists _, _. split; [exact Hjoin|]. cbn.
  split; [apply lookup_insert_eq|].
  split; [apply list_lookup_insert_eq; by eapply lookup_lt_Some|].
  split; [intros j Hj; by apply list_lookup_insert_ne|].
  split; [done|]. split.
  - intros r ->. cbn. eexists. split; [reflexivity|].
    destruct (rebind_trick_frame old_id player_id
                (RoomManager.rebind_bids old_id player_id r))
      as (-> & _ & _ & _).
    destruct (rebind_bids_lookup old_id player_id r Hne)
      as (Hold & Hnew & Hother).
    split; [exact Hold|]. split; [exact Hnew|]. split; [exact Hother|].
    intros a k Hk. exists (rebound_trick old_id player_id k).
    split.
    { apply rebind_trick_current. by rewrite rebind_bids_trick. }
    split; [done|]. split; [done|].
    by apply rebound_trick_no_old.
  - assert (Hold : (<[player_id := code]>
                      (delete old_id (RoomManager.player_rooms self)))
                   !! old_id = None).
    { rewrite lookup_insert_ne by done. apply lookup_delete_eq. }
    split; [apply lookup_insert_eq|]. split; [exact Hold|].
    unfold RoomManager.get_player_room, RoomManager.player_room_entry.
    cbn. by rewrite Hold.
Qed.

Lemma join_room_rebinds_identity_witness :
  RoomManager.rooms (ConnectionManager.room_manager (serving last_play_game))
    !! Py.upper "room1" = Some last_play_game ∧
  Game.phase last_play_game ≠ WAITING ∧
  ¬ Exists (λ p, Player.id p = "q1") (Game.players last_play_game) ∧
  list_find (λ p, Player.name p = "Player 1") (Game.players last_play_game)
  = Some (1%nat, Player.mk "p1" "Player 1" [] (Some 1) 0 0) ∧
  ∃ self' game',
    RoomManager.join_room
      (ConnectionManager.room_manager (serving last_play_game))
      "room1" "q1" "Player 1"
    = (self', (Some game', "", Some "p1")) ∧
    Game.players game' !! 1%nat
    = Some (Player.mk "q1" "Player 1" [] (Some 1) 0 0) ∧
    RoomManager.player_rooms self' !! "q1" = Some "ROOM1" ∧
    RoomManager.player_rooms self' !! "p1" = None.
Proof.
  assert (H1 : RoomManager.rooms
                 (ConnectionManager.room_manager (serving last_play_game))
                 !! Py.upper "room1" = Some last_play_game)
    by (by vm_compute).
  assert (H2 : Game.phase last_play_game ≠ WAITING) by done.
  assert (H3 : ¬ Exists (λ p, Player.id p = "q1")
                   (Game.players last_play_game)).
  { intros H. apply Exists_exists in H as (p & Hp & Hq).
    cbn in Hp. repeat (apply elem_of_cons in Hp as [->|Hp]);
      [done..|by apply elem_of_nil in Hp]. }
  assert (H4 : list_find (λ p, Player.name p = "Player 1")
                 (Game.players last_play_game)
               = Some (1%nat, Player.mk "p1" "Player 1" [] (Some 1) 0 0))
    by (by vm_compute).
  do 4 (split; [done|]).
  destruct (join_room_rebinds_identity _ "room1" "q1" "Player 1" _ _ _
              H1 H2 H3 H4)
    as (self' & game' & Hj & _ & Hp & _ & _ & _ & Hnew & Hold & _).
  exists self', game'. done.
Defined.

(** C10, as stated, fails. The host plays the last card of the one-card
    round: [resolve_trick] appends the trick to [tricks_completed] and,
    the round being over, leaves it as [current_trick]. Player 2 (who won
    the trick as p2) then rejoins as q2: the completed trick's
    [cards_played] now names q2, no longer p2, while its [winner_id] still
    says p2. *)
Lemma completed_trick_rebound :
  ∃ cm out rm g0 r0 k0 g r k,
    ConnectionManager._handle_play_card (serving last_play_game) "p0"
      (Request.mk None (Ok (Card.mk CLUBS ACE)))
    = Ok (cm, out) ∧
    RoomManager.get_room (ConnectionManager.room_manager cm) "ROOM1"
    = Some g0 ∧
    Game.phase g0 = ROUND_RESULT ∧
    Game.current_round g0 = Some r0 ∧
    RoundState.tricks_completed r0 = [0%nat] ∧
    RoundState.deref r0 0%nat = Some k0 ∧
    Trick.cards_played k0
    = [("p1", Card.mk HEARTS KING); ("p2", Card.mk SPADES TWO);
       ("p3", Card.mk HEARTS ACE); ("p0", Card.mk CLUBS ACE)] ∧
    Trick.winner_id k0 = Some "p2" ∧
    RoomManager.join_room (ConnectionManager.room_manager cm)
      "ROOM1" "q2" "Player 2"
    = (rm, (Some g, "", Some "p2")) ∧
    Game.current_round g = Some r ∧
    RoundState.tricks_completed r = [0%nat] ∧
    RoundState.deref r 0%nat = Some k ∧
    Trick.cards_played k
    = [("p1", Card.mk HEARTS KING); ("q2", Card.mk SPADES TWO);
       ("p3", Card.mk HEARTS ACE); ("p0", Card.mk CLUBS ACE)] ∧
    Trick.winner_id k = Some "p2" ∧
    ("p2", Card.mk SPADES TWO) ∉ Trick.cards_played k.
Proof.
  eexists _, _, _, _, _, _, _, _, _.
  split; [vm_compute; reflexivity|].
  split; [vm_compute; reflexivity|].
  split; [reflexivity|]. split; [reflexivity|]. split; [reflexivity|].
  split; [reflexivity|]. split; [reflexivity|]. split; [reflexivity|].
  split; [vm_compute; reflexivity|].
  split; [reflexivity|]. split; [reflexivity|]. split; [reflexivity|].
  split; [reflexivity|]. split; [reflexivity|].
  cbn. intros H. repeat (apply elem_of_cons in H as [[=]|H]).
  by apply elem_of_nil in H.
Qed.

(** C10 (amended): a successful rebind keeps [tricks_completed] and the
    [winner_id] of every completed trick, and leaves every completed trick
    that is not also the round's [current_trick] exactly as it was; a
    completed trick that is still [current_trick] (the last trick of a
    finished round) has its [lead_player_id] and [cards_played] rebound to
    the new id like any current trick. *)
Theorem join_room_completed_tricks (self : RoomManager.t)
    (room_code player_id player_name : string) (game : Game.t) (i : nat)
    (existing : Player.t) (r : RoundState.t) :
  RoomManager.rooms self !! Py.upper room_code = Some game →
  Game.phase game ≠ WAITING →
  ¬ Exists (λ p, Player.id p = player_id) (Game.players game) →
  list_find (λ p, Player.name p = player_name) (Game.players game)
  = Some (i, existing) →
  Game.current_round game = Some r →
  let old_id := Player.id existing in
  ∃ self' game' r',
    RoomManager.join_room self room_code player_id player_name
    = (self', (Some game', "", Some old_id)) ∧
    Game.current_round game' = Some r' ∧
    RoundState.tricks_completed r' = RoundState.tricks_completed r ∧
    ∀ b k, b ∈ RoundState.tricks_completed r →
           RoundState.deref r b = Some k →
      ∃ k', RoundState.deref r' b = Some k' ∧
        Trick.winner_id k' = Trick.winner_id k ∧
        (RoundState.current_trick r ≠ Some b → k' = k) ∧
        (RoundState.current_trick r = Some b →
         Trick.lead_player_id k'
         = (if decide (Trick.lead_player_id k = old_id) then player_id
            else Trick.lead_player_id k) ∧
         Trick.cards_played k'
         = (λ '(pid, card),
              (if decide (pid = old_id) then player_id else pid, card))
             <$> Trick.cards_played k).
Proof.
  intros Hroom Hphase Hid Hname Hr old_id.
  pose proof (join_room_reconnect self room_code player_id player_name game
                i existing Hroom Hid Hphase Hname) as Hjoin.
  cbv zeta in Hjoin. fold old_id in Hjoin. rewrite Hr in Hjoin.
  eexists _, _, _. split; [exact Hjoin|]. cbn. split; [reflexivity|].
  set (r1 := RoomManager.rebind_bids old_id player_id r).
  destruct (rebind_bids_frame old_id player_id r) as (Hcur1 & Hdone1 & Hheap1).
  fold r1 in Hcur1, Hdone1, Hheap1.
  destruct (rebind_trick_frame old_id player_id r1)
    as (_ & _ & Hdone2 & Hother).
  split; [by rewrite Hdone2|].
  intros b k Hb Hk.
  assert (Hk1 : RoundState.deref r1 b = Some k)
    by (unfold RoundState.deref; by rewrite Hheap1).
  destruct (decide (RoundState.current_trick r = Some b)) as [Hcur|Hcur].
  - assert (Ht : RoundState.trick r1 = Some (b, k))
      by (apply trick_some_inv; by rewrite Hcur1).
    apply (rebind_trick_current old_id player_id) in Ht.
    apply trick_some_inv in Ht as [_ Ht].
    exists (rebound_trick old_id player_id k).
    split; [exact Ht|]. split; [done|]. split; [done|]. done.
  - exists k. split; [|done].
    rewrite Hother by (by rewrite Hcur1). exact Hk1.
Qed.

Lemma join_room_completed_tricks_witness :
  RoomManager.rooms finished_round_manager !! Py.upper "room1"
  = Some finished_round_game ∧
  Game.phase finished_round_game ≠ WAITING ∧
  ¬ Exists (λ p, Player.id p = "q0") (Game.players finished_round_game) ∧
  list_find (λ p, Player.name p = "Player 0")
    (Game.players finished_round_game)
  = Some (0%nat, Player.mk "p0" "Player 0" [] (Some 0) 0 10) ∧
  Game.current_round finished_round_game = Some finished_round_round ∧
  ∃ self' game' r',
    RoomManager.join_room finished_round_manager "room1" "q0" "Player 0"
    = (self', (Some game', "", Some "p0")) ∧
    Game.current_round game' = Some r' ∧
    RoundState.tricks_completed r'
    = RoundState.tricks_completed finished_round_round ∧
    ∃ k', RoundState.deref r' 0%nat = Some k' ∧
          Trick.winner_id k' = Some "p2" ∧
          Trick.cards_played k'
          = [("p1", Card.mk HEARTS KING); ("p2", Card.mk SPADES TWO);
             ("p3", Card.mk HEARTS ACE); ("q0", Card.mk CLUBS ACE)].
Proof.
  assert (H1 : RoomManager.rooms finished_round_manager !! Py.upper "room1"
               = Some finished_round_game) by (vm_compute; reflexivity).
  assert (H2 : Game.phase finished_round_game ≠ WAITING) by done.
  assert (H3 : ¬ Exists (λ p, Player.id p = "q0")
                   (Game.players finished_round_game)).
  { intros H. apply Exists_exists in H as (p & Hp & Hq).
    cbn in Hp. repeat (apply elem_of_cons in Hp as [->|Hp]);
      [done..|by apply elem_of_nil in Hp]. }
  assert (H4 : list_find (λ p, Player.name p = "Player 0")
                 (Game.players finished_round_game)
               = Some (0%nat, Player.mk "p0" "Player 0" [] (Some 0) 0 10))
    by (by vm_compute).
  assert (H5 : Game.current_round finished_round_game
               = Some finished_round_round) by reflexivity.
  do 5 (split; [done|]).
  destruct (join_room_completed_tricks finished_round_manager
              "room1" "q0" "Player 0" finished_round_game 0%nat _
              finished_round_round H1 H2 H3 H4 H5)
    as (self' & game' & r' & Hj & Hr & Hdone & Hk).
  exists self', game', r'.
  split; [exact Hj|]. split; [exact Hr|]. split; [exact Hdone|].
  destruct (Hk 0%nat _ ltac:(by left) eq_refl)
    as (k' & Hd & Hw & _ & Hcur).
  exists k'. split; [exact Hd|]. split; [exact Hw|].
  by destruct (Hcur eq_refl) as [_ ->].
Defined.

(** * Further properties *)

(** ** Seats and the bidding rotation *)

Lemma elem_of_range_from (a : Z) (n : nat) (x : Z) :
  x ∈ Py.range_from a n ↔ a ≤ x < a + Z.of_nat n.
Proof.
  revert a; induction n as [|n IH]; intros a; simpl.
  - rewrite elem_of_nil. lia.
  - rewrite elem_of_cons, IH. lia.
Qed.

Lemma NoDup_range_from (a : Z) (n : nat) : NoDup (Py.range_from a n).
Proof.
  revert a; induction n as [|n IH]; intros a; simpl; constructor; [|done].
  rewrite elem_of_range_from. lia.
Qed.

Lemma elem_of_range (a b x : Z) : x ∈ Py.range a b ↔ a ≤ x < b.
Proof. unfold Py.range. rewrite elem_of_range_from. lia. Qed.

Lemma mod_rotation_inj (n d i j : Z) :
  0 ≤ i < n → 0 ≤ j < n → (d + i) mod n = (d + j) mod n → i = j.
Proof.
  intros Hi Hj Heq.
  assert (Hk : ∃ k, i - j = n * k).
  { exists ((d + i) / n - (d + j) / n).
    pose proof (Z.div_mod (d + i) n ltac:(lia)).
    pose proof (Z.div_mod (d + j) n ltac:(lia)). lia. }
  destruct Hk as [k Hk]. assert (k = 0) by nia. lia.
Qed.

Lemma length_bidding_order (g : Game.t) :
  length (get_bidding_order g) = length (Game.players g).
Proof.
  unfold get_bidding_order, Py.range, Py.len.
  rewrite length_fmap, length_range_from. lia.
Qed.

(** X1: with at least one player the bidding order names every seat
    0..n-1 exactly once; it starts with the seat left of the dealer and
    ends with the dealer's seat. *)
Theorem bidding_order_every_seat_once (g : Game.t) :
  let n := Py.len (Game.players g) in
  1 ≤ n →
  get_bidding_order g ≡ₚ Py.range 0 n ∧
  NoDup (get_bidding_order g) ∧
  head (get_bidding_order g) = Some ((Game.dealer_index g + 1) mod n) ∧
  last (get_bidding_order g) = Some (Game.dealer_index g mod n).
Proof.
  intros n Hn.
  assert (Hnd : NoDup (get_bidding_order g)).
  { unfold get_bidding_order. apply NoDup_fmap_2_strong.
    - intros i j Hi%elem_of_range Hj%elem_of_range Heq. fold n in Hi, Hj, Heq.
      by apply (mod_rotation_inj n (Game.dealer_index g + 1)).
    - apply NoDup_range_from. }
  split; [|split; [done|split]].
  - apply submseteq_length_Permutation.
    + apply NoDup_submseteq; [done|].
      intros x (i & -> & Hi)%list_elem_of_fmap. apply elem_of_range.
      apply Z.mod_pos_bound. lia.
    + rewrite length_bidding_order. unfold Py.range.
      rewrite length_range_from. subst n. unfold Py.len. lia.
  - assert (Hl : get_bidding_order g !! 0%nat
                 = Some ((Game.dealer_index g + 1) mod n)).
    { unfold get_bidding_order, Py.range.
      rewrite list_lookup_fmap, lookup_range_from by (fold n; lia).
      simpl. fold n. do 2 f_equal. lia. }
    by rewrite <-head_lookup in Hl.
  - rewrite last_lookup, length_bidding_order.
    unfold get_bidding_order, Py.range.
    rewrite list_lookup_fmap, lookup_range_from
      by (fold n; unfold Py.len in *; lia).
    simpl. fold n. f_equal.
    replace (Game.dealer_index g + 1
             + (0 + Z.of_nat (Init.Nat.pred (length (Game.players g)))))
      with (Game.dealer_index g + 1 * n)
      by (subst n; unfold Py.len in *; lia).
    apply Z.mod_add. lia.
Qed.

Lemma bidding_order_every_seat_once_witness :
  1 ≤ Py.len (Game.players dealer_turn_game) ∧
  get_bidding_order dealer_turn_game ≡ₚ [0; 1; 2; 3] ∧
  get_bidding_order dealer_turn_game = [1; 2; 3; 0].
Proof.
  split; [by vm_compute|].
  destruct (bidding_order_every_seat_once dealer_turn_game) as (Hp & _);
    [by vm_compute|].
  split; [exact Hp|reflexivity].
Defined.

(** X2: [get_player_by_id] and [get_player_index] agree: the index is -1
    exactly when no player has the id; otherwise it is a valid seat, the
    player at that seat is the one [get_player_by_id] returns, that player
    has the id, and no earlier seat has it. *)
Theorem player_lookup_agrees (g : Game.t) (player_id : string) :
  (Game.get_player_by_id g player_id = None ↔
   Game.get_player_index g player_id = -1) ∧
  (Game.get_player_by_id g player_id = None ↔
   ∀ p, p ∈ Game.players g → Player.id p ≠ player_id) ∧
  ∀ p, Game.get_player_by_id g player_id = Some p →
    Player.id p = player_id ∧
    0 ≤ Game.get_player_index g player_id < Py.len (Game.players g) ∧
    Py.index (Game.players g) (Game.get_player_index g player_id) = Ok p ∧
    ∀ j q, Z.of_nat j < Game.get_player_index g player_id →
           Game.players g !! j = Some q → Player.id q ≠ player_id.
Proof.
  unfold Game.get_player_by_id, Game.get_player_index, Game.find_player.
  destruct (list_find _ (Game.players g)) as [[i p]|] eqn:Hf; cbn.
  - apply list_find_Some in Hf as (Hi & Hid & Hbefore).
    split; [split; [done|lia]|]. split.
    + split; [done|]. intros Hnone. destruct (Hnone p); [|done].
      by eapply list_elem_of_lookup_2.
    + intros ? [= <-]. split; [done|].
      pose proof (lookup_lt_Some _ _ _ Hi).
      split; [unfold Py.len; lia|]. split.
      * apply index_lookup; [lia|]. by rewrite Nat2Z.id.
      * intros j q Hj Hq. apply (Hbefore j q Hq). lia.
  - apply list_find_None in Hf. split; [done|]. split; [|done].
    split; [|done]. intros _ p Hp. by eapply Forall_forall in Hf.
Qed.

(** ** Placing bids *)

(** [validate_bid] at any position of the rotation, in terms of the
    player seated there. *)
Lemma validate_bid_at (g : Game.t) (r : RoundState.t) (p : Player.t)
    (player_id : string) (bid : Z) :
  Game.phase g = BIDDING →
  Game.current_round g = Some r →
  0 ≤ RoundState.current_bidder_index r < Py.len (Game.players g) →
  Game.players g
    !! Z.to_nat ((Game.dealer_index g + 1 + RoundState.current_bidder_index r)
                 mod Py.len (Game.players g)) = Some p →
  validate_bid g player_id bid
  = Ok (if decide (Player.id p ≠ player_id) then Some "Not your turn to bid"
        else if decide (bid < 0 ∨ bid > RoundState.num_cards r)
        then Some ("Bid must be between 0 and "
                   +:+ pretty (RoundState.num_cards r))
        else if decide (get_forbidden_bid g = Some bid)
        then Some ("Dealer cannot bid " +:+ pretty bid
                   +:+ " (total bids cannot equal "
                   +:+ pretty (RoundState.num_cards r) +:+ ")")
        else None).
Proof.
  intros Hphase Hr Hpos Hp.
  unfold validate_bid. rewrite Hphase, Hr.
  destruct (decide (BIDDING ≠ BIDDING)) as [|_]; [done|].
  rewrite (index_bidding_order g _ Hpos). py_step.
  rewrite (index_lookup _ _ p) by (first [apply Z.mod_pos_bound; lia|done]).
  py_step.
  case_decide; [done|]. case_decide; [done|].
  destruct (get_forbidden_bid g) as [f|]; [|by rewrite decide_False].
  destruct (decide (bid = f)) as [->|Hne].
  - by rewrite decide_True.
  - rewrite decide_False; [done|congruence].
Qed.

Lemma validate_bid_accepts_phase (g : Game.t) (player_id : string) (bid : Z) :
  validate_bid g player_id bid = Ok None → Game.phase g = BIDDING.
Proof.
  unfold validate_bid.
  destruct (decide (Game.phase g ≠ BIDDING)) as [|Hphase]; [by intros [=]|].
  intros _. by apply dec_stable.
Qed.

(** What an accepted bid says about the state. *)
Lemma validate_bid_accepts (g : Game.t) (r : RoundState.t)
    (player_id : string) (bid : Z) :
  Game.current_round g = Some r →
  0 ≤ RoundState.current_bidder_index r < Py.len (Game.players g) →
  validate_bid g player_id bid = Ok None →
  Game.phase g = BIDDING ∧
  0 ≤ bid ≤ RoundState.num_cards r ∧
  get_forbidden_bid g ≠ Some bid ∧
  ∃ p, Game.players g
         !! Z.to_nat ((Game.dealer_index g + 1
                       + RoundState.current_bidder_index r)
                      mod Py.len (Game.players g)) = Some p ∧
       Player.id p = player_id.
Proof.
  intros Hr Hpos Hok.
  pose proof (validate_bid_accepts_phase _ _ _ Hok) as Hphase.
  split; [done|].
  destruct (Game.players g
              !! Z.to_nat ((Game.dealer_index g + 1
                            + RoundState.current_bidder_index r)
                           mod Py.len (Game.players g))) as [p|] eqn:Hp.
  - rewrite (validate_bid_at g r p player_id bid Hphase Hr Hpos Hp) in Hok.
    repeat case_decide; try done.
    split; [lia|]. split; [done|]. by exists p.
  - apply lookup_ge_None in Hp.
    pose proof (Z.mod_pos_bound
                  (Game.dealer_index g + 1
                   + RoundState.current_bidder_index r)
                  (Py.len (Game.players g)) ltac:(lia)).
    unfold Py.len in *. lia.
Qed.

(** The players after [place_bid] recorded the bid on the player object. *)
Definition with_bid (g : Game.t) (player_id : string) (bid : Z)
  : list Player.t :=
  match Game.find_player g player_id with
  | Some (i, player) =>
      <[i := Player.set_bid (Some bid) player]> (Game.players g)
  | None => Game.players g
  end.

Lemma with_bid_lookup (g : Game.t) (player_id : string) (bid : Z)
    (j : nat) (q : Player.t) :
  Game.players g !! j = Some q →
  ∃ q', with_bid g player_id bid !! j = Some q' ∧
        Player.id q' = Player.id q ∧ Player.name q' = Player.name q ∧
        Player.hand q' = Player.hand q ∧
        Player.tricks_won q' = Player.tricks_won q ∧
        Player.total_score q' = Player.total_score q.
Proof.
  intros Hq. unfold with_bid, Game.find_player.
  destruct (list_find _ _) as [[i p]|] eqn:Hf; [|by exists q].
  apply list_find_Some in Hf as (Hi & _ & _).
  destruct (decide (i = j)) as [->|Hne].
  - rewrite list_lookup_insert_eq by (by eapply lookup_lt_Some).
    eexists. split; [done|]. by simplify_eq.
  - rewrite list_lookup_insert_ne by done. by exists q.
Qed.

Lemma with_bid_length (g : Game.t) (player_id : string) (bid : Z) :
  length (with_bid g player_id bid) = length (Game.players g).
Proof.
  unfold with_bid. destruct (Game.find_player _ _) as [[i p]|]; [|done].
  apply length_insert.
Qed.

Lemma with_bid_found (g : Game.t) (player_id : string) (bid : Z)
    (p : Player.t) :
  Game.get_player_by_id g player_id = Some p →
  Game.get_player_by_id (Game.set_players (with_bid g player_id bid) g)
    player_id
  = Some (Player.set_bid (Some bid) p).
Proof.
  unfold Game.get_player_by_id, with_bid, Game.find_player. cbn.
  destruct (list_find _ (Game.players g)) as [[i p0]|] eqn:Hf; [|done].
  intros [= <-]. apply list_find_Some in Hf as (Hi & Hid & Hbefore).
  pose proof (lookup_lt_Some _ _ _ Hi) as Hlt.
  assert (Hfind : list_find (λ q, Player.id q = player_id)
                    (<[i := Player.set_bid (Some bid) p0]> (Game.players g))
                  = Some (i, Player.set_bid (Some bid) p0)).
  { apply list_find_Some. split; [by apply list_lookup_insert_eq|].
    split; [done|]. intros j q Hq Hj.
    rewrite list_lookup_insert_ne in Hq by lia. by eapply Hbefore. }
  by rewrite Hfind.
Qed.

Lemma place_bid_eq (g : Game.t) (r : RoundState.t) (player_id : string)
    (bid : Z) :
  Game.current_round g = Some r →
  let r1 :=
    RoundState.set_current_bidder_index
      (RoundState.current_bidder_index r + 1)
      (RoundState.set_bids (<[player_id := bid]> (RoundState.bids r)) r) in
  let g1 :=
    Game.set_current_round (Some r1)
      (Game.set_players (with_bid g player_id bid) g) in
  place_bid g player_id bid
  = if decide (RoundState.current_bidder_index r + 1
               >= Py.len (with_bid g player_id bid))
    then start_first_trick g1 else Ok g1.
Proof.
  intros Hr. cbv zeta. unfold place_bid, with_bid. rewrite Hr. py_step.
  unfold Game.set_player.
  by destruct (Game.find_player g player_id) as [[i p]|].
Qed.

Lemma start_first_trick_eq (g : Game.t) (r : RoundState.t) (lead : Player.t) :
  Game.current_round g = Some r →
  Game.players g
    !! Z.to_nat ((Game.dealer_index g + 1) mod Py.len (Game.players g))
  = Some lead →
  start_first_trick g
  = Ok (Game.mk (Game.room_code g) (Game.host_id g) (Game.players g) PLAYING
          (Game.round_sequence g) (Game.current_round_index g)
          (Some (RoundState.mk (RoundState.round_index r)
                   (RoundState.num_cards r) (RoundState.trump_suit r)
                   (RoundState.dealer_index r)
                   (RoundState.current_bidder_index r) (RoundState.bids r)
                   (Some (length (RoundState.trick_heap r)))
                   (RoundState.tricks_completed r) 0
                   (RoundState.trick_heap r ++ [Trick.new (Player.id lead)])))
          (Game.dealer_index g)
          ((Game.dealer_index g + 1) mod Py.len (Game.players g))
          (Game.scores_history g)).
Proof.
  intros Hr Hlead. pose proof (lookup_some_len _ _ _ Hlead) as Hn.
  unfold start_first_trick. rewrite Hr. py_step.
  unfold Py.modulo. rewrite decide_False by lia. py_step. cbn.
  rewrite (index_lookup _ _ lead)
    by (first [apply Z.mod_pos_bound; lia|done]).
  done.
Qed.

(** A seated player's id denotes a player. *)
Lemma get_player_by_id_seated (g : Game.t) (p : Player.t) :
  p ∈ Game.players g → is_Some (Game.get_player_by_id g (Player.id p)).
Proof.
  intros Hp. unfold Game.get_player_by_id, Game.find_player.
  destruct (list_find_elem_of (λ q, Player.id q = Player.id p)
              (Game.players g) p Hp eq_refl) as [[i q] Hq].
  rewrite Hq. by eexists.
Qed.

Lemma NoDup_ids_seat (g : Game.t) (i j : nat) (p q : Player.t) :
  NoDup (Player.id <$> Game.players g) →
  Game.players g !! i = Some p →
  Game.players g !! j = Some q →
  Player.id p = Player.id q → i = j.
Proof.
  intros Hnd Hp Hq Heq.
  apply (NoDup_lookup _ i j (Player.id p) Hnd);
    rewrite list_lookup_fmap; [by rewrite Hp|by rewrite Hq, Heq].
Qed.

(** X3: a bid that [validate_bid] accepts before the dealer's turn is
    recorded by [place_bid] in the round's bids and on the player, the
    bidding stays open and the turn passes to the next seat of the
    rotation: with distinct player ids, the bidder is told it is no longer
    their turn whatever they bid, and the next player is held only to the
    range check and the dealer rule. *)
Theorem place_bid_passes_turn (g : Game.t) (r : RoundState.t)
    (player_id : string) (bid : Z) :
  let n := Py.len (Game.players g) in
  Game.current_round g = Some r →
  NoDup (Player.id <$> Game.players g) →
  0 ≤ RoundState.current_bidder_index r < n - 1 →
  validate_bid g player_id bid = Ok None →
  ∃ g' r' next,
    place_bid g player_id bid = Ok g' ∧
    Game.phase g' = BIDDING ∧
    Game.current_round g' = Some r' ∧
    RoundState.bids r' = <[player_id := bid]> (RoundState.bids r) ∧
    RoundState.current_bidder_index r'
    = RoundState.current_bidder_index r + 1 ∧
    Player.bid <$> Game.get_player_by_id g' player_id = Some (Some bid) ∧
    Game.players g'
      !! Z.to_nat ((Game.dealer_index g + 1
                    + (RoundState.current_bidder_index r + 1)) mod n)
    = Some next ∧
    Player.id next ≠ player_id ∧
    (∀ b, validate_bid g' player_id b = Ok (Some "Not your turn to bid")) ∧
    (∀ b, 0 ≤ b ≤ RoundState.num_cards r →
          get_forbidden_bid g' ≠ Some b →
          validate_bid g' (Player.id next) b = Ok None).
Proof.
  intros n Hr Hnd Hpos Hok. subst n.
  set (n := Py.len (Game.players g)) in *.
  destruct (validate_bid_accepts g r player_id bid Hr ltac:(lia) Hok)
    as (Hphase & Hbid & Hforb & p & Hp & Hid).
  fold n in Hp.
  rewrite (place_bid_eq g r player_id bid Hr).
  pose proof (with_bid_length g player_id bid) as Hlen.
  rewrite decide_False by (unfold Py.len; rewrite Hlen; fold (Py.len (Game.players g)); lia).
  set (s' := Z.to_nat ((Game.dealer_index g + 1
                        + (RoundState.current_bidder_index r + 1)) mod n)).
  assert (Hs' : (s' < length (Game.players g))%nat).
  { subst s'. pose proof (Z.mod_pos_bound
      (Game.dealer_index g + 1 + (RoundState.current_bidder_index r + 1))
      n ltac:(lia)). subst n. unfold Py.len in *. lia. }
  destruct (lookup_lt_is_Some_2 _ _ Hs') as [q Hq].
  destruct (with_bid_lookup g player_id bid s' q Hq)
    as (q' & Hq' & Hqid & _).
  assert (Hne : Player.id q ≠ player_id).
  { intros Heq. rewrite <-Hid in Heq.
    pose proof (NoDup_ids_seat g _ _ _ _ Hnd Hq Hp Heq) as Hseat.
    subst s'. apply Z2Nat.inj in Hseat;
      [|apply Z.mod_pos_bound; lia..].
    apply (mod_rotation_inj n (Game.dealer_index g + 1)) in Hseat; lia. }
  eexists _, _, q'. split; [reflexivity|]. cbn.
  split; [done|]. split; [reflexivity|]. cbn.
  split; [done|]. split; [done|]. split.
  { destruct (Game.get_player_by_id g player_id) as [p0|] eqn:Hget.
    - apply (with_bid_found g player_id bid) in Hget.
      unfold Game.get_player_by_id in *. cbn in *. by rewrite Hget.
    - destruct (get_player_by_id_seated g p) as [p0 Hp0];
        [by eapply list_elem_of_lookup_2|]. congruence. }
  split; [exact Hq'|]. split; [congruence|].
  assert (Hat : ∀ pid b,
    validate_bid
      (Game.set_current_round
         (Some (RoundState.set_current_bidder_index
                  (RoundState.current_bidder_index r + 1)
                  (RoundState.set_bids
                     (<[player_id := bid]> (RoundState.bids r)) r)))
         (Game.set_players (with_bid g player_id bid) g)) pid b
    = Ok (if decide (Player.id q' ≠ pid) then Some "Not your turn to bid"
          else if decide (b < 0 ∨ b > RoundState.num_cards r)
          then Some ("Bid must be between 0 and "
                     +:+ pretty (RoundState.num_cards r))
          else if decide (get_forbidden_bid
                 (Game.set_current_round
                    (Some (RoundState.set_current_bidder_index
                             (RoundState.current_bidder_index r + 1)
                             (RoundState.set_bids
                                (<[player_id := bid]> (RoundState.bids r)) r)))
                    (Game.set_players (with_bid g player_id bid) g))
                 = Some b)
          then Some ("Dealer cannot bid " +:+ pretty b
                     +:+ " (total bids cannot equal "
                     +:+ pretty (RoundState.num_cards r) +:+ ")")
          else None)).
  { intros pid b.
    apply (validate_bid_at _
             (RoundState.set_current_bidder_index
                (RoundState.current_bidder_index r + 1)
                (RoundState.set_bids
                   (<[player_id := bid]> (RoundState.bids r)) r)));
      cbn; unfold Py.len; rewrite ?Hlen;
      fold (Py.len (Game.players g)); fold n; [done|done|lia|exact Hq']. }
  split.
  - intros b. rewrite Hat. rewrite decide_True; [done|congruence].
  - intros b Hb Hf. rewrite Hat. rewrite decide_False by (intros ?; done).
    rewrite decide_False by lia. by rewrite decide_False.
Qed.

(** The first bid of a four-card round: nobody has bid. *)
Definition first_bid_round : RoundState.t :=
  RoundState.mk 3 4 HEARTS 0 0 ∅ None [] 0 [].

Definition first_bid_game : Game.t :=
  Game.mk "ROOM1" "p0" four_players BIDDING
    [1; 2; 3; 4; 5; 6; 7; 8; 9; 10; 9; 8; 7; 6; 5; 4; 3; 2; 1]
    3 (Some first_bid_round) 0 1 [].

Lemma place_bid_passes_turn_witness :
  Game.current_round first_bid_game = Some first_bid_round ∧
  NoDup (Player.id <$> Game.players first_bid_game) ∧
  0 ≤ RoundState.current_bidder_index first_bid_round
    < Py.len (Game.players first_bid_game) - 1 ∧
  validate_bid first_bid_game "p1" 2 = Ok None ∧
  ∃ g' r',
    place_bid first_bid_game "p1" 2 = Ok g' ∧
    Game.current_round g' = Some r' ∧
    RoundState.bids r' = <["p1" := 2]> ∅ ∧
    validate_bid g' "p1" 0 = Ok (Some "Not your turn to bid") ∧
    validate_bid g' "p2" 0 = Ok None.
Proof.
  assert (H1 : NoDup (Player.id <$> Game.players first_bid_game))
    by (apply (bool_decide_unpack _); by vm_compute).
  assert (H2 : 0 ≤ RoundState.current_bidder_index first_bid_round
               < Py.len (Game.players first_bid_game) - 1)
    by (by vm_compute).
  assert (H3 : validate_bid first_bid_game "p1" 2 = Ok None)
    by (by vm_compute).
  split; [reflexivity|]. split; [exact H1|]. split; [exact H2|].
  split; [exact H3|].
  destruct (place_bid_passes_turn first_bid_game first_bid_round "p1" 2
              eq_refl H1 H2 H3)
    as (g' & r' & next & Hp & _ & Hr & Hb & _ & _ & Hnext & _ & Hturn & Hok).
  exists g', r'. split; [exact Hp|]. split; [exact Hr|]. split; [exact Hb|].
  split; [apply Hturn|].
  injection Hp as <-. injection Hr as <-.
  vm_compute in Hnext. injection Hnext as <-.
  apply (Hok 0); [by vm_compute|by vm_compute].
Defined.

(** X4: when the dealer, who has not bid yet, places a bid that
    [validate_bid] accepts, [place_bid] ends the bidding: the phase is
    PLAYING, the bids of the round do not add up to the number of cards,
    and the first trick is open, empty, led by the seat left of the
    dealer, whose turn it is. *)
Theorem last_bid_starts_play (g : Game.t) (r : RoundState.t)
    (dealer : Player.t) (bid : Z) :
  let n := Py.len (Game.players g) in
  Game.current_round g = Some r →
  RoundState.current_bidder_index r = n - 1 →
  Game.players g !! Z.to_nat (Game.dealer_index g mod n) = Some dealer →
  RoundState.bids r !! Player.id dealer = None →
  validate_bid g (Player.id dealer) bid = Ok None →
  ∃ g' r' lead,
    place_bid g (Player.id dealer) bid = Ok g' ∧
    Game.phase g' = PLAYING ∧
    Game.current_round g' = Some r' ∧
    RoundState.bids r' = <[Player.id dealer := bid]> (RoundState.bids r) ∧
    Py.sum_values (RoundState.bids r') ≠ RoundState.num_cards r' ∧
    Game.current_turn_index g' = (Game.dealer_index g + 1) mod n ∧
    Game.players g' !! Z.to_nat ((Game.dealer_index g + 1) mod n)
    = Some lead ∧
    RoundState.trick r'
    = Some (length (RoundState.trick_heap r), Trick.new (Player.id lead)) ∧
    RoundState.trick_number r' = 0.
Proof.
  intros n Hr Hpos Hdealer Hfresh Hok. subst n.
  set (n := Py.len (Game.players g)) in *.
  pose proof (lookup_some_len _ _ _ Hdealer) as Hn. fold n in Hn.
  pose proof (validate_bid_accepts_phase _ _ _ Hok) as Hphase.
  rewrite (validate_bid_dealer g r dealer bid Hphase Hr Hpos Hdealer) in Hok.
  case_decide as Hrange; [done|]. case_decide as Hforb; [done|]. clear Hok.
  assert (Hsum : bid + Py.sum_values (RoundState.bids r)
                 ≠ RoundState.num_cards r).
  { intros Heq. apply Hforb. unfold get_forbidden_bid. rewrite Hr.
    rewrite decide_False by (intros ?; done).
    rewrite decide_True by lia. f_equal. lia. }
  rewrite (place_bid_eq g r (Player.id dealer) bid Hr).
  pose proof (with_bid_length g (Player.id dealer) bid) as Hlen.
  rewrite decide_True
    by (unfold Py.len; rewrite Hlen; fold (Py.len (Game.players g)); lia).
  set (s := Z.to_nat ((Game.dealer_index g + 1) mod n)).
  assert (Hs : (s < length (Game.players g))%nat).
  { subst s. pose proof (Z.mod_pos_bound (Game.dealer_index g + 1) n
                           ltac:(lia)).
    subst n. unfold Py.len in *. lia. }
  destruct (lookup_lt_is_Some_2 _ _ Hs) as [q Hq].
  destruct (with_bid_lookup g (Player.id dealer) bid s q Hq)
    as (lead & Hlead & _).
  assert (Hn' : Py.len (with_bid g (Player.id dealer) bid) = n)
    by (unfold Py.len; by rewrite Hlen).
  erewrite (start_first_trick_eq _ _ lead); cycle 1.
  { reflexivity. }
  { cbn. rewrite Hn'. exact Hlead. }
  eexists _, _, lead. split; [reflexivity|]. cbn. rewrite Hn'.
  split; [done|]. split; [reflexivity|]. cbn.
  split; [done|]. split.
  { rewrite sum_values_insert by done. done. }
  split; [done|]. split; [exact Hlead|]. split; [|done].
  unfold RoundState.trick, RoundState.deref. cbn.
  by rewrite lookup_app_r, Nat.sub_diag by done.
Qed.

Lemma last_bid_starts_play_witness :
  Game.current_round dealer_turn_game = Some dealer_turn_round ∧
  RoundState.bids dealer_turn_round !! "p0" = None ∧
  validate_bid dealer_turn_game "p0" 2 = Ok None ∧
  ∃ g' r',
    place_bid dealer_turn_game "p0" 2 = Ok g' ∧
    Game.phase g' = PLAYING ∧
    Game.current_round g' = Some r' ∧
    Py.sum_values (RoundState.bids r') ≠ RoundState.num_cards r' ∧
    RoundState.trick r' = Some (0%nat, Trick.new "p1").
Proof.
  split; [reflexivity|]. split; [by vm_compute|]. split; [by vm_compute|].
  destruct (last_bid_starts_play dealer_turn_game dealer_turn_round
              (seat "p0" "Player 0") 2)
    as (g' & r' & lead & Hp & Hphase & Hr & _ & Hsum & _ & Hlead & Ht & _);
    [reflexivity|reflexivity|reflexivity|by vm_compute|by vm_compute|].
  exists g', r'. split; [exact Hp|]. split; [exact Hphase|].
  split; [exact Hr|]. split; [exact Hsum|].
  rewrite Ht. injection Hp as <-. vm_compute in Hlead.
  by injection Hlead as <-.
Defined.

(** ** Playing cards *)

Lemma sum_insert_tricks (l : list Player.t) (i : nat) (w : Player.t) (d : Z) :
  l !! i = Some w →
  Py.sum (Player.tricks_won
            <$> <[i := Player.set_tricks_won (Player.tricks_won w + d) w]> l)
  = Py.sum (Player.tricks_won <$> l) + d.
Proof.
  revert i. induction l as [|p l IH]; intros [|i] Hi; simplify_eq/=.
  - unfold Py.sum. simpl. lia.
  - specialize (IH i Hi). unfold Py.sum in *. simpl. lia.
Qed.

(** Writing attributes other than the id of the player an id denotes
    keeps the id denoting that seat. *)
Lemma find_player_set_player (g : Game.t) (player_id : string) (i : nat)
    (p p' : Player.t) :
  Game.find_player g player_id = Some (i, p) →
  Player.id p' = player_id →
  Game.find_player (Game.set_player i p' g) player_id = Some (i, p').
Proof.
  unfold Game.find_player, Game.set_player. cbn.
  intros (Hi & Hid & Hbefore)%list_find_Some Hid'.
  pose proof (lookup_lt_Some _ _ _ Hi).
  apply list_find_Some. split; [by apply list_lookup_insert_eq|].
  split; [done|]. intros j q Hq Hj.
  rewrite list_lookup_insert_ne in Hq by lia. by eapply Hbefore.
Qed.

(** What [resolve_trick] does to the game. *)
Lemma resolve_trick_effect (g : Game.t) (r : RoundState.t) (a : trick_ref)
    (k : Trick.t) (first : string * Card.t) (rest : list (string * Card.t)) :
  Game.current_round g = Some r →
  RoundState.trick r = Some (a, k) →
  Trick.cards_played k = first :: rest →
  (∀ x, x ∈ Trick.cards_played k → is_Some (Game.get_player_by_id g x.1)) →
  ∃ g' res i w r',
    resolve_trick g = Ok (g', res) ∧
    Game.find_player g (TrickResult.winner_id res) = Some (i, w) ∧
    TrickResult.winner_name res = Player.name w ∧
    TrickResult.trick res
    = Trick.set_winner_id (Some (TrickResult.winner_id res)) k ∧
    TrickResult.round_over res
    = bool_decide (RoundState.trick_number r + 1 >= RoundState.num_cards r) ∧
    Game.players g'
    = <[i := Player.set_tricks_won (Player.tricks_won w + 1) w]>
        (Game.players g) ∧
    Game.phase g' = Game.phase g ∧
    Game.current_round g' = Some r' ∧
    RoundState.trick_number r' = RoundState.trick_number r + 1 ∧
    RoundState.tricks_completed r' = RoundState.tricks_completed r ++ [a] ∧
    RoundState.deref r' a = Some (TrickResult.trick res) ∧
    RoundState.bids r' = RoundState.bids r ∧
    (TrickResult.round_over res = true →
     RoundState.current_trick r' = Some a ∧
     Game.current_turn_index g' = Game.current_turn_index g) ∧
    (TrickResult.round_over res = false →
     RoundState.trick r'
     = Some (length (RoundState.trick_heap r),
             Trick.new (TrickResult.winner_id res)) ∧
     Game.current_turn_index g' = Z.of_nat i).
Proof.
  intros Hr Hk Hcards Hseated.
  pose proof (find_winner_spec (Card.suit first.2) (RoundState.trump_suit r)
                first rest) as [Hin _].
  apply trick_some_inv in Hk as Hk'. destruct Hk' as [Ha Hd].
  pose proof (lookup_lt_Some _ _ _ Hd) as Hlt.
  unfold resolve_trick. rewrite Hr. py_step. rewrite Hk. py_step.
  rewrite Hcards, index_0. py_step.
  change (drop 1 (first :: rest)) with rest.
  destruct (find_winner _ _ first rest) as [bp bc] eqn:Hw.
  rewrite <-Hcards in Hin. apply Hseated in Hin as [p Hp]. simpl in Hp.
  unfold Game.get_player_by_id in Hp.
  destruct (Game.find_player g bp) as [[i w]|] eqn:Hfind; [|done].
  py_step. cbn [RoundState.trick_number RoundState.num_cards
                RoundState.set_trick_number RoundState.set_tricks_completed
                RoundState.store RoundState.set_trick_heap].
  case_decide as Hover.
  - eexists _, _, i, w, _. split; [reflexivity|]. cbn.
    rewrite bool_decide_eq_true_2 by done.
    repeat (split; [done|]).
    split; [unfold RoundState.deref; cbn; by apply list_lookup_insert_eq|].
    split; [done|]. split; [done|]. done.
  - eexists _, _, i, w, _. split; [reflexivity|]. cbn.
    rewrite bool_decide_eq_false_2 by done.
    repeat (split; [done|]).
    split.
    { unfold RoundState.deref; cbn.
      rewrite lookup_app_l by (by rewrite length_insert).
      by apply list_lookup_insert_eq. }
    split; [done|]. split; [done|]. intros _. split.
    + unfold RoundState.trick, RoundState.deref. cbn.
      rewrite length_insert.
      rewrite lookup_app_r by (by rewrite length_insert).
      by rewrite length_insert, Nat.sub_diag.
    + unfold Game.get_player_index.
      erewrite find_player_set_player; [done|exact Hfind|].
      by apply list_find_Some in Hfind as (_ & ? & _).
Qed.

(** X5: [resolve_trick] on a trick whose cards all belong to seated
    players credits exactly one trick, to the winner: the winner's
    [tricks_won] grows by one and no other player changes, so the tricks
    won add up to one more; the trick, with its winner recorded, is
    appended to [tricks_completed] and [trick_number] grows by one. The
    round is over exactly when [trick_number] reaches [num_cards]; if it
    is not, the winner leads a fresh, empty trick and it is the winner's
    turn; if it is, the resolved trick stays the current trick and the
    turn is not moved. *)
Theorem resolve_trick_bookkeeping (g : Game.t) (r : RoundState.t)
    (a : trick_ref) (k : Trick.t) (first : string * Card.t)
    (rest : list (string * Card.t)) :
  Game.current_round g = Some r →
  RoundState.trick r = Some (a, k) →
  Trick.cards_played k = first :: rest →
  (∀ x, x ∈ Trick.cards_played k → is_Some (Game.get_player_by_id g x.1)) →
  ∃ g' res i w r',
    resolve_trick g = Ok (g', res) ∧
    Game.players g !! i = Some w ∧
    Player.id w = TrickResult.winner_id res ∧
    Game.players g'
    = <[i := Player.set_tricks_won (Player.tricks_won w + 1) w]>
        (Game.players g) ∧
    Py.sum (Player.tricks_won <$> Game.players g')
    = Py.sum (Player.tricks_won <$> Game.players g) + 1 ∧
    Game.current_round g' = Some r' ∧
    RoundState.trick_number r' = RoundState.trick_number r + 1 ∧
    RoundState.tricks_completed r' = RoundState.tricks_completed r ++ [a] ∧
    RoundState.deref r' a
    = Some (Trick.set_winner_id (Some (TrickResult.winner_id res)) k) ∧
    TrickResult.round_over res
    = bool_decide (RoundState.trick_number r + 1 >= RoundState.num_cards r) ∧
    (TrickResult.round_over res = true →
     RoundState.current_trick r' = Some a ∧
     Game.current_turn_index g' = Game.current_turn_index g) ∧
    (TrickResult.round_over res = false →
     RoundState.trick r'
     = Some (length (RoundState.trick_heap r),
             Trick.new (TrickResult.winner_id res)) ∧
     Game.current_turn_index g' = Z.of_nat i).
Proof.
  intros Hr Hk Hcards Hseated.
  destruct (resolve_trick_effect g r a k first rest Hr Hk Hcards Hseated)
    as (g' & res & i & w & r' & Hres & Hfind & _ & Htrick & Hover & Hplayers
        & _ & Hr' & Hnum & Hdone & Hderef & _ & Hyes & Hno).
  apply list_find_Some in Hfind as (Hi & Hid & _).
  exists g', res, i, w, r'. rewrite <-Htrick.
  repeat (split; [done|]).
  split; [rewrite Hplayers; by apply sum_insert_tricks|].
  repeat (split; [done|]). done.
Qed.

Lemma resolve_trick_bookkeeping_witness :
  Game.current_round table_game = Some table_round ∧
  RoundState.trick table_round = Some (0%nat, table_trick) ∧
  ∃ g' res r',
    resolve_trick table_game = Ok (g', res) ∧
    Py.sum (Player.tricks_won <$> Game.players g')
    = Py.sum (Player.tricks_won <$> Game.players table_game) + 1 ∧
    Game.current_round g' = Some r' ∧
    RoundState.trick_number r' = 1 ∧
    RoundState.tricks_completed r' = [0%nat].
Proof.
  split; [reflexivity|]. split; [reflexivity|].
  destruct (resolve_trick_bookkeeping table_game table_round 0%nat table_trick
              ("p1", Card.mk HEARTS KING)
              [("p2", Card.mk SPADES TWO); ("p3", Card.mk HEARTS ACE);
               ("p0", Card.mk CLUBS ACE)]
              eq_refl eq_refl eq_refl)
    as (g' & res & i & w & r' & Hres & _ & _ & _ & Hsum & Hr & Hnum & Hdone
        & _).
  - intros x Hx. repeat (apply elem_of_cons in Hx as [->|Hx]);
      [eexists; by vm_compute..|by apply elem_of_nil in Hx].
  - exists g', res, r'. done.
Defined.

Lemma remove_elem_of {A} `{EqDecision A} (x : A) (l : list A) :
  x ∈ l → ∃ l', Py.remove x l = Ok l' ∧ l ≡ₚ x :: l'.
Proof.
  induction l as [|y l IH]; [by intros ?%elem_of_nil|].
  intros Hx. simpl. destruct (decide (y = x)) as [->|Hne]; [by eexists|].
  apply elem_of_cons in Hx as [->|Hx]; [done|].
  destruct (IH Hx) as (l' & -> & Hperm). eexists. split; [done|].
  rewrite Hperm. apply Permutation_swap.
Qed.

Lemma remove_not_elem_of {A} `{EqDecision A} (x : A) (l : list A) :
  x ∉ l → Py.remove x l = Raise Py.ValueError.
Proof.
  induction l as [|y l IH]; [done|].
  intros Hx. apply not_elem_of_cons in Hx as [Hne Hx]. simpl.
  rewrite decide_False by done. by rewrite IH.
Qed.

(** What an accepted play says about the state. *)
Lemma validate_play_accepts (g : Game.t) (player_id : string) (card : Card.t) :
  validate_play g player_id card = Ok None →
  Game.phase g = PLAYING ∧
  ∃ r a k current i p,
    Game.current_round g = Some r ∧
    RoundState.trick r = Some (a, k) ∧
    Py.index (Game.players g) (Game.current_turn_index g) = Ok current ∧
    Player.id current = player_id ∧
    Game.find_player g player_id = Some (i, p) ∧
    card ∈ Player.hand p ∧
    card ∈ get_valid_cards g player_id.
Proof.
  unfold validate_play.
  destruct (decide (Game.phase g ≠ PLAYING)) as [|Hphase]; [by intros [=]|].
  apply dec_stable in Hphase.
  destruct (Game.current_round g) as [r|] eqn:Hr; [|by intros [=]]. cbn.
  destruct (RoundState.trick r) as [[a k]|] eqn:Hk; [|by intros [=]].
  destruct (Py.index (Game.players g) _) as [current|] eqn:Hcur; [|done].
  py_step.
  destruct (decide (Player.id current ≠ player_id)) as [|Hid];
    [by intros [=]|].
  apply dec_stable in Hid.
  unfold Game.get_player_by_id.
  destruct (Game.find_player g player_id) as [[i p]|] eqn:Hfind;
    [|by intros [=]]. cbn.
  destruct (decide (card ∉ Player.hand p)) as [|Hhand]; [by intros [=]|].
  apply dec_stable in Hhand.
  destruct (decide (card ∉ get_valid_cards g player_id)) as [|Hvalid];
    [by intros [=]|].
  apply dec_stable in Hvalid. intros _. split; [done|].
  by exists r, a, k, current, i, p.
Qed.

(** Writing attributes other than the id of the player at a seat does not
    change which seat an id denotes. *)
Lemma find_player_update (g : Game.t) (i : nat) (p p' : Player.t)
    (player_id : string) :
  Game.players g !! i = Some p →
  Player.id p' = Player.id p →
  Game.find_player (Game.set_player i p' g) player_id
  = (λ '(j, x), (j, if decide (j = i) then p' else x))
      <$> Game.find_player g player_id.
Proof.
  unfold Game.find_player, Game.set_player. cbn.
  generalize (Game.players g). intros l. revert i.
  induction l as [|x l IH]; intros [|i] Hi Hid; simplify_eq/=.
  - rewrite Hid. case_decide; [done|].
    by destruct (list_find _ l) as [[j y]|].
  - case_decide; [done|]. rewrite (IH i Hi Hid).
    destruct (list_find _ l) as [[j y]|]; cbn; [|done].
    do 2 f_equal. repeat case_decide; done || lia.
Qed.

Lemma get_player_by_id_update (g : Game.t) (i : nat) (p p' : Player.t)
    (player_id : string) :
  Game.players g !! i = Some p →
  Player.id p' = Player.id p →
  is_Some (Game.get_player_by_id g player_id) →
  is_Some (Game.get_player_by_id (Game.set_player i p' g) player_id).
Proof.
  intros Hi Hid. unfold Game.get_player_by_id.
  rewrite (find_player_update g i p p' player_id Hi Hid).
  destruct (Game.find_player g player_id) as [[j x]|]; cbn; [eauto|].
  by intros [? ?].
Qed.

(** X6: a play that [validate_play] accepts never raises in [play_card]
    when the cards on the table belong to seated players: the card leaves
    the player's hand (one copy of it, nothing else), it is appended to
    the current trick under the player's id, and a trick result is
    returned exactly when the card is the last of the trick; otherwise the
    trick stays current and the turn moves one seat on, circularly. *)
Theorem validated_play_succeeds (g : Game.t) (r : RoundState.t)
    (a : trick_ref) (k : Trick.t) (player_id : string) (card : Card.t) :
  let n := Py.len (Game.players g) in
  Game.current_round g = Some r →
  RoundState.trick r = Some (a, k) →
  (∀ x, x ∈ Trick.cards_played k → is_Some (Game.get_player_by_id g x.1)) →
  validate_play g player_id card = Ok None →
  ∃ g' res p hand' r' k',
    play_card g player_id card = Ok (g', res) ∧
    Game.get_player_by_id g player_id = Some p ∧
    Py.remove card (Player.hand p) = Ok hand' ∧
    Player.hand p ≡ₚ card :: hand' ∧
    Player.hand <$> Game.get_player_by_id g' player_id = Some hand' ∧
    Game.current_round g' = Some r' ∧
    RoundState.deref r' a = Some k' ∧
    Trick.cards_played k' = Trick.cards_played k ++ [(player_id, card)] ∧
    (res = None ↔ Py.len (Trick.cards_played k) + 1 ≠ n) ∧
    (res = None →
     RoundState.current_trick r' = Some a ∧
     Game.current_turn_index g' = (Game.current_turn_index g + 1) mod n).
Proof.
  intros n Hr Hk Hseated Hok. subst n.
  destruct (validate_play_accepts g player_id card Hok)
    as (Hphase & r0 & a0 & k0 & current & i & p & Hr0 & Hk0 & Hcur & Hid
        & Hfind & Hhand & _).
  rewrite Hr in Hr0. injection Hr0 as <-.
  rewrite Hk in Hk0. injection Hk0 as <- <-.
  destruct (remove_elem_of card (Player.hand p) Hhand) as (hand' & Hrm & Hperm).
  pose proof Hfind as Hfind'.
  apply list_find_Some in Hfind' as (Hi & Hpid & _).
  pose proof (lookup_some_len _ _ _ Hi) as Hn.
  apply trick_some_inv in Hk as Hk'. destruct Hk' as [Ha Hd].
  pose proof (lookup_lt_Some _ _ _ Hd) as Hlt.
  set (p1 := Player.set_hand hand' p).
  set (k1 := Trick.set_cards_played
               (Trick.cards_played k ++ [(player_id, card)]) k).
  set (r1 := RoundState.store a k1 r).
  set (g1 := Game.set_current_turn_index
               ((Game.current_turn_index g + 1) mod Py.len (Game.players g))
               (Game.set_current_round (Some r1) (Game.set_player i p1 g))).
  assert (Hlen1 : Py.len (Game.players g1) = Py.len (Game.players g))
    by (unfold Py.len; cbn; by rewrite length_insert).
  assert (Hplay : play_card g player_id card
                  = if decide (Py.len (Trick.cards_played k1)
                               = Py.len (Game.players g1))
                    then '(game, result) ← resolve_trick g1;
                         Ok (game, Some result)
                    else Ok (g1, None)).
  { unfold play_card. rewrite Hr. py_step. rewrite Hk. py_step.
    rewrite Hfind. py_step. rewrite Hrm. py_step.
    unfold Py.modulo. cbn [Game.players Game.set_current_round
      Game.set_player Game.set_players Game.current_turn_index].
    rewrite decide_False
      by (unfold Py.len in *; rewrite length_insert; lia).
    py_step. unfold Py.len. rewrite length_insert. reflexivity. }
  assert (Hfind1 : Game.find_player g1 player_id = Some (i, p1)).
  { apply (find_player_set_player g player_id i p p1 Hfind). done. }
  assert (Hlenk1 : Py.len (Trick.cards_played k1)
                   = Py.len (Trick.cards_played k) + 1)
    by (unfold Py.len; cbn; rewrite length_app; cbn; lia).
  assert (Hd1 : RoundState.deref r1 a = Some k1)
    by (unfold RoundState.deref; cbn; by apply list_lookup_insert_eq).
  rewrite Hplay, Hlen1, Hlenk1. clear Hplay.
  destruct (decide (Py.len (Trick.cards_played k) + 1
                    = Py.len (Game.players g))) as [Hfull|Hfull].
  - assert (Hk1 : RoundState.trick r1 = Some (a, k1))
      by (by apply trick_some_inv).
    destruct (Trick.cards_played k1) as [|first rest] eqn:Hcards1.
    { cbn in Hcards1. by destruct (Trick.cards_played k). }
    assert (Hseated1 : ∀ x, x ∈ Trick.cards_played k1 →
              is_Some (Game.get_player_by_id g1 x.1)).
    { intros x Hx. cbn in Hx.
      apply (get_player_by_id_update g i p p1 x.1 Hi eq_refl).
      apply elem_of_app in Hx as [Hx| ->%list_elem_of_singleton];
        [by apply Hseated|].
      unfold Game.get_player_by_id. cbn. rewrite Hfind. by eexists. }
    destruct (resolve_trick_effect g1 r1 a k1 first rest eq_refl Hk1
                Hcards1 Hseated1)
      as (g' & res & i' & w & r' & Hres & Hfindw & _ & Htrick & _ & Hplayers
          & _ & Hr' & _ & _ & Hderef & _).
    rewrite Hres. py_step.
    exists g', (Some res), p, hand', r', (TrickResult.trick res).
    split; [done|].
    split; [unfold Game.get_player_by_id; by rewrite Hfind|].
    split; [done|]. split; [done|]. split.
    { apply list_find_Some in Hfindw as (Hiw & _ & _).
      assert (Hg' : g' = Game.set_player i'
                (Player.set_tricks_won (Player.tricks_won w + 1) w)
                (Game.set_players (Game.players g1) g')).
      { destruct g'. unfold Game.set_player. cbn in *. by rewrite Hplayers. }
      unfold Game.get_player_by_id. rewrite Hg'.
      erewrite (find_player_update _ i' w); [|exact Hiw|done].
      unfold Game.find_player in *. cbn [Game.players Game.set_players].
      rewrite Hfind1. cbn. case_decide; [|done]. subst i'.
      cbn in Hiw. rewrite list_lookup_insert_eq in Hiw
        by (by eapply lookup_lt_Some). by injection Hiw as <-. }
    split; [done|]. split; [done|].
    split; [by rewrite Htrick|].
    split; [split; [done|lia]|done].
  - exists g1, None, p, hand', r1, k1.
    split; [done|].
    split; [unfold Game.get_player_by_id; by rewrite Hfind|].
    split; [done|]. split; [done|].
    split; [unfold Game.get_player_by_id; by rewrite Hfind1|].
    split; [done|]. split; [done|]. split; [done|].
    split; [done|]. intros _. split; [done|done].
Qed.

Lemma validated_play_succeeds_witness :
  Game.current_round follow_game = Some follow_round ∧
  RoundState.trick follow_round = Some (0%nat, follow_trick) ∧
  validate_play follow_game "p1" (Card.mk SPADES TWO) = Ok None ∧
  ∃ g',
    play_card follow_game "p1" (Card.mk SPADES TWO) = Ok (g', None) ∧
    Player.hand <$> Game.get_player_by_id g' "p1" = Some [Card.mk CLUBS TWO] ∧
    Game.current_turn_index g' = 2.
Proof.
  split; [reflexivity|]. split; [reflexivity|]. split; [by vm_compute|].
  destruct (validated_play_succeeds follow_game follow_round 0%nat
              follow_trick "p1" (Card.mk SPADES TWO) eq_refl eq_refl)
    as (g' & res & p & hand' & r' & k' & Hplay & Hp & Hrm & _ & Hhand & _ & _
        & _ & Hres & Hturn).
  - intros x ->%list_elem_of_singleton. eexists. by vm_compute.
  - by vm_compute.
  - assert (res = None) as -> by (apply Hres; by vm_compute).
    exists g'. split; [exact Hplay|].
    vm_compute in Hp. injection Hp as <-.
    vm_compute in Hrm. injection Hrm as <-.
    split; [exact Hhand|]. by destruct (Hturn eq_refl) as [_ ->].
Defined.

(** ** Rounds *)

(** [k] calls of [advance_to_next_round] in a row. *)
Fixpoint advance_rounds (k : nat) (game : Game.t) : Py.result Game.t :=
  match k with
  | O => Ok game
  | S k' =>
      '(game, _) ← advance_to_next_round game; advance_rounds k' game
  end.

Lemma advance_to_next_round_eq (g : Game.t) :
  Py.len (Game.players g) ≠ 0 →
  advance_to_next_round g
  = let over :=
      bool_decide (Game.current_round_index g + 1
                   >= Py.len (Game.round_sequence g)) in
    Ok (Game.mk (Game.room_code g) (Game.host_id g) (Game.players g)
          (if over then GAME_OVER else Game.phase g)
          (Game.round_sequence g) (Game.current_round_index g + 1)
          (Game.current_round g)
          ((Game.dealer_index g + 1) mod Py.len (Game.players g))
          (Game.current_turn_index g) (Game.scores_history g),
        negb over).
Proof.
  intros Hn. unfold advance_to_next_round, Py.modulo. cbn.
  rewrite decide_False by done. py_step. cbn.
  case_decide; [by rewrite bool_decide_eq_true_2|].
  rewrite bool_decide_eq_false_2 by done. by destruct g.
Qed.

Lemma advance_rounds_spec (k : nat) (g : Game.t) :
  1 ≤ Py.len (Game.players g) →
  ∃ g', advance_rounds k g = Ok g' ∧
    Game.players g' = Game.players g ∧
    Game.round_sequence g' = Game.round_sequence g ∧
    Game.current_round_index g' = Game.current_round_index g + Z.of_nat k ∧
    Game.dealer_index g'
    = if decide (k = 0%nat) then Game.dealer_index g
      else (Game.dealer_index g + Z.of_nat k) mod Py.len (Game.players g).
Proof.
  revert g. induction k as [|k IH]; intros g Hn.
  - exists g. repeat split; cbn; lia.
  - cbn [advance_rounds]. rewrite advance_to_next_round_eq by lia.
    cbv zeta. py_step.
    match goal with |- ∃ _, advance_rounds k ?g1 = _ ∧ _ =>
      destruct (IH g1 Hn) as (g' & -> & Hp & Hs & Hi & Hd) end.
    cbn in *. exists g'. split; [done|]. split; [done|]. split; [done|].
    split; [lia|]. rewrite Hd.
    rewrite (decide_False (P := S k = 0%nat)) by lia.
    case_decide; [subst k; f_equal; lia|].
    rewrite Z.add_mod_idemp_l by lia. f_equal. lia.
Qed.

(** X7: with at least one player [advance_to_next_round] moves to the
    next round index and moves the dealer one seat on, circularly, so the
    dealer's seat stays a valid seat; it reports that no round is left,
    and sets the phase to GAME_OVER, exactly when the new index is past
    the end of the round sequence; otherwise the phase is kept. Players,
    round sequence, current round and score history are not touched.
    After as many advances as there are players the dealer is back at the
    seat where it started. *)
Theorem advance_to_next_round_rotates (g : Game.t) :
  let n := Py.len (Game.players g) in
  1 ≤ n →
  (∃ g' has_next,
     advance_to_next_round g = Ok (g', has_next) ∧
     Game.current_round_index g' = Game.current_round_index g + 1 ∧
     Game.dealer_index g' = (Game.dealer_index g + 1) mod n ∧
     0 ≤ Game.dealer_index g' < n ∧
     has_next
     = bool_decide (Game.current_round_index g + 1
                    < Py.len (Game.round_sequence g)) ∧
     Game.phase g' = (if has_next then Game.phase g else GAME_OVER) ∧
     Game.players g' = Game.players g ∧
     Game.round_sequence g' = Game.round_sequence g ∧
     Game.current_round g' = Game.current_round g ∧
     Game.scores_history g' = Game.scores_history g) ∧
  ∃ g', advance_rounds (length (Game.players g)) g = Ok g' ∧
        Game.dealer_index g' = Game.dealer_index g mod n ∧
        Game.current_round_index g' = Game.current_round_index g + n.
Proof.
  intros n Hn. split.
  - rewrite advance_to_next_round_eq by (fold n; lia). cbv zeta.
    eexists _, _. split; [reflexivity|]. cbn. fold n.
    split; [done|]. split; [done|].
    split; [apply Z.mod_pos_bound; lia|].
    split.
    { case_bool_decide; [by rewrite bool_decide_eq_false_2 by lia|].
      by rewrite bool_decide_eq_true_2 by lia. }
    split; [by case_bool_decide|]. done.
  - destruct (advance_rounds_spec (length (Game.players g)) g Hn)
      as (g' & Hg' & _ & _ & Hi & Hd).
    exists g'. split; [done|]. split; [|exact Hi].
    rewrite Hd. fold n. rewrite decide_False by (subst n; unfold Py.len in *; lia).
    replace (Z.of_nat (length (Game.players g))) with (1 * n)
      by (subst n; unfold Py.len; lia).
    apply Z.mod_add. lia.
Qed.

Lemma advance_to_next_round_rotates_witness :
  1 ≤ Py.len (Game.players dealer_turn_game) ∧
  (∃ g', advance_to_next_round dealer_turn_game = Ok (g', true) ∧
         Game.dealer_index g' = 1 ∧ Game.current_round_index g' = 4) ∧
  ∃ g', advance_rounds 4 dealer_turn_game = Ok g' ∧
        Game.dealer_index g' = 0.
Proof.
  assert (Hn : 1 ≤ Py.len (Game.players dealer_turn_game)) by (by vm_compute).
  split; [exact Hn|].
  destruct (advance_to_next_round_rotates dealer_turn_game Hn)
    as [(g1 & b & H1 & Hi & Hd & _ & Hb & _) (g4 & H4 & Hd4 & _)].
  split.
  - exists g1. vm_compute in Hb. subst b. done.
  - exists g4. done.
Defined.

(** ** Sorting, as the code uses it *)

Section sort_by.
Context {A : Type} (le : A → A → bool).

Lemma insert_sorted_Permutation (x : A) (l : list A) :
  Py.insert_sorted le x l ≡ₚ x :: l.
Proof.
  induction l as [|y l IH]; simpl; [done|].
  destruct (le x y); [done|]. rewrite IH. apply Permutation_swap.
Qed.

Lemma sort_by_Permutation (l : list A) : Py.sort_by le l ≡ₚ l.
Proof.
  induction l as [|x l IH]; simpl; [done|].
  by rewrite insert_sorted_Permutation, IH.
Qed.

Lemma length_sort_by (l : list A) : length (Py.sort_by le l) = length l.
Proof. by rewrite sort_by_Permutation. Qed.

Context (le_total : ∀ x y, le x y = false → le y x = true).
Context (le_trans : ∀ x y z, le x y = true → le y z = true → le x z = true).

Lemma insert_sorted_sorted (x : A) (l : list A) :
  StronglySorted (λ a b, le a b = true) l →
  StronglySorted (λ a b, le a b = true) (Py.insert_sorted le x l).
Proof.
  induction l as [|y l IH]; simpl; intros Hs.
  - by repeat constructor.
  - apply StronglySorted_inv in Hs as [Hs Hy].
    destruct (le x y) eqn:Hxy.
    + apply SSorted_cons; [by apply SSorted_cons|].
      constructor; [done|]. eapply Forall_impl; [exact Hy|].
      intros z Hz. by eapply le_trans.
    + apply SSorted_cons; [by apply IH|].
      rewrite insert_sorted_Permutation. constructor; [|done].
      by apply le_total.
Qed.

Lemma sort_by_sorted (l : list A) :
  StronglySorted (λ a b, le a b = true) (Py.sort_by le l).
Proof.
  induction l as [|x l IH]; simpl; [constructor|].
  by apply insert_sorted_sorted.
Qed.
End sort_by.

(** Stability: the elements of one key class keep their order. *)
Lemma sort_by_stable {A} (le : A → A → bool) (P : A → Prop)
    `{∀ x, Decision (P x)} (l : list A) :
  (∀ x y, P x → P y → le x y = true) →
  filter P (Py.sort_by le l) = filter P l.
Proof.
  intros Hclass.
  assert (Hins : ∀ x l, filter P (Py.insert_sorted le x l) = filter P (x :: l)).
  { intros x l'. induction l' as [|y l' IH]; simpl; [done|].
    destruct (le x y) eqn:Hxy; [done|].
    rewrite filter_cons, IH, !filter_cons.
    destruct (decide (P x)) as [Hx|Hx], (decide (P y)) as [Hy|Hy]; try done.
    by rewrite (Hclass x y Hx Hy) in Hxy. }
  induction l as [|x l IH]; simpl; [done|].
  by rewrite Hins, !filter_cons, IH.
Qed.

Lemma filter_fmap {A B} (f : A → B) (P : B → Prop) `{∀ y, Decision (P y)}
    (l : list A) :
  filter P (f <$> l) = f <$> filter (λ x, P (f x)) l.
Proof.
  induction l as [|x l IH]; [done|]. cbn [fmap list_fmap].
  rewrite !filter_cons, IH. by destruct (decide (P (f x))).
Qed.

(** ** Final results *)

(** X8: [get_game_results] ranks every player exactly once, numbered
    1, 2, ... in order, by non-increasing [total_score]; players with the
    same total keep their seat order; the winner is the first ranking, it
    is missing exactly when there are no players, and no player has a
    higher total than the winner; the score history is passed on. *)
Theorem get_game_results_ranking (g : Game.t) :
  let res := get_game_results g in
  let row (e : Ranking.t) :=
    (Ranking.player_id e, Ranking.player_name e, Ranking.total_score e) in
  let entry (p : Player.t) :=
    (Player.id p, Player.name p, Player.total_score p) in
  row <$> GameResults.rankings res ≡ₚ entry <$> Game.players g ∧
  (∀ i e, GameResults.rankings res !! i = Some e →
          Ranking.rank e = Z.of_nat i + 1) ∧
  (∀ i j e1 e2, (i < j)%nat →
     GameResults.rankings res !! i = Some e1 →
     GameResults.rankings res !! j = Some e2 →
     Ranking.total_score e2 ≤ Ranking.total_score e1) ∧
  (∀ s, filter (λ t, t.2 = s) (row <$> GameResults.rankings res)
        = filter (λ t, t.2 = s) (entry <$> Game.players g)) ∧
  GameResults.winner res = GameResults.rankings res !! 0%nat ∧
  (GameResults.winner res = None ↔ Game.players g = []) ∧
  (∀ w p, GameResults.winner res = Some w → p ∈ Game.players g →
          Player.total_score p ≤ Ranking.total_score w) ∧
  GameResults.scores_history res = Game.scores_history g.
Proof.
  intros res row entry. subst res. unfold get_game_results.
  set (le := λ p q : Player.t,
               bool_decide (Player.total_score q ≤ Player.total_score p)).
  set (sorted := Py.sort_by le (Game.players g)).
  cbn [GameResults.rankings GameResults.winner GameResults.scores_history].
  assert (Hrow : row <$> imap (λ i player,
                   Ranking.mk (Z.of_nat i + 1) (Player.id player)
                     (Player.name player) (Player.total_score player)) sorted
                 = entry <$> sorted).
  { rewrite fmap_imap. by rewrite <-imap_const. }
  assert (Hperm : sorted ≡ₚ Game.players g) by apply sort_by_Permutation.
  assert (Hsorted : StronglySorted (λ a b, le a b = true) sorted).
  { apply sort_by_sorted; subst le; cbn.
    - intros x y Hxy. apply bool_decide_eq_false in Hxy.
      apply bool_decide_eq_true. lia.
    - intros x y z Hxy%bool_decide_eq_true Hyz%bool_decide_eq_true.
      apply bool_decide_eq_true. lia. }
  assert (Hdesc : ∀ i j p q, (i < j)%nat → sorted !! i = Some p →
            sorted !! j = Some q →
            Player.total_score q ≤ Player.total_score p).
  { intros i j p q Hij Hp Hq.
    rewrite <-(take_drop_middle sorted i p Hp) in Hsorted, Hq.
    apply StronglySorted_app_1_r, StronglySorted_inv in Hsorted as [_ Hall].
    rewrite lookup_app_r in Hq by (rewrite length_take; lia).
    rewrite length_take in Hq.
    pose proof (lookup_lt_Some _ _ _ Hp).
    replace (j - i `min` length sorted)%nat with (S (j - i - 1)) in Hq by lia.
    cbn in Hq. apply (Forall_lookup_1 _ _ _ _ Hall) in Hq.
    subst le. cbn in Hq. by apply bool_decide_eq_true in Hq. }
  split; [by rewrite Hrow, Hperm|]. split.
  { intros i e He. rewrite list_lookup_imap in He.
    destruct (sorted !! i); [|done]. by injection He as <-. }
  split.
  { intros i j e1 e2 Hij H1 H2. rewrite list_lookup_imap in H1, H2.
    destruct (sorted !! i) as [p|] eqn:Hp; [|done].
    destruct (sorted !! j) as [q|] eqn:Hq; [|done].
    injection H1 as <-. injection H2 as <-. cbn. by eapply Hdesc. }
  split.
  { intros s. rewrite Hrow, !filter_fmap. f_equal.
    apply (sort_by_stable le). intros x y Hx Hy. subst le entry. cbn in *.
    apply bool_decide_eq_true. lia. }
  split; [by rewrite head_lookup|]. split.
  { rewrite head_lookup, list_lookup_imap.
    destruct sorted as [|p l] eqn:Hs.
    - apply Permutation_nil_l in Hperm. by rewrite <-Hperm.
    - cbn. split; [done|]. intros Hnil. rewrite Hnil in Hperm.
      by apply Permutation_nil_r in Hperm. }
  split; [|done].
  intros w p Hw Hp. rewrite head_lookup, list_lookup_imap in Hw.
  destruct (sorted !! 0%nat) as [p0|] eqn:Hp0; [|done].
  injection Hw as <-. cbn.
  rewrite <-Hperm in Hp. apply list_elem_of_lookup in Hp as [j Hj].
  destruct j as [|j]; [by simplify_eq|].
  eapply (Hdesc 0%nat (S j)); [lia|done..].
Qed.

(** ** Dealing *)

Lemma take_add_drop {A} (a b : nat) (l : list A) :
  take (a + b) l = take a l ++ take b (drop a l).
Proof.
  revert l. induction a as [|a IH]; intros [|x l]; simpl;
    [done|done|by rewrite take_nil|by rewrite IH].
Qed.

Lemma deck_52 : length Deck.reset = 52%nat ∧ NoDup Deck.reset.
Proof. split; [done|]. apply (bool_decide_unpack _). by vm_compute. Qed.

Lemma deal_nonneg (c : Z) (deck : list Card.t) :
  0 ≤ c →
  Deck.deal c deck = (take (Z.to_nat c) deck, drop (Z.to_nat c) deck).
Proof.
  intros Hc. unfold Deck.deal, Py.slice_to, Py.slice_from, Py.slice_bound.
  by rewrite decide_False by lia.
Qed.

Lemma hand_le_total (x y : Card.t) : hand_le x y = false → hand_le y x = true.
Proof.
  unfold hand_le. intros H%bool_decide_eq_false.
  apply bool_decide_eq_true. lia.
Qed.

Lemma hand_le_trans (x y z : Card.t) :
  hand_le x y = true → hand_le y z = true → hand_le x z = true.
Proof.
  unfold hand_le. intros H1%bool_decide_eq_true H2%bool_decide_eq_true.
  apply bool_decide_eq_true. lia.
Qed.

Lemma deal_hands_lookup (c : Z) (players : list Player.t) :
  0 ≤ c →
  ∀ (deck : list Card.t) (i : nat) (p : Player.t),
    players !! i = Some p →
    deal_hands c deck players !! i
    = Some (Player.set_hand
              (Py.sort_by hand_le
                 (take (Z.to_nat c) (drop (i * Z.to_nat c) deck))) p).
Proof.
  intros Hc. induction players as [|q players IH]; intros deck [|i] p Hp;
    [done|done|..]; cbn [deal_hands]; rewrite deal_nonneg by done.
  - by injection Hp as ->.
  - cbn in Hp. cbn [lookup list_lookup]. rewrite (IH _ i p Hp).
    by rewrite drop_drop.
Qed.

Lemma deal_hands_length (c : Z) (deck : list Card.t) (players : list Player.t) :
  length (deal_hands c deck players) = length players.
Proof.
  revert deck. induction players as [|q players IH]; intros deck; [done|].
  cbn [deal_hands]. destruct (Deck.deal c deck). cbn. by rewrite IH.
Qed.

Lemma deal_hands_concat (c : Z) (players : list Player.t) :
  0 ≤ c →
  ∀ deck : list Card.t,
    concat (Player.hand <$> deal_hands c deck players)
    ≡ₚ take (length players * Z.to_nat c) deck.
Proof.
  intros Hc. induction players as [|q players IH]; intros deck; [done|].
  cbn [deal_hands]. rewrite deal_nonneg by done.
  cbn [fmap list_fmap concat Player.hand Player.set_hand length Nat.mul].
  rewrite take_add_drop, IH. by rewrite sort_by_Permutation.
Qed.

(** The game [start_new_round] leaves behind: hands dealt from
    [shuffled], a fresh round of [c] cards with trump [trump]. *)
Definition started_round (shuffled : list Card.t) (g : Game.t) (c : Z)
    (trump : Suit) : Game.t :=
  Game.mk (Game.room_code g) (Game.host_id g)
    (deal_hands c shuffled (Player.reset_for_round <$> Game.players g))
    BIDDING (Game.round_sequence g) (Game.current_round_index g)
    (Some (RoundState.mk (Game.current_round_index g) c trump
             (Game.dealer_index g) 0 ∅ None [] 0 []))
    (Game.dealer_index g)
    ((Game.dealer_index g + 1) mod Py.len (Game.players g))
    (Game.scores_history g).

Lemma start_new_round_eq (shuffled : list Card.t) (g : Game.t) (c : Z)
    (trump : Suit) :
  1 ≤ Py.len (Game.players g) →
  0 ≤ Game.current_round_index g →
  Game.round_sequence g !! Z.to_nat (Game.current_round_index g) = Some c →
  TRUMP_ORDER !! Z.to_nat (Game.current_round_index g mod 4) = Some trump →
  start_new_round shuffled g = Ok (started_round shuffled g c trump).
Proof.
  intros Hn Hidx Hc Htrump.
  assert (Hmod : 0 ≤ Game.current_round_index g mod 4 < 4)
    by (apply Z.mod_pos_bound; lia).
  unfold start_new_round.
  rewrite (index_lookup _ _ c Hidx Hc). py_step.
  rewrite (index_lookup _ _ trump) by (first [lia|done]). py_step.
  unfold Py.modulo. cbn [Game.players Game.set_players].
  rewrite decide_False
    by (unfold Py.len in *; rewrite deal_hands_length, length_fmap; lia).
  py_step. cbn. unfold started_round, Py.len.
  by rewrite deal_hands_length, length_fmap.
Qed.

(** X9: [start_new_round] on a deck that is a shuffle of the 52 cards,
    for a round index inside the round sequence whose hand size fits the
    deck: every player keeps seat, id, name and total score, has bid and
    tricks reset and holds exactly [num_cards] cards, sorted by suit and
    then rank; the hands together are the first n * num_cards cards of
    the shuffled deck, so no card is dealt twice; the round starts with no
    bids and no trick, trump taken from the four-suit rotation by round
    index, the phase is BIDDING and the turn is at the seat left of the
    dealer. *)
Theorem start_new_round_deals (shuffled : list Card.t) (g : Game.t) (c : Z) :
  let n := Py.len (Game.players g) in
  shuffled ≡ₚ Deck.reset →
  1 ≤ n →
  0 ≤ Game.current_round_index g →
  Game.round_sequence g !! Z.to_nat (Game.current_round_index g) = Some c →
  0 ≤ c →
  c * n ≤ 52 →
  ∃ g' trump,
    start_new_round shuffled g = Ok g' ∧
    TRUMP_ORDER !! Z.to_nat (Game.current_round_index g mod 4) = Some trump ∧
    Game.phase g' = BIDDING ∧
    Game.current_round g'
    = Some (RoundState.mk (Game.current_round_index g) c trump
              (Game.dealer_index g) 0 ∅ None [] 0 []) ∧
    Game.current_turn_index g' = (Game.dealer_index g + 1) mod n ∧
    length (Game.players g') = length (Game.players g) ∧
    (∀ i p, Game.players g !! i = Some p →
       ∃ hand,
         Game.players g' !! i
         = Some (Player.mk (Player.id p) (Player.name p) hand None 0
                   (Player.total_score p)) ∧
         Py.len hand = c ∧
         hand ≡ₚ take (Z.to_nat c) (drop (i * Z.to_nat c) shuffled) ∧
         StronglySorted (λ a b, hand_le a b = true) hand) ∧
    concat (Player.hand <$> Game.players g')
    ≡ₚ take (Z.to_nat (n * c)) shuffled ∧
    NoDup (concat (Player.hand <$> Game.players g')).
Proof.
  intros n Hshuffle Hn Hidx Hc Hc0 Hfit. subst n.
  set (n := Py.len (Game.players g)) in *.
  destruct deck_52 as [Hlen52 Hnd52].
  assert (Hlen : length shuffled = 52%nat) by (by rewrite Hshuffle).
  assert (Hmod : 0 ≤ Game.current_round_index g mod 4 < 4)
    by (apply Z.mod_pos_bound; lia).
  assert (Htrump : ∃ trump,
            TRUMP_ORDER !! Z.to_nat (Game.current_round_index g mod 4)
            = Some trump).
  { apply lookup_lt_is_Some. cbn. lia. }
  destruct Htrump as [trump Htrump].
  set (players' := deal_hands c shuffled
                     (Player.reset_for_round <$> Game.players g)).
  assert (Hlen' : length players' = length (Game.players g)).
  { subst players'. by rewrite deal_hands_length, length_fmap. }
  assert (Hstart : start_new_round shuffled g
                   = Ok (Game.mk (Game.room_code g) (Game.host_id g) players'
                           BIDDING (Game.round_sequence g)
                           (Game.current_round_index g)
                           (Some (RoundState.mk (Game.current_round_index g)
                                    c trump (Game.dealer_index g) 0 ∅ None
                                    [] 0 []))
                           (Game.dealer_index g)
                           ((Game.dealer_index g + 1) mod n)
                           (Game.scores_history g))).
  { exact (start_new_round_eq shuffled g c trump Hn Hidx Hc Htrump). }
  exists (Game.mk (Game.room_code g) (Game.host_id g) players'
            BIDDING (Game.round_sequence g) (Game.current_round_index g)
            (Some (RoundState.mk (Game.current_round_index g)
                     c trump (Game.dealer_index g) 0 ∅ None [] 0 []))
            (Game.dealer_index g) ((Game.dealer_index g + 1) mod n)
            (Game.scores_history g)), trump.
  split; [exact Hstart|]. cbn.
  split; [done|]. split; [done|]. split; [done|]. split; [done|].
  split; [done|].
  assert (Hconcat : concat (Player.hand <$> players')
                    ≡ₚ take (Z.to_nat (n * c)) shuffled).
  { subst players'. rewrite deal_hands_concat by done.
    rewrite length_fmap. f_equiv. subst n. unfold Py.len. lia. }
  split; [|split; [done|]].
  - intros i p Hp.
    pose proof (lookup_lt_Some _ _ _ Hp) as Hi.
    eexists. split.
    { subst players'.
      erewrite deal_hands_lookup;
        [|done|by rewrite list_lookup_fmap, Hp]. done. }
    split; [|split].
    + unfold Py.len. rewrite length_sort_by, length_take, length_drop.
      assert (Z.of_nat (S i) * c ≤ n * c) by (subst n; unfold Py.len; nia).
      nia.
    + apply sort_by_Permutation.
    + apply sort_by_sorted; [apply hand_le_total|apply hand_le_trans].
  - rewrite Hconcat.
    assert (Hnd : NoDup shuffled) by (by rewrite Hshuffle).
    rewrite <-(take_drop (Z.to_nat (n * c)) shuffled) in Hnd.
    by apply NoDup_app in Hnd as (? & _ & _).
Qed.

Lemma start_new_round_deals_witness :
  Deck.reset ≡ₚ Deck.reset ∧
  1 ≤ Py.len (Game.players dealer_turn_game) ∧
  0 ≤ Game.current_round_index dealer_turn_game ∧
  Game.round_sequence dealer_turn_game
    !! Z.to_nat (Game.current_round_index dealer_turn_game) = Some 4 ∧
  4 * Py.len (Game.players dealer_turn_game) ≤ 52 ∧
  ∃ g',
    start_new_round Deck.reset dealer_turn_game = Ok g' ∧
    Game.phase g' = BIDDING ∧
    NoDup (concat (Player.hand <$> Game.players g')) ∧
    Player.hand <$> Game.players g' !! 1%nat
    = Some [Card.mk SPADES SIX; Card.mk SPADES SEVEN;
            Card.mk SPADES EIGHT; Card.mk SPADES NINE].
Proof.
  split; [done|]. split; [by vm_compute|]. split; [by vm_compute|].
  split; [reflexivity|]. split; [by vm_compute|].
  destruct (start_new_round_deals Deck.reset dealer_turn_game 4)
    as (g' & trump & Hs & _ & Hphase & _ & _ & _ & _ & _ & Hnd);
    [done|by vm_compute|by vm_compute|reflexivity|lia|by vm_compute|].
  exists g'. split; [exact Hs|]. split; [exact Hphase|].
  split; [exact Hnd|]. vm_compute in Hs. by injection Hs as <-.
Defined.

(** ** The room registry *)

(** A room within its limits: at most six players, with distinct ids and
    distinct names. *)
Definition room_ok (g : Game.t) : Prop :=
  Py.len (Game.players g) ≤ 6 ∧
  NoDup (Player.id <$> Game.players g) ∧
  NoDup (Player.name <$> Game.players g).

(** Every id the registry knows is seated in the room it is mapped to. *)
Definition registry_ok (self : RoomManager.t) : Prop :=
  ∀ player_id code,
    RoomManager.player_rooms self !! player_id = Some code →
    ∃ g, RoomManager.rooms self !! code = Some g ∧
         Exists (λ p, Player.id p = player_id) (Game.players g).

(** The player [join_room] appends in the WAITING phase. *)
Definition newcomer (player_id player_name : string) : Player.t :=
  Player.mk player_id player_name [] None 0 0.

Lemma NoDup_insert_fresh {A} (l : list A) (i : nat) (x : A) :
  NoDup l → x ∉ l → NoDup (<[i := x]> l).
Proof.
  intros Hnd Hx. destruct (decide (i < length l)%nat) as [Hi|Hi];
    [|by rewrite list_insert_ge by lia].
  rewrite insert_take_drop by done.
  rewrite <-(take_drop i l) in Hnd, Hx.
  apply NoDup_app in Hnd as (Ht & Hdisj & Hd).
  apply not_elem_of_app in Hx as [Hxt Hxd].
  assert (Hsub : ∀ y, y ∈ drop (S i) l → y ∈ drop i l).
  { intros y Hy. rewrite <-(take_drop 1 (drop i l)), drop_drop.
    apply elem_of_app. right. by rewrite Nat.add_1_r. }
  apply NoDup_app. split; [done|]. split.
  - intros y Hy [->|Hy']%elem_of_cons; [done|].
    by apply (Hdisj y Hy), Hsub.
  - constructor; [by intros ?%Hsub|].
    rewrite <-(take_drop 1 (drop i l)), drop_drop, Nat.add_1_r in Hd.
    by apply NoDup_app in Hd as (_ & _ & ?).
Qed.

Lemma Exists_id_elem_of (l : list Player.t) (player_id : string) :
  Exists (λ p, Player.id p = player_id) l ↔ player_id ∈ Player.id <$> l.
Proof.
  rewrite Exists_exists, list_elem_of_fmap.
  split; [intros (p & Hp & <-); by exists p|intros (p & -> & Hp); by exists p].
Qed.

Lemma Exists_name_elem_of (l : list Player.t) (player_name : string) :
  Exists (λ p, Player.name p = player_name) l
  ↔ player_name ∈ Player.name <$> l.
Proof.
  rewrite Exists_exists, list_elem_of_fmap.
  split; [intros (p & Hp & <-); by exists p|intros (p & -> & Hp); by exists p].
Qed.

(** The game after the reconnection branch of [join_room]. *)
Definition rejoined (player_id : string) (i : nat) (existing : Player.t)
    (game : Game.t) : Game.t :=
  Game.mk (Game.room_code game)
    (if decide (Game.host_id game = Player.id existing) then player_id
     else Game.host_id game)
    (<[i := Player.set_id player_id existing]> (Game.players game))
    (Game.phase game) (Game.round_sequence game)
    (Game.current_round_index game)
    (RoomManager.rebind_trick (Player.id existing) player_id
       <$> (RoomManager.rebind_bids (Player.id existing) player_id
              <$> Game.current_round game))
    (Game.dealer_index game) (Game.current_turn_index game)
    (Game.scores_history game).

(** The branches of [join_room]. *)
Lemma join_room_cases (self : RoomManager.t)
    (room_code player_id player_name : string) :
  let code := Py.upper room_code in
  let result := RoomManager.join_room self room_code player_id player_name in
  (RoomManager.rooms self !! code = None ∧
   result = (self, (None, "Room not found", None))) ∨
  ∃ game, RoomManager.rooms self !! code = Some game ∧
    ((Exists (λ p, Player.id p = player_id) (Game.players game) ∧
      result = (self, (Some game, "", None))) ∨
     (¬ Exists (λ p, Player.id p = player_id) (Game.players game) ∧
      Game.phase game ≠ WAITING ∧
      ∃ i existing,
        list_find (λ p, Player.name p = player_name) (Game.players game)
        = Some (i, existing) ∧
        result
        = (RoomManager.mk
             (<[code := rejoined player_id i existing game]>
                (RoomManager.rooms self))
             (<[player_id := code]>
                (delete (Player.id existing) (RoomManager.player_rooms self))),
           (Some (rejoined player_id i existing game), "",
            Some (Player.id existing)))) ∨
     (¬ Exists (λ p, Player.id p = player_id) (Game.players game) ∧
      Game.phase game ≠ WAITING ∧
      list_find (λ p, Player.name p = player_name) (Game.players game) = None ∧
      result = (self, (None, "Game already in progress", None))) ∨
     (Game.phase game = WAITING ∧
      Py.len (Game.players game) >= 6 ∧
      result = (self, (None, "Room is full (max 6 players)", None))) ∨
     (Game.phase game = WAITING ∧
      Exists (λ p, Player.name p = player_name) (Game.players game) ∧
      result
      = (self,
         (None, "Name '" +:+ player_name +:+ "' is already taken in this room",
          None))) ∨
     (¬ Exists (λ p, Player.id p = player_id) (Game.players game) ∧
      Game.phase game = WAITING ∧
      Py.len (Game.players game) < 6 ∧
      ¬ Exists (λ p, Player.name p = player_name) (Game.players game) ∧
      result
      = (RoomManager.mk
           (<[code := Game.set_players
                        (Game.players game
                         ++ [newcomer player_id player_name]) game]>
              (RoomManager.rooms self))
           (<[player_id := code]> (RoomManager.player_rooms self)),
         (Some (Game.set_players
                  (Game.players game ++ [newcomer player_id player_name])
                  game), "", None)))).
Proof.
  intros code result. subst result.
  destruct (RoomManager.rooms self !! code) as [game|] eqn:Hroom.
  - right. exists game. split; [done|].
    destruct (decide (Exists (λ p, Player.id p = player_id)
                        (Game.players game))) as [Hid|Hid].
    { left. split; [done|]. unfold RoomManager.join_room.
      fold code. rewrite Hroom. by rewrite decide_True. }
    right.
    destruct (decide (Game.phase game ≠ WAITING)) as [Hphase|Hphase].
    + destruct (list_find (λ p, Player.name p = player_name)
                  (Game.players game)) as [[i existing]|] eqn:Hname.
      * left. split; [done|]. split; [done|]. exists i, existing.
        split; [done|].
        by rewrite (join_room_reconnect self room_code player_id player_name
                      game i existing Hroom Hid Hphase Hname).
      * right. left. split; [done|]. split; [done|]. split; [done|].
        unfold RoomManager.join_room. fold code. rewrite Hroom.
        rewrite decide_False by done. rewrite decide_True by done.
        by rewrite Hname.
    + apply dec_stable in Hphase. right. right.
      unfold RoomManager.join_room. fold code. rewrite Hroom.
      rewrite decide_False by done.
      rewrite decide_False by (intros ?; done).
      destruct (decide (Py.len (Game.players game) >= 6)) as [Hfull|Hfull];
        [by left|].
      right.
      destruct (decide (Exists (λ p, Player.name p = player_name)
                          (Game.players game))) as [Hname|Hname];
        [by left|].
      right. split; [done|]. split; [done|]. split; [lia|]. done.
  - left. split; [done|]. unfold RoomManager.join_room. fold code.
    by rewrite Hroom.
Qed.

Lemma rejoined_room_ok (player_id : string) (i : nat) (existing : Player.t)
    (game : Game.t) :
  Game.players game !! i = Some existing →
  ¬ Exists (λ p, Player.id p = player_id) (Game.players game) →
  room_ok game → room_ok (rejoined player_id i existing game).
Proof.
  intros Hi Hid (Hlen & Hids & Hnames). unfold room_ok, rejoined. cbn.
  split; [unfold Py.len in *; by rewrite length_insert|]. split.
  - rewrite list_fmap_insert. apply NoDup_insert_fresh; [done|].
    by rewrite <-Exists_id_elem_of.
  - rewrite list_fmap_insert. cbn.
    rewrite list_insert_id; [done|]. by rewrite list_lookup_fmap, Hi.
Qed.

(** [join_room] keeps every room of the registry within its limits. *)
Lemma join_room_keeps_rooms_sound (self : RoomManager.t)
    (room_code player_id player_name : string) :
  (∀ c g, RoomManager.rooms self !! c = Some g → room_ok g) →
  ∀ c g,
    RoomManager.rooms
      (RoomManager.join_room self room_code player_id player_name).1 !! c
    = Some g →
    room_ok g.
Proof.
  intros Hok c g.
  destruct (join_room_cases self room_code player_id player_name)
    as [[_ ->]|(game & Hroom & Hcases)]; [by apply Hok|].
  pose proof (Hok _ _ Hroom) as Hgame.
  destruct Hcases as [[_ ->]|[(Hid & _ & i & existing & Hname & ->)
    |[(_ & _ & _ & ->)|[(_ & _ & ->)|[(_ & _ & ->)
    |(Hid & _ & Hlen & Hname & ->)]]]]]; cbn; try by apply Hok.
  - destruct (decide (Py.upper room_code = c)) as [<-|Hne];
      [|rewrite lookup_insert_ne by done; by apply Hok].
    rewrite lookup_insert_eq. intros [= <-].
    apply list_find_Some in Hname as (Hi & _ & _).
    by apply rejoined_room_ok.
  - destruct (decide (Py.upper room_code = c)) as [<-|Hne];
      [|rewrite lookup_insert_ne by done; by apply Hok].
    rewrite lookup_insert_eq. intros [= <-].
    destruct Hgame as (Hl & Hids & Hnames). unfold room_ok. cbn.
    split; [unfold Py.len in *; rewrite length_app; cbn; lia|].
    rewrite !fmap_app. cbn. split.
    + apply NoDup_app. split; [done|]. split; [|apply NoDup_singleton].
      intros x Hx ->%list_elem_of_singleton.
      by apply Hid, Exists_id_elem_of.
    + apply NoDup_app. split; [done|]. split; [|apply NoDup_singleton].
      intros x Hx ->%list_elem_of_singleton.
      by apply Hname, Exists_name_elem_of.
Qed.


(** X11: a join that succeeded can be repeated without effect: calling
    [join_room] again with the same arguments on the registry it returned
    changes nothing and returns the same game, with no error and no old
    id. *)
Theorem join_room_idempotent (self self' : RoomManager.t)
    (room_code player_id player_name err : string) (g : Game.t)
    (old : option string) :
  RoomManager.join_room self room_code player_id player_name
  = (self', (Some g, err, old)) →
  RoomManager.join_room self' room_code player_id player_name
  = (self', (Some g, "", None)).
Proof.
  intros Hjoin.
  assert (Hin : RoomManager.rooms self' !! Py.upper room_code = Some g ∧
                Exists (λ p, Player.id p = player_id) (Game.players g)).
  { destruct (join_room_cases self room_code player_id player_name)
      as [[_ Heq]|(game & Hroom & Hcases)];
      cbv zeta in *; [congruence|].
    destruct Hcases as [[Hid Heq]|[(Hid & _ & i & existing & Hname & Heq)
      |[(_ & _ & _ & Heq)|[(_ & _ & Heq)|[(_ & _ & Heq)
      |(Hid & _ & Hlen & Hname & Heq)]]]]];
      rewrite Heq in Hjoin; simplify_eq; cbn.
    - done.
    - split; [apply lookup_insert_eq|].
      apply list_find_Some in Hname as (Hi & _ & _).
      apply Exists_exists. exists (Player.set_id player_id existing).
      split; [|done]. eapply list_elem_of_lookup_2.
      apply list_lookup_insert_eq. by eapply lookup_lt_Some.
    - split; [apply lookup_insert_eq|].
      apply Exists_app. right. by constructor. }
  destruct Hin as [Hroom Hid].
  unfold RoomManager.join_room. rewrite Hroom. by rewrite decide_True.
Qed.

Lemma join_room_idempotent_witness :
  ∃ self' g,
    RoomManager.join_room
      (ConnectionManager.room_manager (serving last_play_game))
      "room1" "q1" "Player 1"
    = (self', (Some g, "", Some "p1")) ∧
    RoomManager.join_room self' "room1" "q1" "Player 1"
    = (self', (Some g, "", None)).
Proof.
  eexists _, _.
  assert (H : RoomManager.join_room
                (ConnectionManager.room_manager (serving last_play_game))
                "room1" "q1" "Player 1" = (_, (Some _, "", Some "p1")))
    by (vm_compute; reflexivity).
  split; [exact H|].
  exact (join_room_idempotent _ _ _ _ _ _ _ _ H).
Defined.

(** X12: whenever [join_room] returns no game it has changed nothing:
    the registry is the one it was given, no old id is reported, and the
    message is one of the four refusals. *)
Theorem join_room_refusal_unchanged (self : RoomManager.t)
    (room_code player_id player_name : string) :
  ∀ self' err old,
    RoomManager.join_room self room_code player_id player_name
    = (self', (None, err, old)) →
    self' = self ∧ old = None ∧
    (err = "Room not found" ∨
     err = "Game already in progress" ∨
     err = "Room is full (max 6 players)" ∨
     err = "Name '" +:+ player_name +:+ "' is already taken in this room").
Proof.
  intros self' err old Hjoin.
  destruct (join_room_cases self room_code player_id player_name)
    as [[_ Heq]|(game & Hroom & Hcases)]; cbv zeta in *.
  { rewrite Heq in Hjoin. simplify_eq. by eauto. }
  destruct Hcases as [[Hid Heq]|[(Hid & _ & i & existing & Hname & Heq)
    |[(_ & _ & _ & Heq)|[(_ & _ & Heq)|[(_ & _ & Heq)
    |(Hid & _ & Hlen & Hname & Heq)]]]]];
    rewrite Heq in Hjoin; simplify_eq; eauto 10.
Qed.

(** [join_room] keeps the registry consistent. *)
Lemma join_room_keeps_registry (self : RoomManager.t)
    (room_code player_id player_name : string) :
  registry_ok self →
  registry_ok (RoomManager.join_room self room_code player_id player_name).1.
Proof.
  intros Hok.
  destruct (join_room_cases self room_code player_id player_name)
    as [[_ ->]|(game & Hroom & Hcases)]; [done|].
  destruct Hcases as [[_ ->]|[(Hid & _ & i & existing & Hname & ->)
    |[(_ & _ & _ & ->)|[(_ & _ & ->)|[(_ & _ & ->)
    |(Hid & _ & Hlen & Hname & ->)]]]]]; try done; cbn.
  - apply list_find_Some in Hname as (Hi & _ & _).
    pose proof (lookup_lt_Some _ _ _ Hi) as Hlt.
    intros q c. cbn.
    destruct (decide (player_id = q)) as [<-|Hq].
    + rewrite lookup_insert_eq. intros [= <-].
      eexists. split; [apply lookup_insert_eq|]. cbn.
      apply Exists_exists. exists (Player.set_id player_id existing).
      split; [|done]. eapply list_elem_of_lookup_2.
      by apply list_lookup_insert_eq.
    + rewrite lookup_insert_ne by done.
      destruct (decide (Player.id existing = q)) as [<-|Hold];
        [by rewrite lookup_delete_eq|].
      rewrite lookup_delete_ne by done. intros Hc.
      destruct (Hok q c Hc) as (g0 & Hg0 & Hmem).
      destruct (decide (Py.upper room_code = c)) as [<-|Hne].
      * eexists. split; [apply lookup_insert_eq|]. cbn.
        rewrite Hroom in Hg0. injection Hg0 as <-.
        apply Exists_exists in Hmem as (p & Hp & Hpid).
        apply list_elem_of_lookup in Hp as [j Hj].
        apply Exists_exists. exists p. split; [|done].
        eapply list_elem_of_lookup_2.
        rewrite list_lookup_insert_ne; [exact Hj|].
        intros ->. congruence.
      * exists g0. by rewrite lookup_insert_ne.
  - intros q c. cbn.
    destruct (decide (player_id = q)) as [<-|Hq].
    + rewrite lookup_insert_eq. intros [= <-].
      eexists. split; [apply lookup_insert_eq|]. cbn.
      apply Exists_app. right. by constructor.
    + rewrite lookup_insert_ne by done. intros Hc.
      destruct (Hok q c Hc) as (g0 & Hg0 & Hmem).
      destruct (decide (Py.upper room_code = c)) as [<-|Hne].
      * eexists. split; [apply lookup_insert_eq|]. cbn.
        rewrite Hroom in Hg0. injection Hg0 as <-.
        apply Exists_app. by left.
      * exists g0. by rewrite lookup_insert_ne.
Qed.

Lemma serving_registry_ok (game : Game.t) :
  Player.id <$> Game.players game = ["p0"; "p1"; "p2"; "p3"] →
  registry_ok (ConnectionManager.room_manager (serving game)).
Proof.
  intros Hids q c. cbn. intros Hq.
  assert (Hc : c = "ROOM1" ∧ q ∈ ["p0"; "p1"; "p2"; "p3"]).
  { repeat (apply lookup_insert_Some in Hq as [[<- <-]|[_ Hq]];
            [split; [done|]; apply (bool_decide_unpack _); by vm_compute|]).
    by rewrite lookup_empty in Hq. }
  destruct Hc as [-> Hmem]. exists game.
  split; [apply lookup_insert_eq|].
  apply Exists_id_elem_of. by rewrite Hids.
Qed.


Lemma join_room_refusal_unchanged_witness :
  RoomManager.join_room
    (ConnectionManager.room_manager (serving last_play_game))
    "room1" "q9" "Stranger"
  = (ConnectionManager.room_manager (serving last_play_game),
     (None, "Game already in progress", None)) ∧
  (ConnectionManager.room_manager (serving last_play_game)
   = ConnectionManager.room_manager (serving last_play_game) ∧
   (None : option string) = None).
Proof.
  assert (H : RoomManager.join_room
                (ConnectionManager.room_manager (serving last_play_game))
                "room1" "q9" "Stranger"
              = (ConnectionManager.room_manager (serving last_play_game),
                 (None, "Game already in progress", None)))
    by (by vm_compute).
  split; [exact H|].
  destruct (join_room_refusal_unchanged _ _ _ _ _ _ _ H) as (H1 & H2 & _).
  split; [exact H1|exact H2].
Defined.

(** ** Creating and leaving rooms *)

(** X14: [create_room], when one of the drawn codes is free, uses the
    first free one: the code was not a room before, so every existing room
    is kept as it was; the new room is stored under its code, in the
    WAITING phase, with the creator as host and only player; the creator
    is mapped to the new room and, if the code is not empty,
    [get_player_room] returns it; every other player's mapping is
    unchanged. It fails only when every drawn code is taken. *)
Theorem create_room_fresh (self : RoomManager.t) (draws : list string)
    (player_id player_name : string) :
  (RoomManager.create_room self draws player_id player_name = None ↔
   ∀ code, code ∈ draws → is_Some (RoomManager.rooms self !! code)) ∧
  ∀ self' game,
    RoomManager.create_room self draws player_id player_name
    = Some (self', game) →
    let code := Game.room_code game in
    code ∈ draws ∧
    RoomManager.rooms self !! code = None ∧
    game = Game.mk code player_id [newcomer player_id player_name] WAITING
             [] 0 None 0 0 [] ∧
    RoomManager.rooms self' !! code = Some game ∧
    (∀ c, c ≠ code →
          RoomManager.rooms self' !! c = RoomManager.rooms self !! c) ∧
    (∀ c g, RoomManager.rooms self !! c = Some g →
            RoomManager.rooms self' !! c = Some g) ∧
    RoomManager.player_rooms self' !! player_id = Some code ∧
    (∀ q, q ≠ player_id →
          RoomManager.player_rooms self' !! q
          = RoomManager.player_rooms self !! q) ∧
    (code ≠ "" → RoomManager.get_player_room self' player_id = Some game).
Proof.
  unfold RoomManager.create_room, RoomManager._generate_code.
  destruct (list_find _ draws) as [[i code]|] eqn:Hfind; cbn.
  - apply list_find_Some in Hfind as (Hi & Hfree & _). split.
    + split; [done|]. intros Hall.
      destruct (Hall code) as [g Hg]; [by eapply list_elem_of_lookup_2|].
      congruence.
    + intros self' game [= <- <-]. cbn.
      split; [by eapply list_elem_of_lookup_2|]. split; [done|].
      split; [done|]. split; [apply lookup_insert_eq|].
      split; [intros c Hc; by apply lookup_insert_ne|].
      split.
      { intros c g Hg. rewrite lookup_insert_ne; [done|]. congruence. }
      split; [apply lookup_insert_eq|].
      split; [intros q Hq; by apply lookup_insert_ne|].
      intros Hcode.
      unfold RoomManager.get_player_room, RoomManager.player_room_entry.
      cbn. rewrite lookup_insert_eq.
      destruct (String.eqb_spec code "") as [|_]; [done|].
      by rewrite lookup_insert_eq.
  - apply list_find_None in Hfind. split; [|done]. split; [|done].
    intros _ code Hcode.
    apply (proj1 (Forall_forall _ _) Hfind code) in Hcode.
    by destruct (RoomManager.rooms self !! code).
Qed.

Lemma create_room_fresh_witness :
  ∃ self' game,
    RoomManager.create_room
      (ConnectionManager.room_manager (serving last_play_game))
      ["ROOM1"; "AB12CD"] "q7" "Guest"
    = Some (self', game) ∧
    Game.room_code game = "AB12CD" ∧
    RoomManager.rooms self' !! "ROOM1" = Some last_play_game ∧
    RoomManager.get_player_room self' "q7" = Some game.
Proof.
  eexists _, _.
  assert (H : RoomManager.create_room
                (ConnectionManager.room_manager (serving last_play_game))
                ["ROOM1"; "AB12CD"] "q7" "Guest" = Some (_, _))
    by (vm_compute; reflexivity).
  split; [exact H|].
  destruct (create_room_fresh
              (ConnectionManager.room_manager (serving last_play_game))
              ["ROOM1"; "AB12CD"] "q7" "Guest") as [_ Hc].
  destruct (Hc _ _ H) as (_ & _ & _ & _ & _ & Hkeep & _ & _ & Hget).
  split; [reflexivity|]. split; [by apply Hkeep; vm_compute|].
  by apply Hget.
Defined.

(** [create_room] keeps the registry consistent. *)
Lemma create_room_keeps_registry (self self' : RoomManager.t)
    (draws : list string) (player_id player_name : string) (game : Game.t) :
  registry_ok self →
  RoomManager.create_room self draws player_id player_name
  = Some (self', game) →
  registry_ok self'.
Proof.
  intros Hok. unfold RoomManager.create_room, RoomManager._generate_code.
  destruct (list_find _ draws) as [[i code]|] eqn:Hfind; cbn; [|done].
  apply list_find_Some in Hfind as (_ & Hfree & _).
  intros [= <- <-] q c. cbn.
  destruct (decide (player_id = q)) as [<-|Hq].
  - rewrite lookup_insert_eq. intros [= <-].
    eexists. split; [apply lookup_insert_eq|]. cbn. by constructor.
  - rewrite lookup_insert_ne by done. intros Hc.
    destruct (Hok q c Hc) as (g0 & Hg0 & Hmem). exists g0.
    split; [|done]. rewrite lookup_insert_ne; [done|]. congruence.
Qed.


(** The branches of [remove_player]. *)
Lemma remove_player_cases (self : RoomManager.t) (player_id : string) :
  let result := RoomManager.remove_player self player_id in
  let mapping := delete player_id (RoomManager.player_rooms self) in
  (RoomManager.player_rooms self !! player_id = None ∧
   result = (self, None)) ∨
  ∃ code, RoomManager.player_rooms self !! player_id = Some code ∧
    ((RoomManager.rooms self !! code = None ∧
      result = (RoomManager.mk (RoomManager.rooms self) mapping, None)) ∨
     ∃ game, RoomManager.rooms self !! code = Some game ∧
       ((filter (λ p, Player.id p ≠ player_id) (Game.players game) = [] ∧
         result
         = (RoomManager.mk (delete code (RoomManager.rooms self)) mapping,
            None)) ∨
        ∃ first rest game',
          filter (λ p, Player.id p ≠ player_id) (Game.players game)
          = first :: rest ∧
          game'
          = Game.mk (Game.room_code game)
              (if decide (Game.host_id game = player_id)
               then Player.id first else Game.host_id game)
              (first :: rest) (Game.phase game) (Game.round_sequence game)
              (Game.current_round_index game) (Game.current_round game)
              (Game.dealer_index game) (Game.current_turn_index game)
              (Game.scores_history game) ∧
          result
          = (RoomManager.mk (<[code := game']> (RoomManager.rooms self))
               mapping,
             Some game'))).
Proof.
  cbv zeta. unfold RoomManager.remove_player.
  destruct (RoomManager.player_rooms self !! player_id) as [code|];
    [|by left].
  right. exists code. split; [done|]. cbn.
  destruct (RoomManager.rooms self !! code) as [game|]; [|by left].
  right. exists game. split; [done|].
  destruct (filter _ (Game.players game)) as [|first rest]; [by left|].
  right. exists first, rest. eexists. split; [done|]. split; [done|].
  by case_decide.
Qed.

(** X16: after [remove_player] the player's id maps to no room and no
    other mapping has changed. If the call returns a game, it is the
    player's former room, still registered, without the players of that
    id and with the others in order; it has at least one player; the host
    is unchanged unless the leaver was host, in which case the first
    remaining player is host; and a host who was seated before is seated
    after. If the player's room held nobody else, the room is deleted. *)
Theorem remove_player_effect (self : RoomManager.t) (player_id : string) :
  let self' := (RoomManager.remove_player self player_id).1 in
  let result := (RoomManager.remove_player self player_id).2 in
  RoomManager.player_rooms self'
  = delete player_id (RoomManager.player_rooms self) ∧
  RoomManager.get_player_room self' player_id = None ∧
  (∀ c, RoomManager.player_rooms self !! player_id ≠ Some c →
        RoomManager.rooms self' !! c = RoomManager.rooms self !! c) ∧
  (∀ game', result = Some game' →
     ∃ code game first,
       RoomManager.player_rooms self !! player_id = Some code ∧
       RoomManager.rooms self !! code = Some game ∧
       RoomManager.rooms self' !! code = Some game' ∧
       Game.players game'
       = filter (λ p, Player.id p ≠ player_id) (Game.players game) ∧
       head (Game.players game') = Some first ∧
       Game.host_id game'
       = (if decide (Game.host_id game = player_id) then Player.id first
          else Game.host_id game) ∧
       (Exists (λ p, Player.id p = Game.host_id game) (Game.players game) →
        Exists (λ p, Player.id p = Game.host_id game') (Game.players game')) ∧
       Game.phase game' = Game.phase game ∧
       Game.current_round game' = Game.current_round game) ∧
  (∀ code game,
     RoomManager.player_rooms self !! player_id = Some code →
     RoomManager.rooms self !! code = Some game →
     (result = None ↔
      ∀ p, p ∈ Game.players game → Player.id p = player_id) ∧
     (result = None → RoomManager.rooms self' !! code = None)).
Proof.
  cbv zeta.
  assert (Hget : ∀ rooms,
    RoomManager.get_player_room
      (RoomManager.mk rooms (delete player_id (RoomManager.player_rooms self)))
      player_id = None).
  { intros rooms.
    unfold RoomManager.get_player_room, RoomManager.player_room_entry. cbn.
    by rewrite lookup_delete_eq. }
  destruct (remove_player_cases self player_id)
    as [[Hnone ->]|(code & Hcode & [[Hroom ->]|(game & Hroom &
         [[Hempty ->]|(first & rest & game' & Hfilter & -> & ->)])])];
    cbn.
  - split; [by rewrite delete_id|]. split.
    { unfold RoomManager.get_player_room, RoomManager.player_room_entry.
      by rewrite Hnone. }
    split; [done|]. split; [done|]. intros ? ?. congruence.
  - split; [done|]. split; [apply Hget|]. split; [done|]. split; [done|].
    intros ? ?. congruence.
  - split; [done|]. split; [apply Hget|]. split.
    { intros c Hc. apply lookup_delete_ne. congruence. }
    split; [done|]. intros c g Hc Hg.
    assert (c = code) as -> by congruence.
    assert (g = game) as -> by congruence. split.
    + split; [|done]. intros _ p Hp.
      destruct (decide (Player.id p = player_id)) as [|Hne]; [done|].
      assert (Hin : p ∈ filter (λ p, Player.id p ≠ player_id)
                          (Game.players game))
        by (by apply list_elem_of_filter).
      rewrite Hempty in Hin. by apply elem_of_nil in Hin.
    + intros _. apply lookup_delete_eq.
  - split; [done|]. split; [apply Hget|]. split.
    { intros c Hc. apply lookup_insert_ne. congruence. }
    split.
    + intros ? [= <-]. exists code, game, first.
      split; [done|]. split; [done|]. split; [apply lookup_insert_eq|].
      cbn. split; [done|]. split; [done|]. split; [done|].
      split; [|done]. intros Hhost. case_decide as Hleft.
      * by constructor.
      * rewrite <-Hfilter. apply Exists_exists in Hhost as (p & Hp & Hid).
        apply Exists_exists. exists p. split; [|done].
        apply list_elem_of_filter. split; [congruence|done].
    + intros c g Hc Hg.
      assert (c = code) as -> by congruence.
      assert (g = game) as -> by congruence. split; [|done].
      split; [done|]. intros Hall.
      assert (Hin : first ∈ filter (λ p, Player.id p ≠ player_id)
                              (Game.players game))
        by (rewrite Hfilter; by left).
      apply list_elem_of_filter in Hin as [Hne Hin]. by destruct (Hne (Hall _ Hin)).
Qed.

(** [remove_player] keeps the registry consistent. *)
Lemma remove_player_keeps_registry (self : RoomManager.t)
    (player_id : string) :
  registry_ok self →
  registry_ok (RoomManager.remove_player self player_id).1.
Proof.
  intros Hok.
  assert (Hstep : ∀ rooms',
    (∀ q c g, q ≠ player_id →
       RoomManager.player_rooms self !! q = Some c →
       RoomManager.rooms self !! c = Some g →
       Exists (λ p, Player.id p = q) (Game.players g) →
       ∃ g', rooms' !! c = Some g' ∧
             Exists (λ p, Player.id p = q) (Game.players g')) →
    registry_ok
      (RoomManager.mk rooms'
         (delete player_id (RoomManager.player_rooms self)))).
  { intros rooms' Hrooms q c. cbn.
    destruct (decide (player_id = q)) as [<-|Hq];
      [by rewrite lookup_delete_eq|].
    rewrite lookup_delete_ne by done. intros Hc.
    destruct (Hok q c Hc) as (g & Hg & Hmem). by eapply Hrooms. }
  assert (Hfilter : ∀ q g, q ≠ player_id →
    Exists (λ p, Player.id p = q) (Game.players g) →
    Exists (λ p, Player.id p = q)
      (filter (λ p, Player.id p ≠ player_id) (Game.players g))).
  { intros q g Hq (p & Hp & Hid)%Exists_exists.
    apply Exists_exists. exists p. split; [|done].
    apply list_elem_of_filter. split; [congruence|done]. }
  destruct (remove_player_cases self player_id)
    as [[Hnone ->]|(code & Hcode & [[Hroom ->]|(game & Hroom &
         [[Hempty ->]|(first & rest & game' & Hfil & -> & ->)])])];
    cbn; [done|..]; apply Hstep.
  - intros q c g _ _ Hg Hmem. by exists g.
  - intros q c g Hq Hc Hg Hmem.
    destruct (decide (code = c)) as [<-|Hne];
      [|exists g; by rewrite lookup_delete_ne].
    assert (g = game) as -> by congruence.
    apply (Hfilter q game Hq) in Hmem. rewrite Hempty in Hmem.
    by apply Exists_nil in Hmem.
  - intros q c g Hq Hc Hg Hmem.
    destruct (decide (code = c)) as [<-|Hne];
      [|exists g; by rewrite lookup_insert_ne].
    assert (g = game) as -> by congruence.
    eexists. split; [apply lookup_insert_eq|]. cbn.
    rewrite <-Hfil. by apply Hfilter.
Qed.


(** ** Connections and the flow of rounds *)

(** The frames that open a round: a round_start frame for every connected
    player of the room, each with that player's own hand, then the bid
    turn of [first] announced to the room. *)
Definition round_start_frames (self : ConnectionManager.t) (g : Game.t)
    (round : RoundState.t) (first : Player.t)
  : list ConnectionManager.LobbySent :=
  (p ← Game.players g;
   ConnectionManager.lobby_send self (Player.id p)
     (MsgRoundStart g (Game.players g) (Player.hand p)
        (Game.current_round_index g + 1) (Py.len (Game.round_sequence g))
        (RoundState.num_cards round) (RoundState.trump_suit round)))
  ++ ConnectionManager.lobby_broadcast self g
       (MsgGame (MsgBidTurn (Player.id first) (Player.name first)
                   (RoundState.bids round) None
                   (RoundState.num_cards round))).

Lemma lobby_frames_broadcast (self : ConnectionManager.t) (game : Game.t)
    (m : Message) :
  ConnectionManager.lobby_frames
    (ConnectionManager.broadcast_to_room self game m)
  = ConnectionManager.lobby_broadcast self game (MsgGame m).
Proof.
  unfold ConnectionManager.lobby_frames, ConnectionManager.broadcast_to_room,
    ConnectionManager.lobby_broadcast.
  induction (Game.players game) as [|p l IH]; [done|].
  rewrite !bind_cons, fmap_app, IH. f_equal.
  unfold ConnectionManager.send_to_player, ConnectionManager.lobby_send.
  by case_decide.
Qed.

Lemma elem_of_lobby_send (self : ConnectionManager.t) (player_id : string)
    (m : LobbyMessage) (frame : ConnectionManager.LobbySent) :
  frame ∈ ConnectionManager.lobby_send self player_id m →
  frame = (player_id, m) ∧ player_id ∈ ConnectionManager.connections self.
Proof.
  unfold ConnectionManager.lobby_send. case_decide.
  - by intros ->%list_elem_of_singleton.
  - by intros ?%elem_of_nil.
Qed.

Lemma elem_of_lobby_broadcast (self : ConnectionManager.t) (game : Game.t)
    (m : LobbyMessage) (frame : ConnectionManager.LobbySent) :
  frame ∈ ConnectionManager.lobby_broadcast self game m →
  frame.2 = m ∧ frame.1 ∈ ConnectionManager.connections self ∧
  frame.1 ∈ Player.id <$> Game.players game.
Proof.
  unfold ConnectionManager.lobby_broadcast.
  intros (p & [-> Hconn]%elem_of_lobby_send & Hp)%list_elem_of_bind.
  split; [done|]. split; [done|]. apply list_elem_of_fmap. by exists p.
Qed.

Lemma player_room_entry_Some (rm : RoomManager.t) (player_id code : string)
    (game : Game.t) :
  RoomManager.player_room_entry rm player_id = Some (code, game) →
  RoomManager.player_rooms rm !! player_id = Some code ∧
  RoomManager.rooms rm !! code = Some game.
Proof.
  unfold RoomManager.player_room_entry.
  destruct (RoomManager.player_rooms rm !! player_id) as [c|]; [|done].
  destruct (String.eqb c ""); [done|].
  destruct (RoomManager.rooms rm !! c) as [g|] eqn:Hg; [|done].
  cbn. by intros [= -> ->].
Qed.

Lemma remove_player_forgets (rm : RoomManager.t) (player_id : string) :
  RoomManager.player_rooms (RoomManager.remove_player rm player_id).1
    !! player_id = None.
Proof.
  destruct (remove_player_cases rm player_id)
    as [[Hnone ->]|(code & Hcode & [[Hroom ->]|(game & Hroom &
         [[Hempty ->]|(first & rest & game' & Hfilter & -> & ->)])])];
    cbn; first [done|apply lookup_delete_eq].
Qed.

(** [_send_round_start] for a round in which nobody has bid yet, at a
    table of two or more. *)
Lemma send_round_start_eq (self : ConnectionManager.t) (g : Game.t)
    (round : RoundState.t) (first : Player.t) :
  Game.current_round g = Some round →
  RoundState.current_bidder_index round = 0 →
  2 ≤ Py.len (Game.players g) →
  Game.players g
    !! Z.to_nat ((Game.dealer_index g + 1) mod Py.len (Game.players g))
  = Some first →
  ConnectionManager._send_round_start self g
  = Ok (round_start_frames self g round first).
Proof.
  intros Hround Hpos Hn Hfirst.
  assert (Hmod : 0 ≤ (Game.dealer_index g + 1) mod Py.len (Game.players g)
                 < Py.len (Game.players g))
    by (apply Z.mod_pos_bound; lia).
  unfold ConnectionManager._send_round_start,
    ConnectionManager._send_bid_request.
  rewrite Hround. py_step. rewrite Hpos.
  rewrite decide_False by lia.
  rewrite index_bidding_order by lia. py_step. rewrite Z.add_0_r.
  rewrite (index_lookup _ _ first) by (first [lia|done]). py_step.
  unfold get_forbidden_bid. rewrite Hround, Hpos.
  rewrite decide_True by lia.
  by rewrite lobby_frames_broadcast.
Qed.

(** The seat left of the dealer is occupied once the hands are dealt. *)
Lemma started_round_first (shuffled : list Card.t) (g : Game.t) (c : Z)
    (trump : Suit) :
  1 ≤ Py.len (Game.players g) →
  is_Some
    (Game.players (started_round shuffled g c trump)
       !! Z.to_nat ((Game.dealer_index g + 1) mod Py.len (Game.players g))).
Proof.
  intros Hn.
  assert (Hmod : 0 ≤ (Game.dealer_index g + 1) mod Py.len (Game.players g)
                 < Py.len (Game.players g))
    by (apply Z.mod_pos_bound; lia).
  apply lookup_lt_is_Some. cbn.
  rewrite deal_hands_length, length_fmap. unfold Py.len in *. lia.
Qed.

Lemma trump_order_total (i : Z) :
  is_Some (TRUMP_ORDER !! Z.to_nat (i mod 4)).
Proof.
  assert (Hmod : 0 ≤ i mod 4 < 4) by (apply Z.mod_pos_bound; lia).
  apply lookup_lt_is_Some. cbn. lia.
Qed.

(** X18: [handle_disconnect] always drops the connection, and only that
    one. While the player's room is past the WAITING phase, or the player
    is in no room, the registry is left as it was and nothing is sent: the
    seat is kept for a reconnection. In the WAITING phase the player
    leaves the registry. Every frame sent is a player_left notice that
    names the leaver and the current host, and goes to a connected player
    who is still seated, never to the leaver. *)
Theorem handle_disconnect_effect (self : ConnectionManager.t)
    (player_id : string) :
  let rm := ConnectionManager.room_manager self in
  let self' := (ConnectionManager.handle_disconnect self player_id).1 in
  let out := (ConnectionManager.handle_disconnect self player_id).2 in
  ConnectionManager.connections self'
  = ConnectionManager.connections self ∖ {[player_id]} ∧
  (∀ q m, (q, m) ∈ out →
     q ≠ player_id ∧ q ∈ ConnectionManager.connections self ∧
     ∃ game', RoomManager.get_player_room rm player_id ≠ None ∧
       (RoomManager.remove_player rm player_id).2 = Some game' ∧
       q ∈ Player.id <$> Game.players game' ∧
       m = MsgPlayerLeft player_id (Game.players game')
             (Game.host_id game') (Game.host_id game')) ∧
  (∀ game, RoomManager.get_player_room rm player_id = Some game →
     Game.phase game ≠ WAITING →
     ConnectionManager.room_manager self' = rm ∧ out = []) ∧
  (∀ game, RoomManager.get_player_room rm player_id = Some game →
     Game.phase game = WAITING →
     ConnectionManager.room_manager self'
     = (RoomManager.remove_player rm player_id).1 ∧
     RoomManager.get_player_room (ConnectionManager.room_manager self')
       player_id = None) ∧
  (RoomManager.get_player_room rm player_id = None →
   ConnectionManager.room_manager self' = rm ∧ out = []).
Proof.
  cbv zeta. unfold ConnectionManager.handle_disconnect.
  cbn [ConnectionManager.room_manager ConnectionManager.connections].
  destruct (RoomManager.get_player_room _ player_id) as [game|] eqn:Hroom.
  2: { cbn. split; [done|]. split; [by intros q m ?%elem_of_nil|].
       split; [done|]. split; [done|]. done. }
  destruct (decide (Game.phase game = WAITING)) as [Hphase|Hphase].
  2: { cbn. split; [done|]. split; [by intros q m ?%elem_of_nil|].
       split; [by intros ? [= <-]|]. split; [|done].
       intros ? [= <-] ?. done. }
  pose proof (remove_player_forgets
                (ConnectionManager.room_manager self) player_id) as Hgone.
  destruct (RoomManager.remove_player _ player_id)
    as [registry [game'|]] eqn:Hrem; cbn in *.
  - split; [done|]. split.
    { intros q m (Hm & Hq & Hseat)%elem_of_lobby_broadcast. cbn in *.
      apply elem_of_difference in Hq as [Hq Hne].
      split; [by intros ->; apply Hne, elem_of_singleton|].
      split; [done|]. exists game'. by rewrite Hm. }
    split; [by intros ? [= <-]|]. split; [|done].
    intros ? _ _. split; [done|].
    unfold RoomManager.get_player_room, RoomManager.player_room_entry.
    by rewrite Hgone.
  - split; [done|]. split; [by intros q m ?%elem_of_nil|].
    split; [by intros ? [= <-]|]. split; [|done].
    intros ? _ _. split; [done|].
    unfold RoomManager.get_player_room, RoomManager.player_room_entry.
    by rewrite Hgone.
Qed.

(** X19: a start_game request of the host of a room with at least four
    players never fails, whatever the phase of the room: the round
    sequence is rebuilt as the pyramid for the number of players,
    [start_new_round] deals the round at the current round index, and the
    resulting game, in the BIDDING phase, is the one stored under the room
    code; nothing else of the registry or the connections changes. Each
    connected player of the room is sent game_started, then round_start
    with their own hand, then the bid turn of the player left of the
    dealer, with no forbidden bid. *)
Theorem handle_start_game_starts (self : ConnectionManager.t)
    (player_id code : string) (game : Game.t) (shuffled : list Card.t)
    (c : Z) :
  let n := Py.len (Game.players game) in
  let sequence := pyramid (Z.min 10 (52 / n)) in
  RoomManager.player_room_entry (ConnectionManager.room_manager self)
    player_id = Some (code, game) →
  Game.host_id game = player_id →
  4 ≤ n →
  0 ≤ Game.current_round_index game →
  sequence !! Z.to_nat (Game.current_round_index game) = Some c →
  ∃ game' round first,
    start_new_round shuffled (Game.set_round_sequence sequence game)
    = Ok game' ∧
    Game.phase game' = BIDDING ∧
    Game.round_sequence game' = sequence ∧
    Game.current_round game' = Some round ∧
    RoundState.num_cards round = c ∧
    RoundState.bids round = ∅ ∧
    Game.players game' !! Z.to_nat ((Game.dealer_index game + 1) mod n)
    = Some first ∧
    let self' := ConnectionManager.put_game code game' self in
    RoomManager.rooms (ConnectionManager.room_manager self') !! code
    = Some game' ∧
    ConnectionManager._handle_start_game self player_id shuffled
    = Ok (self',
          ConnectionManager.lobby_broadcast self' game'
            (MsgGameStarted (Game.room_code game))
          ++ round_start_frames self' game' round first).
Proof.
  intros n sequence Hentry Hhost Hn Hidx Hc.
  destruct (trump_order_total (Game.current_round_index game))
    as [trump Htrump].
  set (game1 := Game.set_round_sequence sequence game).
  destruct (started_round_first shuffled game1 c trump) as [first Hfirst];
    [cbn; fold n; lia|].
  assert (Hstart : start_new_round shuffled game1
                   = Ok (started_round shuffled game1 c trump)).
  { apply start_new_round_eq; [cbn; fold n; lia|done|done|done]. }
  exists (started_round shuffled game1 c trump),
    (RoundState.mk (Game.current_round_index game) c trump
       (Game.dealer_index game) 0 ∅ None [] 0 []), first.
  split; [exact Hstart|]. split; [done|]. split; [done|].
  split; [reflexivity|]. split; [done|]. split; [done|].
  split; [exact Hfirst|]. cbv zeta.
  split; [cbn; apply lookup_insert_eq|].
  unfold ConnectionManager._handle_start_game. rewrite Hentry.
  rewrite decide_False by (by intros ?).
  rewrite decide_False by (fold n; lia).
  rewrite build_round_sequence_eq by (fold n; lia).
  py_step. fold n sequence game1. rewrite Hstart. py_step.
  assert (Hlen : Py.len (Game.players (started_round shuffled game1 c trump))
                 = n).
  { cbn. unfold Py.len. by rewrite deal_hands_length, length_fmap. }
  erewrite send_round_start_eq;
    [|reflexivity|reflexivity|rewrite Hlen; lia|rewrite Hlen; exact Hfirst].
  py_step. reflexivity.
Qed.

(** A fresh room of four whose host starts the game. *)
Lemma handle_start_game_starts_witness :
  RoomManager.player_room_entry
    (ConnectionManager.room_manager (serving four_player_game)) "p0"
  = Some ("ROOM1", four_player_game) ∧
  ∃ self' out game',
    ConnectionManager._handle_start_game (serving four_player_game) "p0"
      Deck.reset
    = Ok (self', out) ∧
    RoomManager.rooms (ConnectionManager.room_manager self') !! "ROOM1"
    = Some game' ∧
    Game.phase game' = BIDDING ∧
    Py.len (Game.round_sequence game') = 19 ∧
    Player.hand <$> Game.players game'
    = [[Card.mk SPADES TWO]; [Card.mk SPADES THREE]; [Card.mk SPADES FOUR];
       [Card.mk SPADES FIVE]] ∧
    length out = 12%nat.
Proof.
  assert (Hentry : RoomManager.player_room_entry
            (ConnectionManager.room_manager (serving four_player_game)) "p0"
          = Some ("ROOM1", four_player_game)) by (by vm_compute).
  split; [exact Hentry|].
  destruct (handle_start_game_starts (serving four_player_game) "p0" "ROOM1"
              four_player_game Deck.reset 1 Hentry)
    as (game' & round & first & Hstart & Hphase & Hseq & _ & _ & _ & _
        & Hput & Hrun);
    [reflexivity|by vm_compute|by vm_compute|reflexivity|].
  eexists _, _, game'. split; [exact Hrun|]. split; [exact Hput|].
  split; [exact Hphase|].
  vm_compute in Hstart. injection Hstart as <-.
  split; [by vm_compute|]. split; [by vm_compute|]. by vm_compute.
Defined.

(** X20: a start_game request from a player who is in no room, who is not
    the host of their room, or whose room has fewer than four players
    changes nothing, and the only frame is one error for the requester
    (none if the requester has no connection). *)
Theorem handle_start_game_refused (self : ConnectionManager.t)
    (player_id : string) (shuffled : list Card.t) :
  (∀ game,
     RoomManager.get_player_room (ConnectionManager.room_manager self)
       player_id = Some game →
     Game.host_id game ≠ player_id ∨ Py.len (Game.players game) < 4) →
  ∃ message,
    ConnectionManager._handle_start_game self player_id shuffled
    = Ok (self,
          ConnectionManager.lobby_send self player_id
            (MsgGame (MsgError message))) ∧
    (message = "Not in a room" ∨
     message = "Only the host can start the game" ∨
     message = "Need at least 4 players to start").
Proof.
  intros Hno. unfold ConnectionManager._handle_start_game.
  unfold RoomManager.get_player_room in Hno.
  destruct (RoomManager.player_room_entry _ player_id) as [[code game]|];
    [|by eauto].
  destruct (decide (Game.host_id game ≠ player_id)) as [|Hhost];
    [by eauto 6|].
  destruct (decide (Py.len (Game.players game) < 4)) as [|Hfew];
    [by eauto 6|].
  destruct (Hno game eq_refl); [done|lia].
Qed.

(** A player who is not the host asks to start. *)
Lemma handle_start_game_refused_witness :
  (∀ game,
     RoomManager.get_player_room
       (ConnectionManager.room_manager (serving four_player_game)) "p2"
     = Some game →
     Game.host_id game ≠ "p2" ∨ Py.len (Game.players game) < 4) ∧
  ConnectionManager._handle_start_game (serving four_player_game) "p2"
    Deck.reset
  = Ok (serving four_player_game,
        [("p2", MsgGame (MsgError "Only the host can start the game"))]).
Proof.
  assert (Hno : ∀ game,
     RoomManager.get_player_room
       (ConnectionManager.room_manager (serving four_player_game)) "p2"
     = Some game →
     Game.host_id game ≠ "p2" ∨ Py.len (Game.players game) < 4).
  { intros game Hgame. vm_compute in Hgame. injection Hgame as <-.
    left. by vm_compute. }
  split; [exact Hno|].
  destruct (handle_start_game_refused (serving four_player_game) "p2"
              Deck.reset Hno) as (message & Hrun & _).
  rewrite Hrun. vm_compute in Hrun. injection Hrun as <-. by vm_compute.
Defined.

Lemma put_game_put_game (code : string) (g1 g2 : Game.t)
    (self : ConnectionManager.t) :
  ConnectionManager.put_game code g2 (ConnectionManager.put_game code g1 self)
  = ConnectionManager.put_game code g2 self.
Proof.
  unfold ConnectionManager.put_game, RoomManager.put_room. cbn.
  by rewrite insert_insert_eq.
Qed.

(** The game after an [advance_to_next_round] that found a next round. *)
Definition advanced (game : Game.t) : Game.t :=
  Game.set_dealer_index
    ((Game.dealer_index game + 1) mod Py.len (Game.players game))
    (Game.set_current_round_index (Game.current_round_index game + 1) game).

Lemma advance_to_next_round_next (game : Game.t) :
  Py.len (Game.players game) ≠ 0 →
  Game.current_round_index game + 1 < Py.len (Game.round_sequence game) →
  advance_to_next_round game = Ok (advanced game, true).
Proof.
  intros Hn Hnext. rewrite advance_to_next_round_eq by done. cbv zeta.
  rewrite bool_decide_eq_false_2 by lia. by destruct game.
Qed.

(** X21: a next_round request of the host, in the ROUND_RESULT phase of a
    room with at least two players and a round left, never fails: the
    round index goes up by one, the dealer moves one seat on, and
    [start_new_round] deals the new round; the phase is BIDDING, the turn
    is two seats after the old dealer, the round has no bids, and round
    sequence and score history are kept. The game is stored under the room
    code. Each connected player of the room is sent round_start with
    their own hand, then the bid turn of the player left of the new
    dealer. *)
Theorem handle_next_round_starts (self : ConnectionManager.t)
    (player_id code : string) (game : Game.t) (shuffled : list Card.t)
    (c : Z) :
  let n := Py.len (Game.players game) in
  let index := Game.current_round_index game + 1 in
  let dealer := (Game.dealer_index game + 1) mod n in
  RoomManager.player_room_entry (ConnectionManager.room_manager self)
    player_id = Some (code, game) →
  Game.phase game = ROUND_RESULT →
  Game.host_id game = player_id →
  2 ≤ n →
  0 ≤ index →
  Game.round_sequence game !! Z.to_nat index = Some c →
  ∃ trump first round game',
    TRUMP_ORDER !! Z.to_nat (index mod 4) = Some trump ∧
    start_new_round shuffled (advanced game) = Ok game' ∧
    Game.phase game' = BIDDING ∧
    Game.current_round_index game' = index ∧
    Game.dealer_index game' = dealer ∧
    Game.current_turn_index game' = (Game.dealer_index game + 2) mod n ∧
    round = RoundState.mk index c trump dealer 0 ∅ None [] 0 [] ∧
    Game.current_round game' = Some round ∧
    Game.round_sequence game' = Game.round_sequence game ∧
    Game.scores_history game' = Game.scores_history game ∧
    Game.players game' !! Z.to_nat ((Game.dealer_index game + 2) mod n)
    = Some first ∧
    let self' := ConnectionManager.put_game code game' self in
    RoomManager.rooms (ConnectionManager.room_manager self') !! code
    = Some game' ∧
    ConnectionManager._handle_next_round self player_id shuffled
    = Ok (self', round_start_frames self' game' round first).
Proof.
  intros n index dealer Hentry Hphase Hhost Hn Hidx Hc.
  destruct (trump_order_total index) as [trump Htrump].
  assert (Hnext : index < Py.len (Game.round_sequence game)).
  { apply lookup_lt_Some in Hc. unfold Py.len. lia. }
  assert (Hturn : (dealer + 1) mod n = (Game.dealer_index game + 2) mod n).
  { subst dealer. rewrite Z.add_mod_idemp_l by lia. f_equal. lia. }
  assert (Hadv : advance_to_next_round game = Ok (advanced game, true)).
  { apply advance_to_next_round_next; [fold n; lia|done]. }
  assert (Hstart : start_new_round shuffled (advanced game)
                   = Ok (started_round shuffled (advanced game) c trump)).
  { apply start_new_round_eq; [cbn; fold n; lia|done|done|done]. }
  destruct (started_round_first shuffled (advanced game) c trump)
    as [first Hfirst]; [cbn; fold n; lia|].
  assert (Hlen : Py.len (Game.players
                           (started_round shuffled (advanced game) c trump))
                 = n).
  { cbn. unfold Py.len. by rewrite deal_hands_length, length_fmap. }
  change (Game.dealer_index (advanced game)) with dealer in Hfirst.
  change (Py.len (Game.players (advanced game))) with n in Hfirst.
  rewrite Hturn in Hfirst.
  exists trump, first, (RoundState.mk index c trump dealer 0 ∅ None [] 0 []),
    (started_round shuffled (advanced game) c trump).
  split; [done|]. split; [exact Hstart|]. split; [done|]. split; [done|].
  split; [done|]. split; [exact Hturn|]. split; [done|]. split; [done|].
  split; [done|]. split; [done|]. split; [exact Hfirst|]. cbv zeta.
  split; [cbn; apply lookup_insert_eq|].
  unfold ConnectionManager._handle_next_round. rewrite Hentry.
  rewrite decide_False by congruence.
  rewrite decide_False by (by intros ?).
  rewrite decide_False by (by intros ?).
  rewrite Hadv. py_step. cbn [negb]. rewrite Hstart. py_step.
  rewrite put_game_put_game.
  erewrite send_round_start_eq;
    [|reflexivity|reflexivity|rewrite Hlen; lia
     |rewrite Hlen;
      change (Game.dealer_index (started_round shuffled (advanced game)
                                   c trump)) with dealer;
      rewrite Hturn; exact Hfirst].
  py_step. reflexivity.
Qed.

(** A table of four after its first round: the host asks for the second
    round. *)
Definition round_result_game : Game.t :=
  Game.mk "ROOM1" "p0" four_players ROUND_RESULT
    [1; 2; 3; 4; 5; 6; 7; 8; 9; 10; 9; 8; 7; 6; 5; 4; 3; 2; 1]
    0 None 0 1 [].

Lemma handle_next_round_starts_witness :
  RoomManager.player_room_entry
    (ConnectionManager.room_manager (serving round_result_game)) "p0"
  = Some ("ROOM1", round_result_game) ∧
  ∃ self' out game',
    ConnectionManager._handle_next_round (serving round_result_game) "p0"
      Deck.reset
    = Ok (self', out) ∧
    RoomManager.rooms (ConnectionManager.room_manager self') !! "ROOM1"
    = Some game' ∧
    Game.phase game' = BIDDING ∧
    Game.current_round_index game' = 1 ∧
    Game.dealer_index game' = 1 ∧
    Game.current_turn_index game' = 2 ∧
    (RoundState.trump_suit <$> Game.current_round game') = Some DIAMONDS ∧
    length out = 8%nat.
Proof.
  assert (Hentry : RoomManager.player_room_entry
            (ConnectionManager.room_manager (serving round_result_game)) "p0"
          = Some ("ROOM1", round_result_game)) by (by vm_compute).
  split; [exact Hentry|].
  destruct (handle_next_round_starts (serving round_result_game) "p0" "ROOM1"
              round_result_game Deck.reset 2 Hentry)
    as (trump & first & round & game' & _ & Hstart & Hphase & Hi & Hd & Ht
        & _ & _ & _ & _ & _ & Hput & Hrun);
    [reflexivity|reflexivity|by vm_compute|by vm_compute|reflexivity|].
  eexists _, _, game'. split; [exact Hrun|]. split; [exact Hput|].
  split; [exact Hphase|]. split; [exact Hi|]. split; [exact Hd|].
  split; [exact Ht|].
  vm_compute in Hstart. injection Hstart as <-.
  split; [reflexivity|]. by vm_compute.
Defined.

(** X22: a next_round request from a player whose room is not in the
    ROUND_RESULT phase, or who is not its host, changes nothing; the only
    frame is one error for the requester. When the request passes these
    checks but no round is left, the reply is an error as well, yet by
    then the room has been changed: its round index and dealer have been
    advanced and its phase is GAME_OVER. *)
Theorem handle_next_round_refusals (self : ConnectionManager.t)
    (player_id code : string) (game : Game.t) (shuffled : list Card.t) :
  let n := Py.len (Game.players game) in
  RoomManager.player_room_entry (ConnectionManager.room_manager self)
    player_id = Some (code, game) →
  (Game.phase game ≠ ROUND_RESULT ∨ Game.host_id game ≠ player_id →
   ∃ message,
     ConnectionManager._handle_next_round self player_id shuffled
     = Ok (self,
           ConnectionManager.lobby_send self player_id
             (MsgGame (MsgError message))) ∧
     (message = "Game is already over" ∨
      message = "Not ready for next round" ∨
      message = "Only the host can start the next round")) ∧
  (Game.phase game = ROUND_RESULT →
   Game.host_id game = player_id →
   1 ≤ n →
   Game.current_round_index game + 1 >= Py.len (Game.round_sequence game) →
   ∃ game',
     ConnectionManager._handle_next_round self player_id shuffled
     = Ok (ConnectionManager.put_game code game' self,
           ConnectionManager.lobby_send self player_id
             (MsgGame (MsgError "No more rounds available"))) ∧
     Game.phase game' = GAME_OVER ∧
     Game.current_round_index game' = Game.current_round_index game + 1 ∧
     Game.dealer_index game' = (Game.dealer_index game + 1) mod n ∧
     Game.players game' = Game.players game ∧
     Game.current_round game' = Game.current_round game ∧
     Game.scores_history game' = Game.scores_history game).
Proof.
  intros n Hentry. split.
  - intros Hno. unfold ConnectionManager._handle_next_round. rewrite Hentry.
    destruct (decide (Game.phase game = GAME_OVER)) as [|Hover];
      [by eauto 6|].
    destruct (decide (Game.phase game ≠ ROUND_RESULT)) as [|Hphase];
      [by eauto 6|].
    destruct (decide (Game.host_id game ≠ player_id)) as [|Hhost];
      [by eauto 6|].
    apply dec_stable in Hphase. apply dec_stable in Hhost.
    by destruct Hno.
  - intros Hphase Hhost Hn Hlast.
    unfold ConnectionManager._handle_next_round. rewrite Hentry.
    rewrite decide_False by congruence.
    rewrite decide_False by (by intros ?).
    rewrite decide_False by (by intros ?).
    rewrite advance_to_next_round_eq by (fold n; lia). cbv zeta.
    rewrite bool_decide_eq_true_2 by done. py_step. cbn [negb].
    eexists. split; [reflexivity|]. done.
Qed.

(** A request in the middle of a round. *)
Lemma handle_next_round_refusals_witness :
  RoomManager.player_room_entry
    (ConnectionManager.room_manager (serving last_play_game)) "p0"
  = Some ("ROOM1", last_play_game) ∧
  ConnectionManager._handle_next_round (serving last_play_game) "p0"
    Deck.reset
  = Ok (serving last_play_game,
        [("p0", MsgGame (MsgError "Not ready for next round"))]).
Proof.
  assert (Hentry : RoomManager.player_room_entry
            (ConnectionManager.room_manager (serving last_play_game)) "p0"
          = Some ("ROOM1", last_play_game)) by (by vm_compute).
  split; [exact Hentry|].
  destruct (handle_next_round_refusals (serving last_play_game) "p0" "ROOM1"
              last_play_game Deck.reset Hentry) as [Hrefused _].
  destruct Hrefused as (message & Hrun & _); [by left|].
  rewrite Hrun. vm_compute in Hrun. injection Hrun as <-. by vm_compute.
Defined.

(** The frames of [_send_round_start] hold no error. *)
Lemma send_round_start_no_error (self : ConnectionManager.t) (g : Game.t)
    (out : list ConnectionManager.LobbySent) :
  ConnectionManager._send_round_start self g = Ok out →
  ∀ q message, (q, MsgGame (MsgError message)) ∉ out.
Proof.
  unfold ConnectionManager._send_round_start,
    ConnectionManager._send_bid_request.
  destruct (Game.current_round g) as [round|]; [|done]. py_step.
  intros Hout q message Hin.
  assert (Hstart : ∀ l : list Player.t,
    (q, MsgGame (MsgError message))
    ∉ (player ← l;
       ConnectionManager.lobby_send self (Player.id player)
         (MsgRoundStart g (Game.players g) (Player.hand player)
            (Game.current_round_index g + 1)
            (Py.len (Game.round_sequence g))
            (RoundState.num_cards round) (RoundState.trump_suit round)))).
  { intros l (p & [[=] _]%elem_of_lobby_send & _)%list_elem_of_bind. }
  destruct (decide (RoundState.current_bidder_index round
                    >= Py.len (Game.players g))) as [|_].
  { cbn [mbind result_bind Py.bind assert_some] in Hout. injection Hout as <-.
    apply elem_of_app in Hin as [Hin|Hin]; [by eapply Hstart|].
    by apply elem_of_nil in Hin. }
  destruct (Py.index (get_bidding_order g) _) as [i|]; [|done].
  cbn [mbind result_bind Py.bind assert_some] in Hout.
  destruct (Py.index (Game.players g) i) as [bidder|]; [|done].
  cbn [mbind result_bind Py.bind assert_some] in Hout. injection Hout as <-.
  apply elem_of_app in Hin as [Hin|Hin]; [by eapply Hstart|].
  rewrite lobby_frames_broadcast in Hin.
  by apply elem_of_lobby_broadcast in Hin as [[=] _].
Qed.

(** X23: [finish_round] stores the scored game under the room code with
    round index, dealer, round sequence and seats as they were, one more
    snapshot in the score history, and the phase GAME_OVER if the round
    was the last of the sequence, ROUND_RESULT otherwise; connections and
    the mapping of players to rooms are not touched. So a next_round
    request that follows, from a player of that room, is never answered
    with the error for a missing round. *)
Theorem finish_round_leaves_next_round (self : ConnectionManager.t)
    (code : string) (game : Game.t) :
  let self1 := (ConnectionManager.finish_round self code game).1 in
  ConnectionManager.connections self1 = ConnectionManager.connections self ∧
  RoomManager.player_rooms (ConnectionManager.room_manager self1)
  = RoomManager.player_rooms (ConnectionManager.room_manager self) ∧
  ∃ game1,
    RoomManager.rooms (ConnectionManager.room_manager self1) !! code
    = Some game1 ∧
    Game.current_round_index game1 = Game.current_round_index game ∧
    Game.dealer_index game1 = Game.dealer_index game ∧
    Game.round_sequence game1 = Game.round_sequence game ∧
    Player.id <$> Game.players game1 = Player.id <$> Game.players game ∧
    length (Game.scores_history game1)
    = S (length (Game.scores_history game)) ∧
    (Game.phase game1
     = if decide (Game.current_round_index game + 1
                  >= Py.len (Game.round_sequence game))
       then GAME_OVER else ROUND_RESULT) ∧
    ∀ player_id shuffled self2 out,
      RoomManager.player_room_entry (ConnectionManager.room_manager self1)
        player_id = Some (code, game1) →
      ConnectionManager._handle_next_round self1 player_id shuffled
      = Ok (self2, out) →
      ∀ q, (q, MsgGame (MsgError "No more rounds available")) ∉ out.
Proof.
  cbv zeta. unfold ConnectionManager.finish_round.
  destruct (score_round game) as [scored results] eqn:Hscore.
  assert (Hfields :
    Game.current_round_index scored = Game.current_round_index game ∧
    Game.dealer_index scored = Game.dealer_index game ∧
    Game.round_sequence scored = Game.round_sequence game ∧
    Player.id <$> Game.players scored = Player.id <$> Game.players game ∧
    length (Game.scores_history scored)
    = S (length (Game.scores_history game))).
  { unfold score_round in Hscore. injection Hscore as <- <-. cbn.
    split; [done|]. split; [done|]. split; [done|]. split.
    - rewrite <-!list_fmap_compose. apply list_fmap_ext.
      intros i p _. unfold score_player. cbn. by destruct (Player.bid p).
    - rewrite length_app. cbn. lia. }
  destruct Hfields as (Hi & Hd & Hs & Hp & Hh).
  assert (Hnext : ∀ (self1 : ConnectionManager.t) game1 player_id shuffled
                    self2 out,
    (Game.phase game1 = GAME_OVER ∨
     Game.phase game1 = ROUND_RESULT ∧
     Game.current_round_index game1 + 1
     < Py.len (Game.round_sequence game1)) →
    RoomManager.player_room_entry (ConnectionManager.room_manager self1)
      player_id = Some (code, game1) →
    ConnectionManager._handle_next_round self1 player_id shuffled
    = Ok (self2, out) →
    ∀ q, (q, MsgGame (MsgError "No more rounds available")) ∉ out).
  { intros self1 game1 player_id shuffled self2 out Hcase Hentry.
    unfold ConnectionManager._handle_next_round. rewrite Hentry.
    destruct (decide (Game.phase game1 = GAME_OVER)) as [|Hover].
    { intros [= <- <-] q [[=] _]%elem_of_lobby_send. }
    destruct Hcase as [|[Hphase Hleft]]; [done|].
    rewrite decide_False by (by intros ?).
    destruct (decide (Game.host_id game1 ≠ player_id)) as [|_].
    { intros [= <- <-] q [[=] _]%elem_of_lobby_send. }
    destruct (decide (Py.len (Game.players game1) = 0)) as [Hzero|Hn].
    { unfold advance_to_next_round, Py.modulo. cbn.
      by rewrite decide_True. }
    rewrite advance_to_next_round_next by done. py_step. cbn [negb].
    destruct (start_new_round shuffled (advanced game1)) as [game2|];
      [|done].
    py_step.
    destruct (ConnectionManager._send_round_start _ game2) as [more|] eqn:Hs2;
      [|done].
    py_step. intros [= <- <-] q. by eapply send_round_start_no_error. }
  case_bool_decide as Hlast; cbn.
  - split; [done|]. split; [done|]. eexists. split; [apply lookup_insert_eq|].
    cbn. split; [done|]. split; [done|]. split; [done|]. split; [done|].
    split; [done|]. split; [rewrite Hi, Hs in Hlast; by rewrite decide_True|].
    intros player_id shuffled self2 out Hentry Hrun.
    by apply (Hnext (ConnectionManager.put_game code
                       (Game.set_phase GAME_OVER scored) self)
                (Game.set_phase GAME_OVER scored) player_id shuffled self2
                out (or_introl eq_refl) Hentry Hrun).
  - split; [done|]. split; [done|]. eexists. split; [apply lookup_insert_eq|].
    cbn. split; [done|]. split; [done|]. split; [done|]. split; [done|].
    split; [done|].
    split; [rewrite Hi, Hs in Hlast; by rewrite decide_False|].
    intros player_id shuffled self2 out Hentry Hrun.
    apply (Hnext (ConnectionManager.put_game code
                    (Game.set_phase ROUND_RESULT scored) self)
             (Game.set_phase ROUND_RESULT scored) player_id shuffled self2
             out); [|exact Hentry|exact Hrun].
    right. cbn. split; [done|]. lia.
Qed.

(** ** What the game messages leave alone *)

(** Who sits where: the ids and names of the players of a room, in seat
    order. *)
Definition seats (g : Game.t) : list (string * string) :=
  (λ p, (Player.id p, Player.name p)) <$> Game.players g.

(** Two connection managers with the same connections, the same mapping
    of players to rooms, and the same seats in every room. *)
Definition same_tables (self self' : ConnectionManager.t) : Prop :=
  ConnectionManager.connections self' = ConnectionManager.connections self ∧
  RoomManager.player_rooms (ConnectionManager.room_manager self')
  = RoomManager.player_rooms (ConnectionManager.room_manager self) ∧
  ∀ c, seats <$> RoomManager.rooms (ConnectionManager.room_manager self') !! c
       = seats <$> RoomManager.rooms (ConnectionManager.room_manager self) !! c.

Lemma seats_ids (g : Game.t) : Player.id <$> Game.players g = fst <$> seats g.
Proof. unfold seats. by rewrite <-list_fmap_compose. Qed.

Lemma seats_names (g : Game.t) :
  Player.name <$> Game.players g = snd <$> seats g.
Proof. unfold seats. by rewrite <-list_fmap_compose. Qed.

Lemma seats_length (g : Game.t) :
  Py.len (Game.players g) = Z.of_nat (length (seats g)).
Proof. unfold seats, Py.len. by rewrite length_fmap. Qed.

Lemma seats_set_player (g : Game.t) (i : nat) (p p' : Player.t) :
  Game.players g !! i = Some p →
  Player.id p' = Player.id p →
  Player.name p' = Player.name p →
  seats (Game.set_player i p' g) = seats g.
Proof.
  intros Hp Hid Hname. unfold seats, Game.set_player. cbn.
  rewrite list_fmap_insert. apply list_insert_id.
  rewrite list_lookup_fmap, Hp. cbn. by rewrite Hid, Hname.
Qed.

Lemma find_player_lookup (g : Game.t) (player_id : string) (i : nat)
    (p : Player.t) :
  Game.find_player g player_id = Some (i, p) →
  Game.players g !! i = Some p ∧ Player.id p = player_id.
Proof. by intros (? & ? & _)%list_find_Some. Qed.

Lemma start_first_trick_seats (g g' : Game.t) :
  start_first_trick g = Ok g' → seats g' = seats g.
Proof.
  unfold start_first_trick.
  destruct (Game.current_round g) as [round|]; [|done]. py_step.
  unfold Py.modulo. case_decide; [done|]. py_step. cbn.
  destruct (Py.index (Game.players g) _) as [lead|]; [|done]. py_step.
  by intros [= <-].
Qed.

Lemma place_bid_seats (g g' : Game.t) (player_id : string) (bid : Z) :
  place_bid g player_id bid = Ok g' → seats g' = seats g.
Proof.
  unfold place_bid.
  destruct (Game.current_round g) as [round|]; [|done]. py_step.
  set (g1 := match Game.find_player g player_id with
             | Some (i, player) =>
                 Game.set_player i (Player.set_bid (Some bid) player) g
             | None => g
             end).
  assert (Hg1 : seats g1 = seats g).
  { subst g1. destruct (Game.find_player g player_id) as [[i p]|] eqn:Hf;
      [|done].
    apply find_player_lookup in Hf as [Hp _].
    by apply (seats_set_player g i p). }
  case_decide.
  - intros ->%start_first_trick_seats. by rewrite <-Hg1.
  - intros [= <-]. by rewrite <-Hg1.
Qed.

Lemma resolve_trick_seats (g g' : Game.t) (res : TrickResult.t) :
  resolve_trick g = Ok (g', res) → seats g' = seats g.
Proof.
  unfold resolve_trick.
  destruct (Game.current_round g) as [round|]; [|done]. py_step.
  destruct (RoundState.trick round) as [[a trick]|]; [|done]. py_step.
  destruct (Py.index (Trick.cards_played trick) 0) as [first|]; [|done].
  py_step.
  destruct (find_winner _ _ first _) as [best_player_id best_card].
  destruct (Game.find_player g best_player_id) as [[i winner]|] eqn:Hf;
    [|done].
  py_step. apply find_player_lookup in Hf as [Hp _].
  assert (Hs : seats (Game.set_player i
                        (Player.set_tricks_won (Player.tricks_won winner + 1)
                           winner) g) = seats g)
    by (by apply (seats_set_player g i winner)).
  case_decide.
  - intros [= <- _]. by rewrite <-Hs.
  - destruct (RoundState.alloc _ _) as [b round'].
    intros [= <- _]. by rewrite <-Hs.
Qed.

Lemma play_card_seats (g g' : Game.t) (player_id : string) (card : Card.t)
    (res : option TrickResult.t) :
  play_card g player_id card = Ok (g', res) → seats g' = seats g.
Proof.
  unfold play_card.
  destruct (Game.current_round g) as [round|]; [|done]. py_step.
  destruct (RoundState.trick round) as [[a trick]|]; [|done]. py_step.
  destruct (Game.find_player g player_id) as [[i player]|] eqn:Hf; [|done].
  py_step. apply find_player_lookup in Hf as [Hp _].
  destruct (Py.remove card (Player.hand player)) as [hand|]; [|done].
  py_step. unfold Py.modulo. case_decide; [done|]. py_step.
  assert (Hs : seats (Game.set_player i (Player.set_hand hand player) g)
               = seats g)
    by (by apply (seats_set_player g i player)).
  case_decide.
  - destruct (resolve_trick _) as [[g2 r]|] eqn:Hres; [|done]. py_step.
    intros [= <- _]. apply resolve_trick_seats in Hres.
    by rewrite Hres, <-Hs.
  - intros [= <- _]. by rewrite <-Hs.
Qed.

Lemma score_round_seats (g : Game.t) : seats (score_round g).1 = seats g.
Proof.
  unfold score_round, seats. cbn. rewrite <-!list_fmap_compose.
  apply list_fmap_ext. intros i p _. unfold score_player. cbn.
  by destruct (Player.bid p).
Qed.

Lemma deal_hands_seats (c : Z) (deck : list Card.t) (players : list Player.t) :
  (λ p, (Player.id p, Player.name p)) <$> deal_hands c deck players
  = (λ p, (Player.id p, Player.name p)) <$> players.
Proof.
  revert deck. induction players as [|p players IH]; intros deck; [done|].
  cbn [deal_hands]. destruct (Deck.deal c deck) as [dealt deck'].
  cbn. by rewrite IH.
Qed.

Lemma start_new_round_seats (shuffled : list Card.t) (g g' : Game.t) :
  start_new_round shuffled g = Ok g' → seats g' = seats g.
Proof.
  unfold start_new_round.
  destruct (Py.index (Game.round_sequence g) _) as [c|]; [|done]. py_step.
  destruct (Py.index TRUMP_ORDER _) as [trump|]; [|done]. py_step.
  unfold Py.modulo. case_decide; [done|]. py_step.
  intros [= <-]. unfold seats. cbn.
  rewrite deal_hands_seats, <-list_fmap_compose.
  apply list_fmap_ext. intros i p _. by destruct p.
Qed.

Lemma advance_to_next_round_seats (g g' : Game.t) (more : bool) :
  advance_to_next_round g = Ok (g', more) → seats g' = seats g.
Proof.
  destruct (decide (Py.len (Game.players g) = 0)) as [Hzero|Hn].
  - unfold advance_to_next_round, Py.modulo. cbn.
    by rewrite decide_True.
  - rewrite advance_to_next_round_eq by done. cbv zeta.
    by intros [= <- _].
Qed.

Lemma build_round_sequence_seats (g g' : Game.t) :
  Game.build_round_sequence g = Ok g' → seats g' = seats g.
Proof.
  unfold Game.build_round_sequence, Py.floordiv.
  case_decide; [done|]. py_step. by intros [= <-].
Qed.

Lemma same_tables_refl (self : ConnectionManager.t) : same_tables self self.
Proof. done. Qed.

Lemma same_tables_trans (a b c : ConnectionManager.t) :
  same_tables a b → same_tables b c → same_tables a c.
Proof.
  intros (Hc1 & Hp1 & Hs1) (Hc2 & Hp2 & Hs2).
  split; [congruence|]. split; [congruence|].
  intros k. by rewrite Hs2, Hs1.
Qed.

(** Storing a game with the seats of the game that was in its place. *)
Lemma same_tables_put_game (self : ConnectionManager.t) (code : string)
    (game game' : Game.t) :
  RoomManager.rooms (ConnectionManager.room_manager self) !! code
  = Some game →
  seats game' = seats game →
  same_tables self (ConnectionManager.put_game code game' self).
Proof.
  intros Hroom Hseats. split; [done|]. split; [done|]. intros c. cbn.
  destruct (decide (code = c)) as [<-|Hne].
  - by rewrite lookup_insert_eq, Hroom; cbn; rewrite Hseats.
  - by rewrite lookup_insert_ne.
Qed.

Lemma finish_round_same_tables (self : ConnectionManager.t) (code : string)
    (game0 game : Game.t) :
  RoomManager.rooms (ConnectionManager.room_manager self) !! code
  = Some game0 →
  seats game = seats game0 →
  same_tables self (ConnectionManager.finish_round self code game).1.
Proof.
  intros Hroom Hseats. unfold ConnectionManager.finish_round.
  pose proof (score_round_seats game) as Hscore.
  destruct (score_round game) as [scored results]. cbn in Hscore.
  case_bool_decide; cbn -[same_tables];
    apply (same_tables_put_game _ _ game0); first [done|by rewrite <-Hseats].
Qed.

Lemma handle_place_bid_same_tables (self self' : ConnectionManager.t)
    (player_id : string) (data : Request.t)
    (out : list ConnectionManager.Sent) :
  ConnectionManager._handle_place_bid self player_id data = Ok (self', out) →
  same_tables self self'.
Proof.
  unfold ConnectionManager._handle_place_bid.
  destruct (RoomManager.player_room_entry _ player_id) as [[code game]|]
    eqn:Hentry; [|by intros [= <- _]].
  apply player_room_entry_Some in Hentry as [_ Hroom].
  destruct (Request.bid data) as [[bid|]|]; [|done|by intros [= <- _]].
  py_step.
  destruct (validate_bid game player_id bid) as [error|]; [|done]. py_step.
  destruct (Py.truthy_str error); [by intros [= <- _]|].
  destruct (place_bid game player_id bid) as [game'|] eqn:Hbid; [|done].
  py_step. apply place_bid_seats in Hbid.
  pose proof (same_tables_put_game self code game game' Hroom Hbid) as Hsame.
  repeat case_decide.
  - destruct (ConnectionManager._send_bid_request _ _); [|done].
    by intros [= <- _].
  - destruct (ConnectionManager._send_play_request _ _); [|done].
    by intros [= <- _].
  - by intros [= <- _].
Qed.

Lemma handle_play_card_same_tables (self self' : ConnectionManager.t)
    (player_id : string) (data : Request.t)
    (out : list ConnectionManager.Sent) :
  ConnectionManager._handle_play_card self player_id data = Ok (self', out) →
  same_tables self self'.
Proof.
  unfold ConnectionManager._handle_play_card.
  destruct (RoomManager.player_room_entry _ player_id) as [[code game]|]
    eqn:Hentry; [|by intros [= <- _]].
  apply player_room_entry_Some in Hentry as [_ Hroom].
  destruct (Request.card data) as [card|[]]; try done;
    try (by intros [= <- _]).
  destruct (validate_play game player_id card) as [error|]; [|done]. py_step.
  destruct (Py.truthy_str error); [by intros [= <- _]|].
  destruct (play_card game player_id card) as [[game' result]|] eqn:Hplay;
    [|done].
  py_step. apply play_card_seats in Hplay.
  pose proof (same_tables_put_game self code game game' Hroom Hplay) as Hsame.
  destruct result as [result|].
  - destruct (TrickResult.round_over result).
    + pose proof (finish_round_same_tables
                    (ConnectionManager.put_game code game' self) code game'
                    game') as Hfinish.
      destruct (ConnectionManager.finish_round _ code game') as [self2 more].
      intros [= <- _]. apply (same_tables_trans _ _ _ Hsame).
      apply Hfinish; [cbn; apply lookup_insert_eq|done].
    + destruct (ConnectionManager._send_play_request _ _); [|done].
      by intros [= <- _].
  - destruct (ConnectionManager._send_play_request _ _); [|done].
    by intros [= <- _].
Qed.

Lemma handle_start_game_same_tables (self self' : ConnectionManager.t)
    (player_id : string) (shuffled : list Card.t)
    (out : list ConnectionManager.LobbySent) :
  ConnectionManager._handle_start_game self player_id shuffled
  = Ok (self', out) →
  same_tables self self'.
Proof.
  unfold ConnectionManager._handle_start_game.
  destruct (RoomManager.player_room_entry _ player_id) as [[code game]|]
    eqn:Hentry; [|by intros [= <- _]].
  apply player_room_entry_Some in Hentry as [_ Hroom].
  repeat case_decide; try (by intros [= <- _]).
  destruct (Game.build_round_sequence game) as [game1|] eqn:Hbuild; [|done].
  py_step.
  destruct (start_new_round shuffled game1) as [game2|] eqn:Hstart; [|done].
  py_step.
  destruct (ConnectionManager._send_round_start _ _); [|done].
  intros [= <- _]. apply (same_tables_put_game _ _ game); [done|].
  apply build_round_sequence_seats in Hbuild.
  apply start_new_round_seats in Hstart. congruence.
Qed.

Lemma handle_next_round_same_tables (self self' : ConnectionManager.t)
    (player_id : string) (shuffled : list Card.t)
    (out : list ConnectionManager.LobbySent) :
  ConnectionManager._handle_next_round self player_id shuffled
  = Ok (self', out) →
  same_tables self self'.
Proof.
  unfold ConnectionManager._handle_next_round.
  destruct (RoomManager.player_room_entry _ player_id) as [[code game]|]
    eqn:Hentry; [|by intros [= <- _]].
  apply player_room_entry_Some in Hentry as [_ Hroom].
  repeat case_decide; try (by intros [= <- _]).
  destruct (advance_to_next_round game) as [[game1 has_next]|] eqn:Hadv;
    [|done].
  py_step. apply advance_to_next_round_seats in Hadv.
  pose proof (same_tables_put_game self code game game1 Hroom Hadv) as Hsame.
  destruct has_next; cbn [negb]; [|by intros [= <- _]].
  destruct (start_new_round shuffled game1) as [game2|] eqn:Hstart; [|done].
  py_step. apply start_new_round_seats in Hstart.
  destruct (ConnectionManager._send_round_start _ _); [|done].
  intros [= <- _]. rewrite put_game_put_game.
  apply (same_tables_put_game _ _ game); [done|congruence].
Qed.

(** ** What every message preserves *)

(** Every room of the registry is within its limits. *)
Definition rooms_sound (rm : RoomManager.t) : Prop :=
  ∀ c g, RoomManager.rooms rm !! c = Some g → room_ok g.

Lemma seats_Exists_id (g g' : Game.t) (q : string) :
  seats g' = seats g →
  Exists (λ p, Player.id p = q) (Game.players g) →
  Exists (λ p, Player.id p = q) (Game.players g').
Proof. intros Hs. by rewrite !Exists_id_elem_of, !seats_ids, Hs. Qed.

Lemma seats_room_ok (g g' : Game.t) :
  seats g' = seats g → room_ok g → room_ok g'.
Proof.
  intros Hs (Hl & Hi & Hn). unfold room_ok.
  rewrite seats_length, seats_ids, seats_names, Hs.
  by rewrite <-seats_length, <-seats_ids, <-seats_names.
Qed.

Lemma same_tables_room (self self' : ConnectionManager.t) (c : string)
    (g' : Game.t) :
  same_tables self self' →
  RoomManager.rooms (ConnectionManager.room_manager self') !! c = Some g' →
  ∃ g, RoomManager.rooms (ConnectionManager.room_manager self) !! c = Some g ∧
       seats g' = seats g.
Proof.
  intros (_ & _ & Hs) Hg'. specialize (Hs c). rewrite Hg' in Hs.
  destruct (RoomManager.rooms _ !! c) as [g|]; [|done].
  exists g. split; [done|]. by injection Hs.
Qed.

Lemma same_tables_room_inv (self self' : ConnectionManager.t) (c : string)
    (g : Game.t) :
  same_tables self self' →
  RoomManager.rooms (ConnectionManager.room_manager self) !! c = Some g →
  ∃ g', RoomManager.rooms (ConnectionManager.room_manager self') !! c
        = Some g' ∧
        seats g' = seats g.
Proof.
  intros (_ & _ & Hs) Hg. specialize (Hs c). rewrite Hg in Hs.
  destruct (RoomManager.rooms _ !! c) as [g'|]; [|done].
  exists g'. split; [done|]. by injection Hs.
Qed.

Lemma same_tables_registry_ok (self self' : ConnectionManager.t) :
  same_tables self self' →
  registry_ok (ConnectionManager.room_manager self) →
  registry_ok (ConnectionManager.room_manager self').
Proof.
  intros Hsame Hok q c Hq.
  pose proof Hsame as (_ & Hmap & _). rewrite Hmap in Hq.
  destruct (Hok q c Hq) as (g & Hg & Hseat).
  destruct (same_tables_room_inv _ _ _ _ Hsame Hg) as (g' & Hg' & Hs).
  exists g'. split; [done|]. by apply (seats_Exists_id g).
Qed.

Lemma same_tables_rooms_sound (self self' : ConnectionManager.t) :
  same_tables self self' →
  rooms_sound (ConnectionManager.room_manager self) →
  rooms_sound (ConnectionManager.room_manager self').
Proof.
  intros Hsame Hok c g' Hg'.
  destruct (same_tables_room _ _ _ _ Hsame Hg') as (g & Hg & Hs).
  apply (seats_room_ok g); [done|]. by apply (Hok c).
Qed.

Lemma create_room_keeps_rooms_sound (self self' : RoomManager.t)
    (draws : list string) (player_id player_name : string) (game : Game.t) :
  rooms_sound self →
  RoomManager.create_room self draws player_id player_name
  = Some (self', game) →
  rooms_sound self'.
Proof.
  intros Hok. unfold RoomManager.create_room, RoomManager._generate_code.
  destruct (list_find _ draws) as [[i code]|]; cbn; [|done].
  intros [= <- <-] c g. cbn.
  destruct (decide (code = c)) as [<-|Hne].
  - rewrite lookup_insert_eq. intros [= <-]. unfold room_ok. cbn.
    split; [done|]. split; apply NoDup_singleton.
  - rewrite lookup_insert_ne by done. apply Hok.
Qed.

Lemma NoDup_fmap_filter {A B} (f : A → B) (P : A → Prop)
    `{∀ x, Decision (P x)} (l : list A) :
  NoDup (f <$> l) → NoDup (f <$> filter P l).
Proof.
  induction l as [|x l IH]; [done|]. rewrite fmap_cons, NoDup_cons.
  intros [Hx Hl]. rewrite filter_cons. case_decide; [|by apply IH].
  rewrite fmap_cons. apply NoDup_cons. split; [|by apply IH].
  intros (y & Hy & Hin%list_elem_of_filter)%list_elem_of_fmap.
  apply Hx, list_elem_of_fmap. exists y. by destruct Hin.
Qed.

Lemma remove_player_keeps_rooms_sound (self : RoomManager.t)
    (player_id : string) :
  rooms_sound self →
  rooms_sound (RoomManager.remove_player self player_id).1.
Proof.
  intros Hok.
  destruct (remove_player_cases self player_id)
    as [[Hnone ->]|(code & Hcode & [[Hroom ->]|(game & Hroom &
         [[Hempty ->]|(first & rest & game' & Hfil & -> & ->)])])];
    cbn; [done|done|..]; intros c g; cbn.
  - destruct (decide (code = c)) as [<-|Hne];
      [by rewrite lookup_delete_eq|].
    rewrite lookup_delete_ne by done. apply Hok.
  - destruct (decide (code = c)) as [<-|Hne];
      [|rewrite lookup_insert_ne by done; apply Hok].
    rewrite lookup_insert_eq. intros [= <-].
    destruct (Hok _ _ Hroom) as (Hl & Hi & Hn). unfold room_ok.
    cbn [Game.players]. rewrite <-Hfil.
    split; [|split; by apply NoDup_fmap_filter].
    unfold Py.len in *.
    pose proof (length_filter (λ p, Player.id p ≠ player_id)
                  (Game.players game)).
    lia.
Qed.

Lemma join_room_refusal_cases (self self' : RoomManager.t)
    (room_code player_id player_name err : string) (old : option string) :
  RoomManager.join_room self room_code player_id player_name
  = (self', (None, err, old)) →
  self' = self ∧ old = None.
Proof.
  intros Hjoin.
  destruct (join_room_cases self room_code player_id player_name)
    as [[_ Heq]|(game & Hroom & Hcases)]; cbv zeta in *.
  { rewrite Heq in Hjoin. by simplify_eq. }
  destruct Hcases as [[Hid Heq]|[(Hid & _ & i & existing & Hname & Heq)
    |[(_ & _ & _ & Heq)|[(_ & _ & Heq)|[(_ & _ & Heq)
    |(Hid & _ & Hlen & Hname & Heq)]]]]];
    rewrite Heq in Hjoin; by simplify_eq.
Qed.

(** How [_handle_join_room] leaves registry and connections: either as
    they were, or with the registry [join_room] returns and, for a
    reconnection, without the connection of the replaced id. *)
Lemma handle_join_room_outcome (self self' : ConnectionManager.t)
    (player_id player_name room_code : string)
    (out : list ConnectionManager.LobbySent) :
  ConnectionManager._handle_join_room self player_id player_name room_code
  = Ok (self', out) →
  self' = self ∨
  ∃ registry game error old,
    RoomManager.join_room (ConnectionManager.room_manager self) room_code
      player_id player_name = (registry, (game, error, old)) ∧
    ConnectionManager.room_manager self' = registry ∧
    ConnectionManager.connections self'
    = (if Py.truthy_str old
       then ConnectionManager.connections self ∖ {[default "" old]}
       else ConnectionManager.connections self) ∧
    (game = None → Py.truthy_str old = false).
Proof.
  unfold ConnectionManager._handle_join_room.
  destruct (decide (player_name = "" ∨ room_code = "")) as [|_];
    [intros [= <- _]; by left|].
  destruct (RoomManager.join_room _ room_code player_id player_name)
    as [registry [[game error] old]] eqn:Hjoin.
  intros Hrun. right. exists registry, game, error, old.
  split; [done|].
  destruct game as [game|].
  2: { injection Hrun as <- _.
       destruct (join_room_refusal_cases _ _ _ _ _ _ _ Hjoin) as [_ ->].
       done. }
  unfold mbind, result_bind, Py.bind in Hrun.
  destruct (Py.truthy_str old);
    repeat case_match; simplify_eq; done.
Qed.
